(** * Solana token creator: a shallow embedding of the two scripts

    [scripts/create_token.py] (the Token Provisioner) and
    [scripts/generate_report.py] (the Report Renderer) are glue code around
    an external command-line ledger client.  The embedding keeps the shape
    of the Python code:

    - the working directory is a finite map from path to file content;
    - every [subprocess.run] is recorded in a trace of spawned commands and
      answered by an oracle, so that "no process was spawned" is a statement
      about the trace;
    - exceptions are the left summand of a state-and-error monad, and
      [try ... except Exception] is [try_except];
    - Python dictionaries are insertion-ordered association lists of
      [pyval]s, so that "the result has no such key" is a statement about
      [dict_get].

    Strings are sequences of bytes (the UTF-8 encoding of the Python text);
    whitespace and letter case are the ASCII ones. *)

From Stdlib Require Import ZArith Floats.
From stdpp Require Import gmap strings list pretty.

Set Warnings "-inexact-float,-register-all".

(** ** The Python runtime the scripts rely on *)

Definition nl : string := String (Ascii.ascii_of_nat 10) EmptyString.
Definition dq : string := String (Ascii.ascii_of_nat 34) EmptyString.

(** [str.isspace] on the ASCII range: TAB, LF, VT, FF, CR, FS, GS, RS, US
    and the blank. *)
Definition is_space (c : Ascii.ascii) : bool :=
  let n := Ascii.nat_of_ascii c in
  (Nat.leb 9 n && Nat.leb n 13) || (Nat.leb 28 n && Nat.leb n 32).

Fixpoint lstrip (s : string) : string :=
  match s with
  | EmptyString => EmptyString
  | String c r => if is_space c then lstrip r else s
  end.

Fixpoint rstrip (s : string) : string :=
  match s with
  | EmptyString => EmptyString
  | String c r =>
      match rstrip r with
      | EmptyString => if is_space c then EmptyString else String c EmptyString
      | r' => String c r'
      end
  end.

(** [s.strip()] *)
Definition strip (s : string) : string := rstrip (lstrip s).

(** [s.split()]: the maximal runs of non-blank characters. *)
Fixpoint split_ws (s : string) : list string :=
  match s with
  | EmptyString => []
  | String c r =>
      if is_space c then split_ws r
      else match r with
           | EmptyString => [String c EmptyString]
           | String c' _ =>
               if is_space c' then String c EmptyString :: split_ws r
               else match split_ws r with
                    | w :: ws => String c w :: ws
                    | [] => [String c EmptyString]
                    end
           end
  end.

(** [s.split(sep)] for a one-character separator; the scripts use LF. *)
Fixpoint split_on (sep : Ascii.ascii) (s : string) : list string :=
  match s with
  | EmptyString => [EmptyString]
  | String c r =>
      if Ascii.eqb c sep then EmptyString :: split_on sep r
      else match split_on sep r with
           | l :: ls => String c l :: ls
           | [] => [String c EmptyString]
           end
  end.

Definition splitlines_nl (s : string) : list string :=
  split_on (Ascii.ascii_of_nat 10) s.

(** [pat in s] *)
Fixpoint contains (pat s : string) : bool :=
  String.prefix pat s ||
  match s with
  | EmptyString => false
  | String _ r => contains pat r
  end.

(** [sep.join(l)] *)
Fixpoint join (sep : string) (l : list string) : string :=
  match l with
  | [] => ""
  | [x] => x
  | x :: r => x +:+ sep +:+ join sep r
  end.

Definition is_upper (c : Ascii.ascii) : bool :=
  let n := Ascii.nat_of_ascii c in Nat.leb 65 n && Nat.leb n 90.
Definition is_lower (c : Ascii.ascii) : bool :=
  let n := Ascii.nat_of_ascii c in Nat.leb 97 n && Nat.leb n 122.
Definition to_upper (c : Ascii.ascii) : Ascii.ascii :=
  if is_lower c then Ascii.ascii_of_nat (Ascii.nat_of_ascii c - 32) else c.
Definition to_lower (c : Ascii.ascii) : Ascii.ascii :=
  if is_upper c then Ascii.ascii_of_nat (Ascii.nat_of_ascii c + 32) else c.

(** [s.title()]: a letter that follows a letter is lowered, any other letter
    is raised. *)
Fixpoint title_from (prev_cased : bool) (s : string) : string :=
  match s with
  | EmptyString => EmptyString
  | String c r =>
      let cased := is_upper c || is_lower c in
      String (if prev_cased then to_lower c else to_upper c) (title_from cased r)
  end.
Definition title (s : string) : string := title_from false s.

(** [l[-1]] *)
Definition last_item {A} (l : list A) : option A := last l.

(** Values that travel through dictionaries and JSON files. *)
Inductive pyval :=
| PNone
| PBool (b : bool)
| PInt (z : Z)
| PFloat (f : float)
| PStr (s : string)
| PList (l : list pyval)
| PDict (d : list (string * pyval)).

Definition pydict := list (string * pyval).

(** [d.get(k)] *)
Fixpoint dict_get (k : string) (d : pydict) : option pyval :=
  match d with
  | [] => None
  | (k', v) :: r => if String.eqb k k' then Some v else dict_get k r
  end.

(** [d[k] = v]: an existing key keeps its place, a new one goes last. *)
Fixpoint dict_set (k : string) (v : pyval) (d : pydict) : pydict :=
  match d with
  | [] => [(k, v)]
  | (k', v') :: r =>
      if String.eqb k k' then (k', v) :: r else (k', v') :: dict_set k v r
  end.

(** [k in d] *)
Definition dict_has (k : string) (d : pydict) : bool :=
  match dict_get k d with Some _ => true | None => false end.

(** Truth value of an object, as [if x:] takes it. *)
Definition truthy (v : pyval) : bool :=
  match v with
  | PNone => false
  | PBool b => b
  | PInt z => negb (Z.eqb z 0)
  | PFloat f => negb (PrimFloat.eqb f 0%float)
  | PStr s => negb (String.eqb s "")
  | PList l => match l with [] => false | _ => true end
  | PDict d => match d with [] => false | _ => true end
  end.

Definition str_truthy (s : string) : bool := negb (String.eqb s "").

(** A [datetime] is known to the scripts through three renderings only. *)
Record datetime := {
  dt_str : string;       (* str(d) *)
  dt_seconds : string;   (* d.strftime("%Y-%m-%d %H:%M:%S") *)
  dt_iso : string        (* d.isoformat() *)
}.

(** What a spawned process comes back with.  [SpawnError] is the [OSError]
    of a process that could not be started; its argument is [str(e)]. *)
Inductive proc_outcome :=
| Completed (returncode : Z) (stdout stderr : string)
| SpawnError (msg : string).

(** The world outside the interpreter: the files of the working directory,
    the commands spawned so far (oldest first), the lines printed, and the
    number of times the clock was read. *)
Record World := {
  fs : gmap string string;
  spawned : list (list string);
  console : list string;
  clock : nat
}.

(** Library and operating-system behaviour the scripts do not define.  The
    external tool may answer from everything that happened before; it is
    assumed not to write into the working directory. *)
Record Externals := {
  subprocess_run : World -> list string -> proc_outcome;
  datetime_now : nat -> datetime;
  (* float(s): the ValueError text, or the binary64 value *)
  py_float : string -> string + float;
  (* str(x) for a float *)
  float_str : float -> string;
  (* str(x) for a float, a list or a dict inside an f-string *)
  py_repr : pyval -> string;
  (* json.dumps(v, indent=2) *)
  json_dumps : pyval -> string;
  (* json.loads(s): the error text, or the value *)
  json_loads : string -> string + pyval;
  (* str(e) for subprocess.CalledProcessError(returncode, cmd) *)
  called_process_error_str : list string -> Z -> string
}.

(** [f"{v}"] *)
Definition py_str (ext : Externals) (v : pyval) : string :=
  match v with
  | PNone => "None"
  | PBool true => "True"
  | PBool false => "False"
  | PInt z => pretty z
  | PStr s => s
  | _ => py_repr ext v
  end.

(** File primitives: [open(p, 'w')] followed by writes, [open(p, 'a')]
    followed by one write, [os.path.exists].  Opening, reading and writing a
    file of the working directory always succeeds, and so does [print]: a
    file that cannot be written and a file or console encoding that refuses
    a text ([UnicodeEncodeError]) are not modelled.  What is said below of a
    script that returns is therefore said of the runs in which every write
    and every printed line goes through. *)
Definition write_file (p content : string) (w : World) : World :=
  {| fs := <[p := content]> (fs w); spawned := spawned w;
     console := console w; clock := clock w |}.

Definition append_file (p content : string) (w : World) : World :=
  {| fs := <[p := default "" (fs w !! p) +:+ content]> (fs w);
     spawned := spawned w; console := console w; clock := clock w |}.

Definition path_exists (p : string) (w : World) : bool :=
  match fs w !! p with Some _ => true | None => false end.

Definition print (line : string) (w : World) : World :=
  {| fs := fs w; spawned := spawned w;
     console := console w ++ [line]; clock := clock w |}.

Definition read_clock (ext : Externals) (w : World) : datetime * World :=
  (datetime_now ext (clock w),
   {| fs := fs w; spawned := spawned w; console := console w;
      clock := S (clock w) |}).

Definition spawn (ext : Externals) (command : list string) (w : World)
  : proc_outcome * World :=
  (subprocess_run ext w command,
   {| fs := fs w; spawned := spawned w ++ [command];
      console := console w; clock := clock w |}).

(** [subprocess.CompletedProcess] *)
Record CompletedProcess := {
  returncode : Z;
  stdout : string;
  stderr : string
}.

(** Exceptions.  [Exception msg] is [raise Exception(msg)] of the scripts;
    [LibraryError cls msg] is an exception of class [cls] raised by the
    runtime, with [str(e) = msg].  Both are caught by [except Exception]. *)
Inductive exn :=
| Exception (msg : string)
| LibraryError (cls msg : string).

Definition exn_str (e : exn) : string :=
  match e with
  | Exception msg => msg
  | LibraryError _ msg => msg
  end.

(** ** Code that reads and updates a state, and either returns or raises *)

Definition M (S A : Type) : Type := S -> (exn + A) * S.

Definition ret {S A} (a : A) : M S A := fun st => (inr a, st).

Definition raise {S A} (e : exn) : M S A := fun st => (inl e, st).

Definition bind {S A B} (c : M S A) (k : A -> M S B) : M S B :=
  fun st =>
    match c st with
    | (inr a, st') => k a st'
    | (inl e, st') => (inl e, st')
    end.

(** [try: c  except Exception as e: h e] *)
Definition try_except {S A} (c : M S A) (h : exn -> M S A) : M S A :=
  fun st =>
    match c st with
    | (inr a, st') => (inr a, st')
    | (inl e, st') => h e st'
    end.

Definition gets {S A} (f : S -> A) : M S A := fun st => (inr (f st), st).

Definition modify {S} (f : S -> S) : M S unit := fun st => (inr tt, f st).

Definition with_state {S A} (f : S -> A * S) : M S A :=
  fun st => let (a, st') := f st in (inr a, st').

Declare Scope py_scope.
Delimit Scope py_scope with py.
Notation "x <- c ;; k" := (bind c (fun x => k))
  (at level 100, c at next level, right associativity) : py_scope.
Notation "c ;; k" := (bind c (fun _ => k))
  (at level 100, right associativity) : py_scope.
Local Open Scope py_scope.

(** The state a computation leaves behind. *)
Definition exec {S A} (c : M S A) (st : S) : S := snd (c st).

(** [c] keeps [I]: whatever it returns or raises, a state in [I] is left
    in [I]. *)
Definition preserves {S A} (I : S -> Prop) (c : M S A) : Prop :=
  forall st, I st -> I (exec c st).

(** [d[k]]: a missing key is a [KeyError]. *)
Definition subscript {S} (d : pydict) (k : string) : M S pyval :=
  match dict_get k d with
  | Some v => ret v
  | None => raise (LibraryError "KeyError" ("'" +:+ k +:+ "'"))
  end.

(** ** scripts/create_token.py *)

Module CreateToken.

(** The attributes of a [SolanaTokenCreator] object. *)
Record SolanaTokenCreator := {
  wallet_path : string;
  network : string;
  log_file : string;
  token_mint : option string;
  token_account : option string
}.

Definition St : Type := SolanaTokenCreator * World.

Definition get_self : M St SolanaTokenCreator := gets fst.

Definition set_self (self : SolanaTokenCreator) : M St unit :=
  modify (fun st => (self, snd st)).

Definition with_world {A} (f : World -> A * World) : M St A :=
  with_state (fun st => let (a, w') := f (snd st) in (a, (fst st, w'))).

Definition on_world (f : World -> World) : M St unit :=
  modify (fun st => (fst st, f (snd st))).

Definition set_token_mint (m : string) : M St unit :=
  self <- get_self ;;
  set_self {| wallet_path := wallet_path self; network := network self;
              log_file := log_file self; token_mint := Some m;
              token_account := token_account self |}.

Definition set_token_account (a : string) : M St unit :=
  self <- get_self ;;
  set_self {| wallet_path := wallet_path self; network := network self;
              log_file := log_file self; token_mint := token_mint self;
              token_account := Some a |}.

(** Truth value of an attribute that is [None] or a string. *)
Definition attr_truthy (o : option string) : bool :=
  match o with
  | Some s => str_truthy s
  | None => false
  end.

Definition attr_val (o : option string) : pyval :=
  match o with
  | Some s => PStr s
  | None => PNone
  end.

(** An attribute used as item [i] of a command: [' '.join] refuses [None]. *)
Definition str_arg (i : nat) (o : option string) : M St string :=
  match o with
  | Some s => ret s
  | None =>
      raise (LibraryError "TypeError"
               ("sequence item " +:+ pretty i +:+
                ": expected str instance, NoneType found"))
  end.

(** ["=" * n] *)
Fixpoint str_mul (s : string) (n : nat) : string :=
  match n with
  | O => ""
  | S n' => s +:+ str_mul s n'
  end.

(** The first line of the loop [for line in lines: if marker in line: ...
    break]. *)
Fixpoint first_marked (marker : string) (lines : list string) : option string :=
  match lines with
  | [] => None
  | line :: rest =>
      if contains marker line then Some line else first_marked marker rest
  end.

(** The three lines [__init__] writes, and the line [log] appends. *)
Definition log_header (now : datetime) (net : string) : string :=
  "Token Creation Log - " +:+ dt_str now +:+ nl +:+
  "Network: " +:+ net +:+ nl +:+
  str_mul "=" 50 +:+ nl +:+ nl.

Definition log_entry (timestamp message : string) : string :=
  "[" +:+ timestamp +:+ "] " +:+ message +:+ nl.

Section Provisioner.

Context (ext : Externals).

Definition __init__ (wallet : string) (net : string) (w : World) : St :=
  let (now, w1) := read_clock ext w in
  let w2 := write_file "creation_log.txt" (log_header now net) w1 in
  ({| wallet_path := wallet; network := net;
      log_file := "creation_log.txt";
      token_mint := None; token_account := None |}, w2).

Definition log (message : string) (print_msg : bool) : M St unit :=
  self <- get_self ;;
  now <- with_world (read_clock ext) ;;
  let timestamp := dt_seconds now in
  on_world (append_file (log_file self) (log_entry timestamp message)) ;;
  if print_msg then on_world (print message) else ret tt.

(** Every call site leaves [capture_output] at its default. *)
Definition run_command (command : list string) : M St CompletedProcess :=
  let cmd_str := join " " command in
  log ("Executing: " +:+ cmd_str) true ;;
  out <- with_world (spawn ext command) ;;
  match out with
  | Completed rc so se =>
      if Z.eqb rc 0 then
        (if str_truthy so then log ("Output: " +:+ strip so) true else ret tt) ;;
        ret {| returncode := rc; stdout := so; stderr := se |}
      else
        let error_msg :=
          "Command failed: " +:+ cmd_str +:+ nl +:+ "Error: " +:+
          (if str_truthy se then se
           else called_process_error_str ext command rc) in
        log error_msg true ;;
        raise (Exception error_msg)
  | SpawnError msg => raise (LibraryError "OSError" msg)
  end.

Definition get_wallet_balance : M St float :=
  try_except
    (self <- get_self ;;
     result <- run_command ["solana"; "balance"; "--keypair"; wallet_path self] ;;
     match split_ws (strip (stdout result)) with
     | [] => raise (LibraryError "IndexError" "list index out of range")
     | balance_str :: _ =>
         match py_float ext balance_str with
         | inl msg => raise (LibraryError "ValueError" msg)
         | inr f => ret f
         end
     end)
    (fun e =>
       log ("Failed to get wallet balance: " +:+ exn_str e) true ;;
       ret 0%float).

Definition create_token_mint (decimals : Z) : M St string :=
  log "Creating token mint..." true ;;
  try_except
    (self <- get_self ;;
     result <- run_command ["spl-token"; "create-token";
                            "--keypair"; wallet_path self;
                            "--decimals"; pretty decimals] ;;
     let output_lines := splitlines_nl (strip (stdout result)) in
     match first_marked "Creating token" output_lines with
     | Some line =>
         match last_item (split_ws line) with
         | Some t => set_token_mint t
         | None => raise (LibraryError "IndexError" "list index out of range")
         end
     | None => ret tt
     end ;;
     self <- get_self ;;
     match token_mint self with
     | Some m =>
         if str_truthy m then
           log ("Token mint created: " +:+ m) true ;;
           on_world (write_file "token_mint.txt" m) ;;
           ret m
         else raise (Exception "Could not extract token mint address from output")
     | None => raise (Exception "Could not extract token mint address from output")
     end)
    (fun e =>
       log ("Failed to create token mint: " +:+ exn_str e) true ;;
       raise e).

Definition create_token_account : M St string :=
  log "Creating token account..." true ;;
  try_except
    (self <- get_self ;;
     mint <- str_arg 2 (token_mint self) ;;
     result <- run_command ["spl-token"; "create-account"; mint;
                            "--keypair"; wallet_path self] ;;
     let output_lines := splitlines_nl (strip (stdout result)) in
     match first_marked "Creating account" output_lines with
     | Some line =>
         match last_item (split_ws line) with
         | Some t => set_token_account t
         | None => raise (LibraryError "IndexError" "list index out of range")
         end
     | None => ret tt
     end ;;
     self <- get_self ;;
     match token_account self with
     | Some a =>
         if str_truthy a then
           log ("Token account created: " +:+ a) true ;;
           ret a
         else raise (Exception "Could not extract token account address from output")
     | None => raise (Exception "Could not extract token account address from output")
     end)
    (fun e =>
       log ("Failed to create token account: " +:+ exn_str e) true ;;
       raise e).

Definition mint_tokens (amount : Z) : M St unit :=
  log ("Minting " +:+ pretty amount +:+ " tokens...") true ;;
  try_except
    (self <- get_self ;;
     mint <- str_arg 2 (token_mint self) ;;
     run_command ["spl-token"; "mint"; mint; pretty amount;
                  "--keypair"; wallet_path self] ;;
     log ("Successfully minted " +:+ pretty amount +:+ " tokens") true)
    (fun e =>
       log ("Failed to mint tokens: " +:+ exn_str e) true ;;
       raise e).

Definition create_metadata (name symbol description image_url : string)
  : M St pydict :=
  log "Creating token metadata..." true ;;
  self <- get_self ;;
  now <- with_world (read_clock ext) ;;
  let metadata : pydict :=
    [ ("name", PStr name);
      ("symbol", PStr symbol);
      ("description", PStr description);
      ("image", PStr image_url);
      ("mint", attr_val (token_mint self));
      ("decimals", PInt 9);
      ("created_at", PStr (dt_iso now));
      ("network", PStr (network self)) ] in
  on_world (write_file "token_metadata.json" (json_dumps ext (PDict metadata))) ;;
  log "Metadata created and saved to token_metadata.json" true ;;
  ret metadata.

Definition verify_token_creation : M St bool :=
  log "Verifying token creation..." true ;;
  try_except
    (self <- get_self ;;
     mint <- str_arg 2 (token_mint self) ;;
     result <- run_command ["spl-token"; "supply"; mint] ;;
     let supply := strip (stdout result) in
     log ("Token supply: " +:+ supply) true ;;
     account <- str_arg 3 (token_account self) ;;
     result <- run_command ["spl-token"; "balance"; "--address"; account] ;;
     let balance := strip (stdout result) in
     log ("Token account balance: " +:+ balance) true ;;
     ret true)
    (fun e =>
       log ("Token verification failed: " +:+ exn_str e) true ;;
       ret false).

Definition revoke_mint_authority : M St bool :=
  self <- get_self ;;
  if negb (attr_truthy (token_mint self)) then
    log "No token mint available for authority revocation" true ;;
    ret false
  else
    try_except
      (log "Revoking mint authority..." true ;;
       mint <- str_arg 2 (token_mint self) ;;
       result <- run_command ["spl-token"; "authorize"; mint; "mint"; "--disable"] ;;
       if Z.eqb (returncode result) 0 then
         log "Mint authority revoked successfully" true ;;
         ret true
       else
         log ("Failed to revoke mint authority: " +:+ stderr result) true ;;
         ret false)
      (fun e =>
         log ("Error revoking mint authority: " +:+ exn_str e) true ;;
         ret false).

Definition revoke_freeze_authority : M St bool :=
  self <- get_self ;;
  if negb (attr_truthy (token_mint self)) then
    log "No token mint available for authority revocation" true ;;
    ret false
  else
    try_except
      (log "Revoking freeze authority..." true ;;
       mint <- str_arg 2 (token_mint self) ;;
       result <- run_command ["spl-token"; "authorize"; mint; "freeze"; "--disable"] ;;
       if Z.eqb (returncode result) 0 then
         log "Freeze authority revoked successfully" true ;;
         ret true
       else
         log ("Failed to revoke freeze authority: " +:+ stderr result) true ;;
         ret false)
      (fun e =>
         log ("Error revoking freeze authority: " +:+ exn_str e) true ;;
         ret false).

Definition create_token (name symbol description : string) (supply decimals : Z)
    (image_url : string) (revoke_mint revoke_freeze : bool) : M St pydict :=
  log ("Starting token creation process for '" +:+ name +:+ "' (" +:+
       symbol +:+ ")") true ;;
  try_except
    (balance <- get_wallet_balance ;;
     log ("Wallet balance: " +:+ float_str ext balance +:+ " SOL") true ;;
     (if PrimFloat.ltb balance 0.01
      then raise (Exception "Insufficient SOL balance for token creation")
      else ret tt) ;;
     mint_address <- create_token_mint decimals ;;
     account_address <- create_token_account ;;
     mint_tokens supply ;;
     metadata <- create_metadata name symbol description image_url ;;
     verified <- verify_token_creation ;;
     (if negb verified
      then raise (Exception "Token verification failed")
      else ret tt) ;;
     let revocation_results : pydict := [] in
     revocation_results <-
       (if revoke_mint then
          r <- revoke_mint_authority ;;
          ret (dict_set "mint_authority_revoked" (PBool r) revocation_results)
        else ret revocation_results) ;;
     revocation_results <-
       (if revoke_freeze then
          r <- revoke_freeze_authority ;;
          ret (dict_set "freeze_authority_revoked" (PBool r) revocation_results)
        else ret revocation_results) ;;
     self <- get_self ;;
     let result : pydict :=
       [ ("success", PBool true);
         ("mint_address", PStr mint_address);
         ("token_account", PStr account_address);
         ("metadata", PDict metadata);
         ("network", PStr (network self)) ] in
     let result :=
       if truthy (PDict revocation_results)
       then dict_set "authority_revocation" (PDict revocation_results) result
       else result in
     log "Token creation completed successfully!" true ;;
     ret result)
    (fun e =>
       self <- get_self ;;
       let error_result : pydict :=
         [ ("success", PBool false);
           ("error", PStr (exn_str e));
           ("network", PStr (network self)) ] in
       log ("Token creation failed: " +:+ exn_str e) true ;;
       ret error_result).

(** The namespace [argparse] hands to [main]; [--decimals] and [--supply]
    are already integers, [--network] one of the two choices. *)
Record Args := {
  arg_wallet_path : string;
  arg_name : string;
  arg_symbol : string;
  arg_description : string;
  arg_supply : Z;
  arg_decimals : Z;
  arg_image_url : string;
  arg_revoke_mint_authority : bool;
  arg_revoke_freeze_authority : bool;
  arg_network : string
}.

(** A method called on an object from code that does not hold it as [self]. *)
Definition call {A} (self : SolanaTokenCreator) (c : M St A) : M World A :=
  fun w => let '(r, (_, w')) := c (self, w) in (r, w').

Definition revocation_status (v : pyval) : string :=
  if truthy v then "✅ Success" else "❌ Failed".

(** [main] returns the exit status: [sys.exit(1)] is [ret 1], falling off
    the end is [ret 0]. *)
Definition main (args : Args) : M World Z :=
  wallet_found <- gets (path_exists (arg_wallet_path args)) ;;
  if negb wallet_found then
    modify (print ("Error: Wallet file not found: " +:+ arg_wallet_path args)) ;;
    ret 1%Z
  else if Z.ltb (arg_decimals args) 0 || Z.gtb (arg_decimals args) 9 then
    modify (print "Error: Decimals must be between 0 and 9") ;;
    ret 1%Z
  else if Z.leb (arg_supply args) 0 then
    modify (print "Error: Supply must be greater than 0") ;;
    ret 1%Z
  else
    creator <- with_state (__init__ (arg_wallet_path args) (arg_network args)) ;;
    result <- call creator
      (create_token (arg_name args) (arg_symbol args) (arg_description args)
         (arg_supply args) (arg_decimals args) (arg_image_url args)
         (arg_revoke_mint_authority args) (arg_revoke_freeze_authority args)) ;;
    success <- subscript result "success" ;;
    if truthy success then
      modify (print (nl +:+ "✅ Token created successfully!")) ;;
      mint_address <- subscript result "mint_address" ;;
      modify (print ("Mint Address: " +:+ py_str ext mint_address)) ;;
      account <- subscript result "token_account" ;;
      modify (print ("Token Account: " +:+ py_str ext account)) ;;
      net <- subscript result "network" ;;
      modify (print ("Network: " +:+ py_str ext net)) ;;
      (if dict_has "authority_revocation" result then
         modify (print (nl +:+ "🔒 Authority Revocation Results:")) ;;
         revocation <- subscript result "authority_revocation" ;;
         let revocation : pydict :=
           match revocation with PDict d => d | _ => [] end in
         (if dict_has "mint_authority_revoked" revocation then
            v <- subscript revocation "mint_authority_revoked" ;;
            modify (print ("  Mint Authority: " +:+ revocation_status v))
          else ret tt) ;;
         (if dict_has "freeze_authority_revoked" revocation then
            v <- subscript revocation "freeze_authority_revoked" ;;
            modify (print ("  Freeze Authority: " +:+ revocation_status v))
          else ret tt)
       else ret tt) ;;
      mint_address <- subscript result "mint_address" ;;
      (if String.eqb (arg_network args) "devnet" then
         modify (print (nl +:+ "Explorer: https://explorer.solana.com/address/" +:+
                        py_str ext mint_address +:+ "?cluster=devnet"))
       else
         modify (print (nl +:+ "Explorer: https://explorer.solana.com/address/" +:+
                        py_str ext mint_address))) ;;
      ret 0%Z
    else
      err <- subscript result "error" ;;
      modify (print (nl +:+ "❌ Token creation failed: " +:+ py_str ext err)) ;;
      ret 1%Z.

End Provisioner.

End CreateToken.

(** ** scripts/generate_report.py *)

Module GenerateReport.

Record TokenReportGenerator := {
  mint_address : string;
  network : string;
  report_data : pydict
}.

Definition __init__ (mint net : string) : TokenReportGenerator :=
  {| mint_address := mint; network := net; report_data := [] |}.

(** The static text of the report template, cut at its placeholders, in
    the order of the document. *)

Definition html_doc_open : string :=
  "
<!DOCTYPE html>
<html lang=" +:+ dq +:+ "en" +:+ dq +:+ ">
<head>
    <meta charset=" +:+ dq +:+ "UTF-8" +:+ dq +:+ ">
    <meta name=" +:+ dq +:+ "viewport" +:+ dq +:+ " content=" +:+ dq +:+ "width=device-width, initial-scale=1.0" +:+ dq +:+ ">
    <title>Token Creation Report - ".

Definition html_style_and_banner : string :=
  "</title>
    <style>
        body {
            font-family: 'Segoe UI', Tahoma, Geneva, Verdana, sans-serif;
            line-height: 1.6;
            margin: 0;
            padding: 20px;
            background: linear-gradient(135deg, #667eea 0%, #764ba2 100%);
            min-height: 100vh;
        }
        
        .container {
            max-width: 1200px;
            margin: 0 auto;
            background: white;
            border-radius: 20px;
            box-shadow: 0 20px 40px rgba(0, 0, 0, 0.1);
            overflow: hidden;
        }
        
        .header {
            background: linear-gradient(135deg, #667eea 0%, #764ba2 100%);
            color: white;
            padding: 40px;
            text-align: center;
        }
        
        .header h1 {
            margin: 0;
            font-size: 2.5rem;
        }
        
        .header p {
            margin: 10px 0 0 0;
            font-size: 1.2rem;
            opacity: 0.9;
        }
        
        .content {
            padding: 40px;
        }
        
        .section {
            margin-bottom: 40px;
            padding: 30px;
            background: #f8f9fa;
            border-radius: 15px;
            border-left: 5px solid #667eea;
        }
        
        .section h2 {
            margin-top: 0;
            color: #333;
            font-size: 1.8rem;
        }
        
        .info-grid {
            display: grid;
            grid-template-columns: repeat(auto-fit, minmax(300px, 1fr));
            gap: 20px;
            margin-top: 20px;
        }
        
        .info-item {
            background: white;
            padding: 20px;
            border-radius: 10px;
            box-shadow: 0 5px 15px rgba(0, 0, 0, 0.1);
        }
        
        .info-item h3 {
            margin-top: 0;
            color: #667eea;
            font-size: 1.2rem;
        }
        
        .info-item p {
            margin: 10px 0;
            word-break: break-all;
        }
        
        .address {
            font-family: 'Courier New', monospace;
            background: #f1f3f4;
            padding: 10px;
            border-radius: 5px;
            font-size: 0.9rem;
        }
        
        .btn {
            display: inline-block;
            background: linear-gradient(135deg, #667eea 0%, #764ba2 100%);
            color: white;
            text-decoration: none;
            padding: 12px 24px;
            border-radius: 8px;
            font-weight: 600;
            transition: transform 0.2s;
        }
        
        .btn:hover {
            transform: translateY(-2px);
        }
        
        .status-success {
            color: #28a745;
            font-weight: 600;
        }
        
        .log-container {
            background: #2d3748;
            color: #e2e8f0;
            padding: 20px;
            border-radius: 10px;
            font-family: 'Courier New', monospace;
            font-size: 0.9rem;
            max-height: 400px;
            overflow-y: auto;
            white-space: pre-wrap;
        }
        
        .timestamp {
            color: #a0aec0;
            font-size: 0.9rem;
        }
        
        @media (max-width: 768px) {
            .container {
                margin: 10px;
                border-radius: 10px;
            }
            
            .header, .content {
                padding: 20px;
            }
            
            .header h1 {
                font-size: 2rem;
            }
            
            .info-grid {
                grid-template-columns: 1fr;
            }
        }
    </style>
</head>
<body>
    <div class=" +:+ dq +:+ "container" +:+ dq +:+ ">
        <div class=" +:+ dq +:+ "header" +:+ dq +:+ ">
            <h1>ü™ô ".

Definition html_banner_generated : string :=
  "</h1>
            <p>Solana Token Creation Report</p>
            <p class=" +:+ dq +:+ "timestamp" +:+ dq +:+ ">Generated on ".

Definition html_details_open : string :=
  "</p>
        </div>
        
        <div class=" +:+ dq +:+ "content" +:+ dq +:+ ">
            <div class=" +:+ dq +:+ "section" +:+ dq +:+ ">
                <h2>üìä Token Information</h2>
                <div class=" +:+ dq +:+ "info-grid" +:+ dq +:+ ">
                    <div class=" +:+ dq +:+ "info-item" +:+ dq +:+ ">
                        <h3>Token Details</h3>
                        <p><strong>Name:</strong> ".

Definition html_symbol_label : string :=
  "</p>
                        <p><strong>Symbol:</strong> ".

Definition html_description_label : string :=
  "</p>
                        <p><strong>Description:</strong> ".

Definition html_decimals_label : string :=
  "</p>
                        <p><strong>Decimals:</strong> ".

Definition html_network_label : string :=
  "</p>
                    </div>
                    
                    <div class=" +:+ dq +:+ "info-item" +:+ dq +:+ ">
                        <h3>Network Information</h3>
                        <p><strong>Network:</strong> ".

Definition html_status_and_supply_label : string :=
  "</p>
                        <p><strong>Status:</strong> <span class=" +:+ dq +:+ "status-success" +:+ dq +:+ ">‚úÖ Created Successfully</span></p>
                        <p><strong>Supply:</strong> ".

Definition html_created_label : string :=
  "</p>
                        <p><strong>Created:</strong> ".

Definition html_addresses_open : string :=
  "</p>
                    </div>
                </div>
            </div>
            
            <div class=" +:+ dq +:+ "section" +:+ dq +:+ ">
                <h2>üîó Addresses & Links</h2>
                <div class=" +:+ dq +:+ "info-grid" +:+ dq +:+ ">
                    <div class=" +:+ dq +:+ "info-item" +:+ dq +:+ ">
                        <h3>Token Mint Address</h3>
                        <div class=" +:+ dq +:+ "address" +:+ dq +:+ ">".

Definition html_explorer_open : string :=
  "</div>
                        <p style=" +:+ dq +:+ "margin-top: 15px;" +:+ dq +:+ ">
                            <a href=" +:+ dq.

Definition html_explorer_close : string :=
  dq +:+ " target=" +:+ dq +:+ "_blank" +:+ dq +:+ " class=" +:+ dq +:+ "btn" +:+ dq +:+ ">View on Solana Explorer</a>
                        </p>
                    </div>
                    
                    ".

Definition html_addresses_close : string :=
  "
                </div>
            </div>
            
            ".

Definition html_log_open : string :=
  "
            
            <div class=" +:+ dq +:+ "section" +:+ dq +:+ ">
                <h2>üìù Creation Log</h2>
                <div class=" +:+ dq +:+ "log-container" +:+ dq +:+ ">".

Definition html_raw_metadata_open : string :=
  "</div>
            </div>
            
            <div class=" +:+ dq +:+ "section" +:+ dq +:+ ">
                <h2>üìã Raw Metadata</h2>
                <div class=" +:+ dq +:+ "log-container" +:+ dq +:+ ">".

Definition html_doc_close : string :=
  "</div>
            </div>
        </div>
    </div>
</body>
</html>
        ".

Definition html_wallet_0 : string :=
  "
                    <div class=" +:+ dq +:+ "info-item" +:+ dq +:+ ">
                        <h3>Creator Wallet</h3>
                        <div class=" +:+ dq +:+ "address" +:+ dq +:+ ">".

Definition html_wallet_1 : string :=
  "</div>
                    </div>
                    ".

Definition html_image_0 : string :=
  "
            <div class=" +:+ dq +:+ "section" +:+ dq +:+ ">
                <h2>üñºÔ∏è Token Image</h2>
                <div class=" +:+ dq +:+ "info-item" +:+ dq +:+ ">
                    <img src=" +:+ dq.

Definition html_image_1 : string :=
  dq +:+ " alt=" +:+ dq +:+ "Token Image" +:+ dq +:+ " style=" +:+ dq +:+ "max-width: 200px; border-radius: 10px;" +:+ dq +:+ " onerror=" +:+ dq +:+ "this.style.display='none'" +:+ dq +:+ ">
                    <p><strong>Image URL:</strong> ".

Definition html_image_2 : string :=
  "</p>
                </div>
            </div>
            ".

(** [type(v).__name__] *)
Definition py_type_name (v : pyval) : string :=
  match v with
  | PNone => "NoneType"
  | PBool _ => "bool"
  | PInt _ => "int"
  | PFloat _ => "float"
  | PStr _ => "str"
  | PList _ => "list"
  | PDict _ => "dict"
  end.

(** [d.get(k, default)] *)
Definition get_or (k : string) (dflt : pyval) (d : pydict) : pyval :=
  default dflt (dict_get k d).

Definition explorer_url (self : TokenReportGenerator) : string :=
  if String.eqb (network self) "mainnet"
  then "https://explorer.solana.com/address/" +:+ mint_address self
  else "https://explorer.solana.com/address/" +:+ mint_address self +:+
       "?cluster=devnet".

Section Renderer.

Context (ext : Externals).

Definition run_command (command : list string) : M World (option CompletedProcess) :=
  out <- with_state (spawn ext command) ;;
  match out with
  | Completed rc so se =>
      if Z.eqb rc 0 then
        ret (Some {| returncode := rc; stdout := so; stderr := se |})
      else
        modify (print ("Command failed: " +:+ join " " command)) ;;
        modify (print ("Error: " +:+
                       (if str_truthy se then se
                        else called_process_error_str ext command rc))) ;;
        ret None
  | SpawnError msg => raise (LibraryError "OSError" msg)
  end.

Definition get_token_info (self : TokenReportGenerator) : M World pydict :=
  try_except
    (result <- run_command ["spl-token"; "supply"; mint_address self] ;;
     let supply :=
       match result with
       | Some r => strip (stdout r)
       | None => "Unknown"
       end in
     result <- run_command ["solana"; "account"; mint_address self;
                            "--output"; "json"] ;;
     account_info <-
       match result with
       | Some r =>
           match json_loads ext (stdout r) with
           | inl msg => raise (LibraryError "JSONDecodeError" msg)
           | inr v => ret v
           end
       | None => ret (PDict [])
       end ;;
     ret [("supply", PStr supply); ("account_info", account_info)])
    (fun e =>
       modify (print ("Error getting token info: " +:+ exn_str e)) ;;
       ret [("supply", PStr "Unknown"); ("account_info", PDict [])]).

Definition load_metadata : M World pyval :=
  loaded <-
    try_except
      (present <- gets (path_exists "token_metadata.json") ;;
       if present then
         content <- gets (fun w => default "" (fs w !! "token_metadata.json")) ;;
         match json_loads ext content with
         | inl msg => raise (LibraryError "JSONDecodeError" msg)
         | inr v => ret (Some v)
         end
       else ret None)
      (fun e =>
         modify (print ("Error loading metadata: " +:+ exn_str e)) ;;
         ret None) ;;
  match loaded with
  | Some v => ret v
  | None => ret (PDict [])
  end.

Definition load_creation_log : M World string :=
  loaded <-
    try_except
      (present <- gets (path_exists "creation_log.txt") ;;
       if present then
         content <- gets (fun w => default "" (fs w !! "creation_log.txt")) ;;
         ret (Some content)
       else ret None)
      (fun e =>
         modify (print ("Error loading creation log: " +:+ exn_str e)) ;;
         ret None) ;;
  match loaded with
  | Some content => ret content
  | None => ret "Creation log not available"
  end.

Definition generate_html_report (self : TokenReportGenerator)
    (wallet_address : string) : M World string :=
  token_info <- get_token_info self ;;
  metadata <- load_metadata ;;
  creation_log <- load_creation_log ;;
  match metadata with
  | PDict metadata =>
      now <- with_state (read_clock ext) ;;
      ret (html_doc_open +:+
           py_str ext (get_or "name" (PStr "Unknown Token") metadata) +:+
           html_style_and_banner +:+
           py_str ext (get_or "name" (PStr "Token Creation Report") metadata) +:+
           html_banner_generated +:+
           (dt_seconds now +:+ " UTC") +:+
           html_details_open +:+
           py_str ext (get_or "name" (PStr "N/A") metadata) +:+
           html_symbol_label +:+
           py_str ext (get_or "symbol" (PStr "N/A") metadata) +:+
           html_description_label +:+
           py_str ext (get_or "description" (PStr "N/A") metadata) +:+
           html_decimals_label +:+
           py_str ext (get_or "decimals" (PStr "N/A") metadata) +:+
           html_network_label +:+
           title (network self) +:+
           html_status_and_supply_label +:+
           py_str ext (get_or "supply" (PStr "Unknown") token_info) +:+
           html_created_label +:+
           py_str ext (get_or "created_at" (PStr "N/A") metadata) +:+
           html_addresses_open +:+
           mint_address self +:+
           html_explorer_open +:+
           explorer_url self +:+
           html_explorer_close +:+
           (if str_truthy wallet_address
            then html_wallet_0 +:+ wallet_address +:+ html_wallet_1
            else "") +:+
           html_addresses_close +:+
           (if truthy (get_or "image" PNone metadata)
            then html_image_0 +:+
                 py_str ext (get_or "image" (PStr "") metadata) +:+
                 html_image_1 +:+
                 py_str ext (get_or "image" (PStr "N/A") metadata) +:+
                 html_image_2
            else "") +:+
           html_log_open +:+
           creation_log +:+
           html_raw_metadata_open +:+
           json_dumps ext (PDict metadata) +:+
           html_doc_close)
  | other =>
      raise (LibraryError "AttributeError"
               ("'" +:+ py_type_name other +:+ "' object has no attribute 'get'"))
  end.

Definition save_report (self : TokenReportGenerator) (wallet_address : string)
  : M World string :=
  html_content <- generate_html_report self wallet_address ;;
  let report_filename := "token_report.html" in
  modify (write_file report_filename html_content) ;;
  modify (print ("Report generated: " +:+ report_filename)) ;;
  ret report_filename.

Definition main (arg_mint_address arg_network arg_wallet_address : string)
  : M World Z :=
  let generator := __init__ arg_mint_address arg_network in
  report_file <- save_report generator arg_wallet_address ;;
  modify (print (nl +:+ "‚úÖ Token report generated successfully!")) ;;
  modify (print ("Report file: " +:+ report_file)) ;;
  modify (print "Open the file in a web browser to view the report.") ;;
  ret 0%Z.

End Renderer.

End GenerateReport.

(** ** Predicates the statements below are written with *)

(** The log file of the object is the fixed one, and its content starts
    with [prefix]. *)
Definition log_starts_with (prefix : string) (st : CreateToken.St) : Prop :=
  CreateToken.log_file (fst st) = "creation_log.txt" /\
  exists rest, fs (snd st) !! "creation_log.txt" = Some (prefix +:+ rest).

(** The same, for code that does not hold the object. *)
Definition log_on_disk_starts_with (prefix : string) (w : World) : Prop :=
  exists rest, fs w !! "creation_log.txt" = Some (prefix +:+ rest).

(** The message of the first entry [create_token] logs. *)
Definition start_message (name symbol : string) : string :=
  "Starting token creation process for '" +:+ name +:+ "' (" +:+ symbol +:+ ")".

(** The command of the balance check. *)
Definition balance_command (self : CreateToken.SolanaTokenCreator) : list string :=
  ["solana"; "balance"; "--keypair"; CreateToken.wallet_path self].

(** Output of the balance query that [get_wallet_balance] cannot read: no
    word at all, or a first word that [float] refuses. *)
Definition unreadable_balance (ext : Externals) (out : string) : Prop :=
  match split_ws (strip out) with
  | [] => True
  | balance_str :: _ =>
      match py_float ext balance_str with
      | inl _ => True
      | inr _ => False
      end
  end.

(** The balance query, spawned from state [st], fails: the process cannot
    be started, exits with a nonzero status, or prints something
    unreadable. *)
Definition balance_query_fails (ext : Externals) (st : CreateToken.St) : Prop :=
  let command := balance_command (fst st) in
  let st' := exec (CreateToken.log ext ("Executing: " +:+ join " " command) true) st in
  match subprocess_run ext (snd st') command with
  | Completed rc out _ => rc <> 0%Z \/ unreadable_balance ext out
  | SpawnError _ => True
  end.

(** The command of the mint creation. *)
Definition mint_command (self : CreateToken.SolanaTokenCreator) (decimals : Z)
  : list string :=
  ["spl-token"; "create-token"; "--keypair"; CreateToken.wallet_path self;
   "--decimals"; pretty decimals].

(** The dictionary [create_token] returns when it fails with [msg]. *)
Definition failure_result (msg net : string) : pydict :=
  [ ("success", PBool false); ("error", PStr msg); ("network", PStr net) ].

(** The dictionary [create_token] returns when it succeeds.
    [revocation_results] holds one key per revocation requested. *)
Definition revocation_dict (revoke_mint revoke_freeze mint_revoked freeze_revoked : bool)
  : pydict :=
  (if revoke_mint then [("mint_authority_revoked", PBool mint_revoked)] else []) ++
  (if revoke_freeze then [("freeze_authority_revoked", PBool freeze_revoked)] else []).

Definition success_result (mint account : string) (metadata : pydict)
    (net : string) (revocation_results : pydict) : pydict :=
  [ ("success", PBool true);
    ("mint_address", PStr mint);
    ("token_account", PStr account);
    ("metadata", PDict metadata);
    ("network", PStr net) ] ++
  match revocation_results with
  | [] => []
  | _ => [("authority_revocation", PDict revocation_results)]
  end.

(** A run of [create_token] from [st] gets as far as the verification
    step: the balance suffices and the four steps before verification
    return.  [mint], [account] and [metadata] are what they returned, [st5]
    is the state verification starts from. *)
Inductive reaches_verification (ext : Externals)
    (name symbol description : string) (supply decimals : Z) (image_url : string)
    (st : CreateToken.St)
  : string -> string -> pydict -> CreateToken.St -> Prop :=
| Reaches b st1 mint st2 account st3 st4 metadata st5 :
    CreateToken.get_wallet_balance ext
      (exec (CreateToken.log ext (start_message name symbol) true) st)
      = (inr b, st1) ->
    PrimFloat.ltb b 0.01 = false ->
    CreateToken.create_token_mint ext decimals
      (exec (CreateToken.log ext
               ("Wallet balance: " +:+ float_str ext b +:+ " SOL") true) st1)
      = (inr mint, st2) ->
    CreateToken.create_token_account ext st2 = (inr account, st3) ->
    CreateToken.mint_tokens ext supply st3 = (inr tt, st4) ->
    CreateToken.create_metadata ext name symbol description image_url st4
      = (inr metadata, st5) ->
    reaches_verification ext name symbol description supply decimals image_url
      st mint account metadata st5.

(** The metadata file holds [doc], and the log goes to another file. *)
Definition metadata_on_disk (doc : string) (st : CreateToken.St) : Prop :=
  CreateToken.log_file (fst st) = "creation_log.txt" /\
  fs (snd st) !! "token_metadata.json" = Some doc.

(** A step that only logs and runs commands changes neither the object nor
    the metadata file. *)
Definition quiet {A} (c : M CreateToken.St A) : Prop :=
  forall st r s, c st = (r, s) ->
    fst s = fst st /\ forall doc, metadata_on_disk doc st -> metadata_on_disk doc s.

(** The two explorer links. *)
Definition mainnet_link (mint : string) : string :=
  "https://explorer.solana.com/address/" +:+ mint.

Definition devnet_link (mint : string) : string :=
  "https://explorer.solana.com/address/" +:+ mint +:+ "?cluster=devnet".

(** The report as it must look when there is no metadata: every field taken
    from the metadata shows its fallback, the image section is left out and
    the raw metadata is the dump of the empty record. *)
Definition report_without_metadata (ext : Externals)
    (self : GenerateReport.TokenReportGenerator) (wallet_address : string)
    (supply : string) (now : datetime) (creation_log : string) : string :=
  GenerateReport.html_doc_open +:+ "Unknown Token" +:+
  GenerateReport.html_style_and_banner +:+ "Token Creation Report" +:+
  GenerateReport.html_banner_generated +:+ (dt_seconds now +:+ " UTC") +:+
  GenerateReport.html_details_open +:+ "N/A" +:+
  GenerateReport.html_symbol_label +:+ "N/A" +:+
  GenerateReport.html_description_label +:+ "N/A" +:+
  GenerateReport.html_decimals_label +:+ "N/A" +:+
  GenerateReport.html_network_label +:+ title (GenerateReport.network self) +:+
  GenerateReport.html_status_and_supply_label +:+ supply +:+
  GenerateReport.html_created_label +:+ "N/A" +:+
  GenerateReport.html_addresses_open +:+ GenerateReport.mint_address self +:+
  GenerateReport.html_explorer_open +:+ GenerateReport.explorer_url self +:+
  GenerateReport.html_explorer_close +:+
  (if str_truthy wallet_address
   then GenerateReport.html_wallet_0 +:+ wallet_address +:+
        GenerateReport.html_wallet_1
   else "") +:+
  GenerateReport.html_addresses_close +:+ "" +:+
  GenerateReport.html_log_open +:+ creation_log +:+
  GenerateReport.html_raw_metadata_open +:+ json_dumps ext (PDict []) +:+
  GenerateReport.html_doc_close.

(** The commands of the steps after mint creation, for the mint [mint]
    and the holding account [account]. *)
Definition account_command (self : CreateToken.SolanaTokenCreator) (mint : string)
  : list string :=
  ["spl-token"; "create-account"; mint; "--keypair"; CreateToken.wallet_path self].

Definition minting_command (self : CreateToken.SolanaTokenCreator) (mint : string)
    (amount : Z) : list string :=
  ["spl-token"; "mint"; mint; pretty amount; "--keypair";
   CreateToken.wallet_path self].

Definition supply_command (mint : string) : list string :=
  ["spl-token"; "supply"; mint].

Definition account_balance_command (account : string) : list string :=
  ["spl-token"; "balance"; "--address"; account].

Definition revoke_command (mint kind : string) : list string :=
  ["spl-token"; "authorize"; mint; kind; "--disable"].

(** Every command a complete run of [create_token] spawns, in order. *)
Definition workflow_commands (self : CreateToken.SolanaTokenCreator)
    (decimals supply : Z) (mint account : string)
    (revoke_mint revoke_freeze : bool) : list (list string) :=
  [ balance_command self;
    mint_command self decimals;
    account_command self mint;
    minting_command self mint supply;
    supply_command mint;
    account_balance_command account ] ++
  (if revoke_mint then [revoke_command mint "mint"] else []) ++
  (if revoke_freeze then [revoke_command mint "freeze"] else []).

(** The process trace stands at [trace]. *)
Definition trace_is (trace : list (list string)) (st : CreateToken.St) : Prop :=
  spawned (snd st) = trace.

(** Two objects that differ at most in the mint and the account they hold. *)
Definition same_settings (a b : CreateToken.SolanaTokenCreator) : Prop :=
  CreateToken.wallet_path a = CreateToken.wallet_path b /\
  CreateToken.network a = CreateToken.network b /\
  CreateToken.log_file a = CreateToken.log_file b.

(** File [path] holds [content] (or is absent), and the log goes to the
    log file. *)
Definition file_is (path : string) (content : option string)
    (st : CreateToken.St) : Prop :=
  CreateToken.log_file (fst st) = "creation_log.txt" /\
  fs (snd st) !! path = content.

(** The metadata record for these inputs, this mint and this creation
    time, as [create_metadata] builds it. *)
Definition metadata_record (name symbol description image_url mint created_at net
    : string) : pydict :=
  [ ("name", PStr name);
    ("symbol", PStr symbol);
    ("description", PStr description);
    ("image", PStr image_url);
    ("mint", PStr mint);
    ("decimals", PInt 9);
    ("created_at", PStr created_at);
    ("network", PStr net) ].

(** The two commands of the live query of the renderer. *)
Definition report_supply_command (self : GenerateReport.TokenReportGenerator)
  : list string :=
  ["spl-token"; "supply"; GenerateReport.mint_address self].

Definition report_account_command (self : GenerateReport.TokenReportGenerator)
  : list string :=
  ["solana"; "account"; GenerateReport.mint_address self; "--output"; "json"].

(** The exception of [metadata.get] on a value that is no dictionary. *)
Definition no_get_attribute (v : pyval) : exn :=
  LibraryError "AttributeError"
    ("'" +:+ GenerateReport.py_type_name v +:+ "' object has no attribute 'get'").

Definition is_dict (v : pyval) : bool :=
  match v with PDict _ => true | _ => false end.

(** What the live query answers when it gives up. *)
Definition unknown_token_info : pydict :=
  [("supply", PStr "Unknown"); ("account_info", PDict [])].

(** The report for a metadata record whose fields render as the strings
    given: the name in the title, the banner and the details, the image
    section when there is an image, [raw_metadata] in the last section. *)
Definition report_with_metadata (self : GenerateReport.TokenReportGenerator)
    (wallet_address name symbol description decimals created_at image
       raw_metadata supply : string)
    (now : datetime) (creation_log : string) : string :=
  GenerateReport.html_doc_open +:+ name +:+
  GenerateReport.html_style_and_banner +:+ name +:+
  GenerateReport.html_banner_generated +:+ (dt_seconds now +:+ " UTC") +:+
  GenerateReport.html_details_open +:+ name +:+
  GenerateReport.html_symbol_label +:+ symbol +:+
  GenerateReport.html_description_label +:+ description +:+
  GenerateReport.html_decimals_label +:+ decimals +:+
  GenerateReport.html_network_label +:+ title (GenerateReport.network self) +:+
  GenerateReport.html_status_and_supply_label +:+ supply +:+
  GenerateReport.html_created_label +:+ created_at +:+
  GenerateReport.html_addresses_open +:+ GenerateReport.mint_address self +:+
  GenerateReport.html_explorer_open +:+ GenerateReport.explorer_url self +:+
  GenerateReport.html_explorer_close +:+
  (if str_truthy wallet_address
   then GenerateReport.html_wallet_0 +:+ wallet_address +:+
        GenerateReport.html_wallet_1
   else "") +:+
  GenerateReport.html_addresses_close +:+
  (if str_truthy image
   then GenerateReport.html_image_0 +:+ image +:+
        GenerateReport.html_image_1 +:+ image +:+
        GenerateReport.html_image_2
   else "") +:+
  GenerateReport.html_log_open +:+ creation_log +:+
  GenerateReport.html_raw_metadata_open +:+ raw_metadata +:+
  GenerateReport.html_doc_close.

(** The lines the renderer prints once the report is saved. *)
Definition report_saved_lines : list string :=
  [ "Report generated: token_report.html";
    nl +:+ "‚úÖ Token report generated successfully!";
    "Report file: token_report.html";
    "Open the file in a web browser to view the report." ].

Create HintDb keep.

(** ** Concrete runs

    A scripted external tool and stand-ins for the library functions, to run
    the scripts on.  The tool prints what the real client prints for the
    commands the scripts issue; the knobs select the runs studied below. *)

Module Scenarios.

Definition fixed_now (n : nat) : datetime :=
  {| dt_str := "2024-05-01 12:00:00.000000";
     dt_seconds := "2024-05-01 12:00:00";
     dt_iso := "2024-05-01T12:00:00.000000" |}.

(** [float] on the few literals the scripted tool prints. *)
Definition float_table (s : string) : string + float :=
  if String.eqb s "1.5" then inr 1.5%float
  else if String.eqb s "0.005" then inr 0.005%float
  else if String.eqb s "0" then inr 0%float
  else inl ("could not convert string to float: '" +:+ s +:+ "'").

Definition float_repr (f : float) : string :=
  if PrimFloat.eqb f 1.5 then "1.5"
  else if PrimFloat.eqb f 0.005 then "0.005"
  else if PrimFloat.eqb f 0 then "0.0"
  else "nan".

Definition json_scalar (v : pyval) : string :=
  match v with
  | PStr s => dq +:+ s +:+ dq
  | PInt z => pretty z
  | PBool true => "true"
  | PBool false => "false"
  | _ => "null"
  end.

(** [json.dumps(v, indent=2)] for a flat dictionary of plain strings,
    integers and booleans. *)
Definition json_flat (v : pyval) : string :=
  match v with
  | PDict [] => "{}"
  | PDict d =>
      "{" +:+ nl +:+
      join ("," +:+ nl)
        (map (fun kv => "  " +:+ dq +:+ fst kv +:+ dq +:+ ": " +:+
                        json_scalar (snd kv)) d) +:+
      nl +:+ "}"
  | _ => json_scalar v
  end.

Definition json_empty_only (s : string) : string + pyval :=
  if String.eqb (strip s) "{}" then inr (PDict [])
  else inl "Expecting value: line 1 column 1 (char 0)".

Definition nonzero_exit_text (command : list string) (rc : Z) : string :=
  "Command '[" +:+ join ", " (map (fun a => "'" +:+ a +:+ "'") command) +:+
  "]' returned non-zero exit status " +:+ pretty rc +:+ ".".

(** Does the command start with these words? *)
Fixpoint starts_with (words command : list string) : bool :=
  match words, command with
  | [], _ => true
  | w :: ws, c :: cs => String.eqb w c && starts_with ws cs
  | _ :: _, [] => false
  end.

Definition mint_id : string := "AQoKYV7tYpTrFZN6P5oUufbQKAUr9mNYGe1TTJC9wajM".
Definition account_id : string := "7UX2i7SucgLMQcfZ75s3VXmZZY4YRUyJN9X1RgfMoDUi".

Record Knobs := {
  balance_stdout : string;   (* what [solana balance] prints *)
  mint_stdout : string;      (* what [spl-token create-token] prints *)
  supply_answers : bool;     (* does [spl-token supply] exit with 0? *)
  authorize_answers : bool   (* does [spl-token authorize] exit with 0? *)
}.

Definition cli (k : Knobs) (w : World) (command : list string) : proc_outcome :=
  if starts_with ["solana"; "balance"] command then
    Completed 0 (balance_stdout k) ""
  else if starts_with ["spl-token"; "create-token"] command then
    Completed 0 (mint_stdout k) ""
  else if starts_with ["spl-token"; "create-account"] command then
    Completed 0 ("Creating account " +:+ account_id +:+ nl +:+ nl +:+
                 "Signature: 42Sa5eK9dMEQyvD9GMHuKxXf55WLZ7tfjabUKDhNoZRAxj9") ""
  else if starts_with ["spl-token"; "mint"] command then
    Completed 0 ("Minting 500 tokens" +:+ nl +:+ "  Token: " +:+ mint_id) ""
  else if starts_with ["spl-token"; "supply"] command then
    if supply_answers k then Completed 0 ("500" +:+ nl) ""
    else Completed 1 "" "Error: RPC request failed"
  else if starts_with ["spl-token"; "balance"] command then
    Completed 0 ("500" +:+ nl) ""
  else if starts_with ["spl-token"; "authorize"] command then
    if authorize_answers k then Completed 0 "Updating authority" ""
    else Completed 1 "" "Error: owner does not match"
  else if starts_with ["solana"; "account"] command then
    Completed 0 "{}" ""
  else SpawnError ("[Errno 2] No such file or directory").

Definition scripted (k : Knobs) : Externals :=
  {| subprocess_run := cli k;
     datetime_now := fixed_now;
     py_float := float_table;
     float_str := float_repr;
     py_repr := json_flat;
     json_dumps := json_flat;
     json_loads := json_empty_only;
     called_process_error_str := nonzero_exit_text |}.

Definition mint_banner : string :=
  "Creating token " +:+ mint_id +:+ nl +:+ nl +:+
  "Address:  " +:+ mint_id +:+ nl +:+ "Decimals:  6" +:+ nl +:+ nl +:+
  "Signature: 3nQ8sPHDbu4cTWHnPq6rs9PrT2NK8sP3sGhJLWTkVhAy".

(** Everything answers. *)
Definition healthy : Knobs :=
  {| balance_stdout := "1.5 SOL" +:+ nl; mint_stdout := mint_banner;
     supply_answers := true; authorize_answers := true |}.

(** The supply query of the verification step fails. *)
Definition supply_down : Knobs :=
  {| balance_stdout := "1.5 SOL" +:+ nl; mint_stdout := mint_banner;
     supply_answers := false; authorize_answers := true |}.

(** The wallet holds less than the minimum. *)
Definition poor : Knobs :=
  {| balance_stdout := "0.005 SOL" +:+ nl; mint_stdout := mint_banner;
     supply_answers := true; authorize_answers := true |}.

(** The balance query prints nothing that parses. *)
Definition garbled_balance : Knobs :=
  {| balance_stdout := "balance unavailable" +:+ nl; mint_stdout := mint_banner;
     supply_answers := true; authorize_answers := true |}.

(** The mint is created but announced in other words. *)
Definition unmarked_mint : Knobs :=
  {| balance_stdout := "1.5 SOL" +:+ nl;
     mint_stdout := "Address:  " +:+ mint_id +:+ nl +:+ "Decimals:  6";
     supply_answers := true; authorize_answers := true |}.

(** Revocations are refused. *)
Definition authorize_down : Knobs :=
  {| balance_stdout := "1.5 SOL" +:+ nl; mint_stdout := mint_banner;
     supply_answers := true; authorize_answers := false |}.

(** A working directory that holds the wallet only. *)
Definition fresh_dir : World :=
  {| fs := {[ "wallet.json" := "[1,2,3]" ]}; spawned := []; console := [];
     clock := 0 |}.

Definition args_for (decimals : Z) (revoke_mint revoke_freeze : bool)
  : CreateToken.Args :=
  {| CreateToken.arg_wallet_path := "wallet.json";
     CreateToken.arg_name := "Test";
     CreateToken.arg_symbol := "TST";
     CreateToken.arg_description := "";
     CreateToken.arg_supply := 500;
     CreateToken.arg_decimals := decimals;
     CreateToken.arg_image_url := "";
     CreateToken.arg_revoke_mint_authority := revoke_mint;
     CreateToken.arg_revoke_freeze_authority := revoke_freeze;
     CreateToken.arg_network := "devnet" |}.

(** The creator object [main] builds in [fresh_dir], and the call it makes. *)
Definition creator_in (k : Knobs) : CreateToken.St :=
  CreateToken.__init__ (scripted k) "wallet.json" "devnet" fresh_dir.

Definition run (k : Knobs) (decimals : Z) (revoke_mint revoke_freeze : bool)
  : (exn + pydict) * CreateToken.St :=
  CreateToken.create_token (scripted k) "Test" "TST" "" 500 decimals ""
    revoke_mint revoke_freeze (creator_in k).

(** The state in which the verification step of [run] starts, and the
    metadata record assembled on the way. *)
Definition before_verification (k : Knobs) (decimals : Z) : CreateToken.St :=
  let ext := scripted k in
  let st0 := exec (CreateToken.log ext (start_message "Test" "TST") true) (creator_in k) in
  let st1 := exec (CreateToken.get_wallet_balance ext) st0 in
  let st1' := exec (CreateToken.log ext "Wallet balance: 1.5 SOL" true) st1 in
  let st2 := exec (CreateToken.create_token_mint ext decimals) st1' in
  let st3 := exec (CreateToken.create_token_account ext) st2 in
  let st4 := exec (CreateToken.mint_tokens ext 500) st3 in
  exec (CreateToken.create_metadata ext "Test" "TST" "" "") st4.

Definition recorded_metadata : pydict :=
  [ ("name", PStr "Test"); ("symbol", PStr "TST"); ("description", PStr "");
    ("image", PStr ""); ("mint", PStr mint_id); ("decimals", PInt 9);
    ("created_at", PStr "2024-05-01T12:00:00.000000");
    ("network", PStr "devnet") ].

End Scenarios.

(** ** Further concrete inputs *)

Module MoreScenarios.

(** [--supply 0] with everything else in order. *)
Definition args_without_supply : CreateToken.Args :=
  {| CreateToken.arg_wallet_path := "wallet.json";
     CreateToken.arg_name := "Test";
     CreateToken.arg_symbol := "TST";
     CreateToken.arg_description := "";
     CreateToken.arg_supply := 0;
     CreateToken.arg_decimals := 6;
     CreateToken.arg_image_url := "";
     CreateToken.arg_revoke_mint_authority := false;
     CreateToken.arg_revoke_freeze_authority := false;
     CreateToken.arg_network := "devnet" |}.

(** A [json.loads] that knows three documents: the empty object, the empty
    list, and the dump of the record the scripted run writes. *)
Definition json_table (s : string) : string + pyval :=
  if String.eqb (strip s) "{}" then inr (PDict [])
  else if String.eqb (strip s) "[]" then inr (PList [])
  else if String.eqb s (Scenarios.json_flat (PDict Scenarios.recorded_metadata))
  then inr (PDict Scenarios.recorded_metadata)
  else inl "Expecting value: line 1 column 1 (char 0)".

(** The scripted tool, with that loader. *)
Definition reader (k : Scenarios.Knobs) : Externals :=
  {| subprocess_run := Scenarios.cli k;
     datetime_now := Scenarios.fixed_now;
     py_float := Scenarios.float_table;
     float_str := Scenarios.float_repr;
     py_repr := Scenarios.json_flat;
     json_dumps := Scenarios.json_flat;
     json_loads := json_table;
     called_process_error_str := Scenarios.nonzero_exit_text |}.

(** A tool whose account query answers in plain text, not in JSON. *)
Definition cli_text_account (w : World) (command : list string) : proc_outcome :=
  if Scenarios.starts_with ["solana"; "account"] command then
    Completed 0 ("Public Key: " +:+ Scenarios.mint_id +:+ nl +:+
                 "Balance: 0.0014616 SOL") ""
  else Scenarios.cli Scenarios.healthy w command.

Definition text_account : Externals :=
  {| subprocess_run := cli_text_account;
     datetime_now := Scenarios.fixed_now;
     py_float := Scenarios.float_table;
     float_str := Scenarios.float_repr;
     py_repr := Scenarios.json_flat;
     json_dumps := Scenarios.json_flat;
     json_loads := json_table;
     called_process_error_str := Scenarios.nonzero_exit_text |}.

(** The working directory with a metadata file of the given content. *)
Definition dir_with_metadata (content : string) : World :=
  {| fs := <["token_metadata.json" := content]> (fs Scenarios.fresh_dir);
     spawned := []; console := []; clock := 0 |}.

(** A creator that already holds a mint, as after an earlier run on the
    same object, with a tool that announces the new mint in other words. *)
Definition earlier_mint : string :=
  "4k3Dyjzvzp8eMZWUXbBCjEvwSkkk59S5iCNLY3QrkX6R".

Definition creator_holding_a_mint : CreateToken.St :=
  exec (CreateToken.set_token_mint earlier_mint)
    (Scenarios.creator_in Scenarios.unmarked_mint).

(** The creator object and the successful run of the scripted tool, with
    the loader that reads the record back. *)
Definition creator_of_reader : CreateToken.St :=
  CreateToken.__init__ (reader Scenarios.healthy) "wallet.json" "devnet"
    Scenarios.fresh_dir.

Definition run_of_reader : (exn + pydict) * CreateToken.St :=
  CreateToken.create_token (reader Scenarios.healthy) "Test" "TST" "" 500 6 ""
    false false creator_of_reader.

End MoreScenarios.

(** ** Facts about the monad *)

Section MonadFacts.

Context {State : Type}.

Lemma append_assoc (a b c : string) : (a +:+ b) +:+ c = a +:+ (b +:+ c).
Proof.
  induction a as [|x a IH]; [reflexivity|].
  change (String x ((a +:+ b) +:+ c) = String x (a +:+ (b +:+ c))).
  now rewrite IH.
Qed.

Lemma bind_ok {A B} (c : M State A) (k : A -> M State B) st a st1 :
  c st = (inr a, st1) -> bind c k st = k a st1.
Proof. intros H. unfold bind. now rewrite H. Qed.

Lemma bind_err {A B} (c : M State A) (k : A -> M State B) st e st1 :
  c st = (inl e, st1) -> bind c k st = (inl e, st1).
Proof. intros H. unfold bind. now rewrite H. Qed.

Lemma bind_inv_ok {A B} (c : M State A) (k : A -> M State B) st b st2 :
  bind c k st = (inr b, st2) ->
  exists a st1, c st = (inr a, st1) /\ k a st1 = (inr b, st2).
Proof.
  unfold bind. destruct (c st) as [[e|a] st1]; intros H.
  - discriminate.
  - now exists a, st1.
Qed.

Lemma try_except_ok {A} (c : M State A) h st a st1 :
  c st = (inr a, st1) -> try_except c h st = (inr a, st1).
Proof. intros H. unfold try_except. now rewrite H. Qed.

Lemma try_except_err {A} (c : M State A) h st e st1 :
  c st = (inl e, st1) -> try_except c h st = h e st1.
Proof. intros H. unfold try_except. now rewrite H. Qed.


Variable I : State -> Prop.

Lemma preserves_ret {A} (a : A) : preserves I (ret a).
Proof. now intros st H. Qed.

Lemma preserves_raise {A} (e : exn) : preserves I (raise (A := A) e).
Proof. now intros st H. Qed.

Lemma preserves_gets {A} (f : State -> A) : preserves I (gets f).
Proof. now intros st H. Qed.

Lemma preserves_subscript d k : preserves I (subscript d k).
Proof. unfold subscript. destruct (dict_get k d); now intros st H. Qed.

Lemma preserves_bind {A B} (c : M State A) (k : A -> M State B) :
  preserves I c -> (forall a, preserves I (k a)) -> preserves I (bind c k).
Proof.
  intros Hc Hk st H. specialize (Hc st H). unfold exec, bind in *.
  destruct (c st) as [[e|a] st1]; simpl in *; [assumption | now apply Hk].
Qed.

Lemma preserves_try_except {A} (c : M State A) (h : exn -> M State A) :
  preserves I c -> (forall e, preserves I (h e)) -> preserves I (try_except c h).
Proof.
  intros Hc Hh st H. specialize (Hc st H). unfold exec, try_except in *.
  destruct (c st) as [[e|a] st1]; simpl in *; [now apply Hh | assumption].
Qed.

Lemma preserves_modify (f : State -> State) :
  (forall st, I st -> I (f st)) -> preserves I (modify f).
Proof. intros Hf st H. now apply Hf. Qed.

End MonadFacts.

(** One step of a proof that a computation keeps an invariant: split at
    the sequencing and the handlers, branch where the code branches. *)
Ltac keep_step :=
  lazymatch goal with
  | |- preserves _ (bind _ _) => apply preserves_bind; [ | intros ? ]
  | |- preserves _ (try_except _ _) => apply preserves_try_except; [ | intros ? ]
  | |- preserves _ (ret _) => apply preserves_ret
  | |- preserves _ (raise _) => apply preserves_raise
  | |- preserves _ (gets _) => apply preserves_gets
  | |- preserves _ CreateToken.get_self => apply preserves_gets
  | |- preserves _ (subscript _ _) => apply preserves_subscript
  | |- preserves _ (if ?b then _ else _) => destruct b
  | |- preserves _ (match ?x with _ => _ end) => destruct x
  end.

(** ** The Token Provisioner *)

Module ProvisionerFacts.

Import CreateToken.

Lemma log_total ext message print_msg st :
  log ext message print_msg st = (inr tt, exec (log ext message print_msg) st).
Proof. destruct st as [self w]. unfold exec, log. destruct print_msg; reflexivity. Qed.

(** Step over a logged line. *)
Ltac step_log := erewrite bind_ok by apply log_total.

(** *** What every step leaves alone

    An invariant of the object and the world that survives a clock read, a
    printed line, a spawned process and a line appended to the log file
    survives every method that only logs and runs commands.  If it also
    survives the two attribute updates and the two artifact writes, it
    survives the whole workflow. *)

Section Keeping.

Context (ext : Externals) (I : St -> Prop).

Hypothesis keep_clock :
  forall self w, I (self, w) -> I (self, snd (read_clock ext w)).
Hypothesis keep_print :
  forall self w line, I (self, w) -> I (self, print line w).
Hypothesis keep_spawn :
  forall self w command, I (self, w) -> I (self, snd (spawn ext command w)).
Hypothesis keep_log :
  forall self w entry, I (self, w) -> I (self, append_file (log_file self) entry w).

Lemma log_keeps message print_msg : preserves I (log ext message print_msg).
Proof.
  intros [self w] H.
  unfold exec, log, bind, get_self, gets, with_world, with_state, on_world,
    modify, ret.
  simpl. destruct print_msg; simpl.
  - apply keep_print, keep_log. exact (keep_clock self w H).
  - apply keep_log. exact (keep_clock self w H).
Qed.

Lemma spawn_keeps command : preserves I (with_world (spawn ext command)).
Proof. intros [self w] H. apply (keep_spawn self w command H). Qed.

Lemma str_arg_keeps i o : preserves I (str_arg i o).
Proof. destruct o; now intros st H. Qed.

Local Hint Resolve log_keeps spawn_keeps str_arg_keeps : keep.

Ltac keeps := repeat keep_step; auto with keep.

Lemma run_command_keeps command : preserves I (run_command ext command).
Proof. unfold run_command. keeps. Qed.

Local Hint Resolve run_command_keeps : keep.

Lemma get_wallet_balance_keeps : preserves I (get_wallet_balance ext).
Proof. unfold get_wallet_balance. keeps. Qed.

Lemma verify_token_creation_keeps : preserves I (verify_token_creation ext).
Proof. unfold verify_token_creation. keeps. Qed.

Lemma revoke_mint_authority_keeps : preserves I (revoke_mint_authority ext).
Proof. unfold revoke_mint_authority. keeps. Qed.

Lemma revoke_freeze_authority_keeps : preserves I (revoke_freeze_authority ext).
Proof. unfold revoke_freeze_authority. keeps. Qed.

Hypothesis keep_mint :
  forall st m, I st -> I (exec (set_token_mint m) st).
Hypothesis keep_account :
  forall st a, I st -> I (exec (set_token_account a) st).
Hypothesis keep_write_mint :
  forall self w m, I (self, w) -> I (self, write_file "token_mint.txt" m w).
Hypothesis keep_write_metadata :
  forall self w doc, I (self, w) -> I (self, write_file "token_metadata.json" doc w).

Lemma set_token_mint_keeps m : preserves I (set_token_mint m).
Proof. intros st H. now apply keep_mint. Qed.

Lemma set_token_account_keeps a : preserves I (set_token_account a).
Proof. intros st H. now apply keep_account. Qed.

Lemma write_mint_keeps m : preserves I (on_world (write_file "token_mint.txt" m)).
Proof. intros [self w] H. now apply keep_write_mint. Qed.

Lemma write_metadata_keeps doc :
  preserves I (on_world (write_file "token_metadata.json" doc)).
Proof. intros [self w] H. now apply keep_write_metadata. Qed.

Lemma read_clock_keeps : preserves I (with_world (read_clock ext)).
Proof. intros [self w] H. exact (keep_clock self w H). Qed.

Local Hint Resolve get_wallet_balance_keeps verify_token_creation_keeps
  revoke_mint_authority_keeps revoke_freeze_authority_keeps
  set_token_mint_keeps set_token_account_keeps write_mint_keeps
  write_metadata_keeps read_clock_keeps : keep.

Lemma create_token_mint_keeps decimals : preserves I (create_token_mint ext decimals).
Proof. unfold create_token_mint. keeps. Qed.

Lemma create_token_account_keeps : preserves I (create_token_account ext).
Proof. unfold create_token_account. keeps. Qed.

Lemma mint_tokens_keeps amount : preserves I (mint_tokens ext amount).
Proof. unfold mint_tokens. keeps. Qed.

Lemma create_metadata_keeps name symbol description image_url :
  preserves I (create_metadata ext name symbol description image_url).
Proof. unfold create_metadata. keeps. Qed.

Local Hint Resolve create_token_mint_keeps create_token_account_keeps
  mint_tokens_keeps create_metadata_keeps : keep.

Lemma create_token_keeps name symbol description supply decimals image_url
    revoke_mint revoke_freeze :
  preserves I (create_token ext name symbol description supply decimals
                 image_url revoke_mint revoke_freeze).
Proof. unfold create_token. keeps. Qed.

(** The same from the state the first entry of the workflow leaves. *)
Lemma create_token_keeps_after_start name symbol description supply decimals
    image_url revoke_mint revoke_freeze st :
  I (exec (log ext (start_message name symbol) true) st) ->
  I (exec (create_token ext name symbol description supply decimals
             image_url revoke_mint revoke_freeze) st).
Proof.
  intros H. unfold create_token, exec.
  erewrite bind_ok by apply log_total.
  match goal with
  | |- I (snd (?c ?s)) => assert (K : preserves I c) by keeps; exact (K s H)
  end.
Qed.

End Keeping.

(** *** The log only grows *)

Section LogGrows.

Context (ext : Externals).

Lemma create_token_extends_log prefix name symbol description supply decimals
    image_url revoke_mint revoke_freeze st :
  log_starts_with prefix (exec (log ext (start_message name symbol) true) st) ->
  log_starts_with prefix
    (exec (create_token ext name symbol description supply decimals image_url
             revoke_mint revoke_freeze) st).
Proof.
  apply create_token_keeps_after_start; unfold log_starts_with; simpl.
  - intros self w H. exact H.
  - intros self w line H. exact H.
  - intros self w command H. exact H.
  - intros self w entry [Hf [rest Hr]]. split; [exact Hf|].
    rewrite Hf, lookup_insert_eq, Hr. simpl.
    exists (rest +:+ entry). now rewrite append_assoc.
  - intros [self w] m H. exact H.
  - intros [self w] a H. exact H.
  - intros self w m [Hf [rest Hr]]. split; [exact Hf|].
    exists rest. now rewrite lookup_insert_ne.
  - intros self w doc [Hf [rest Hr]]. split; [exact Hf|].
    exists rest. now rewrite lookup_insert_ne.
Qed.

Lemma print_keeps_log prefix line :
  preserves (log_on_disk_starts_with prefix) (modify (print line)).
Proof. apply preserves_modify. intros w H. exact H. Qed.

Local Hint Resolve print_keeps_log : keep.

Lemma validation_passes args w :
  path_exists (arg_wallet_path args) w = true ->
  (0 <= arg_decimals args <= 9)%Z ->
  (0 < arg_supply args)%Z ->
  negb (path_exists (arg_wallet_path args) w) = false /\
  Z.ltb (arg_decimals args) 0 || Z.gtb (arg_decimals args) 9 = false /\
  Z.leb (arg_supply args) 0 = false.
Proof.
  intros Hw Hd Hs. rewrite Hw. repeat split.
  - apply orb_false_iff. split; [apply Z.ltb_ge | rewrite Z.gtb_ltb; apply Z.ltb_ge]; lia.
  - apply Z.leb_gt. lia.
Qed.




End LogGrows.

(** *** Single steps *)

Section Steps.

Context (ext : Externals).

Lemma log_self message print_msg st :
  fst (exec (log ext message print_msg) st) = fst st.
Proof. destruct st, print_msg; reflexivity. Qed.

Lemma log_spawned message print_msg st :
  spawned (snd (exec (log ext message print_msg) st)) = spawned (snd st).
Proof. destruct st, print_msg; reflexivity. Qed.

(** Logging and running commands leave the object as it is. *)
Ltac self_kept lemma st :=
  apply (lemma ext (fun st' : St => fst st' = fst st));
  solve [ reflexivity | intros; assumption ].

Lemma run_command_self command st :
  fst (exec (run_command ext command) st) = fst st.
Proof. self_kept run_command_keeps st. Qed.

Lemma get_wallet_balance_self st :
  fst (exec (get_wallet_balance ext) st) = fst st.
Proof. self_kept get_wallet_balance_keeps st. Qed.

Lemma verify_token_creation_self st :
  fst (exec (verify_token_creation ext) st) = fst st.
Proof. self_kept verify_token_creation_keeps st. Qed.

Lemma run_command_spawned command st :
  spawned (snd (exec (run_command ext command) st)) = spawned (snd st) ++ [command].
Proof.
  unfold exec, run_command.
  erewrite bind_ok by apply log_total.
  pose proof (log_spawned ("Executing: " +:+ join " " command) true st) as L.
  destruct (exec (log ext ("Executing: " +:+ join " " command) true) st) as [self w].
  cbn [snd] in L. unfold bind at 1, with_world, with_state. cbn [fst snd spawn].
  destruct (subprocess_run ext w command) as [rc so se|msg].
  - destruct (Z.eqb rc 0).
    + destruct (str_truthy so).
      * erewrite bind_ok by apply log_total. unfold ret. cbn [snd].
        rewrite log_spawned. cbn [snd spawned]. now rewrite L.
      * unfold bind, ret. cbn [snd spawned]. now rewrite L.
    + erewrite bind_ok by apply log_total. unfold raise. cbn [snd].
      rewrite log_spawned. cbn [snd spawned]. now rewrite L.
  - unfold raise. cbn [snd spawned]. now rewrite L.
Qed.

Lemma get_wallet_balance_total st :
  exists b, get_wallet_balance ext st = (inr b, exec (get_wallet_balance ext) st).
Proof.
  unfold exec, get_wallet_balance, try_except.
  match goal with |- context [match ?c st with _ => _ end] => destruct (c st) as [[e|b] st1] end.
  - erewrite bind_ok by apply log_total. now eexists.
  - now eexists.
Qed.

Lemma get_wallet_balance_spawned st :
  spawned (snd (exec (get_wallet_balance ext) st)) =
  spawned (snd st) ++ [balance_command (fst st)].
Proof.
  pose proof (run_command_spawned (balance_command (fst st)) st) as R.
  unfold exec, get_wallet_balance, try_except, balance_command in *.
  unfold bind at 1. unfold get_self, gets. cbv iota beta.
  unfold bind at 1.
  destruct (run_command ext _ st) as [[e|result] st1]; cbn [snd] in R.
  - step_log. unfold ret. cbn [snd]. now rewrite log_spawned.
  - destruct (split_ws (strip (stdout result))) as [|balance_str rest].
    + unfold raise at 1. step_log. unfold ret. cbn [snd]. now rewrite log_spawned.
    + destruct (py_float ext balance_str) as [msg|f].
      * unfold raise at 1. step_log. unfold ret. cbn [snd]. now rewrite log_spawned.
      * unfold ret. cbn [snd]. exact R.
Qed.

(** What [run_command] hands back, by what the process did. *)
Lemma run_command_result command st :
  let st' := exec (log ext ("Executing: " +:+ join " " command) true) st in
  match subprocess_run ext (snd st') command with
  | Completed rc so se =>
      if Z.eqb rc 0
      then fst (run_command ext command st) =
           inr {| returncode := rc; stdout := so; stderr := se |}
      else exists msg, fst (run_command ext command st) = inl (Exception msg)
  | SpawnError msg =>
      fst (run_command ext command st) = inl (LibraryError "OSError" msg)
  end.
Proof.
  cbv zeta. unfold run_command. step_log.
  destruct (exec (log ext _ true) st) as [self w]. cbn [snd].
  destruct (subprocess_run ext w command) as [rc so se|msg] eqn:E;
    [destruct (Z.eqb rc 0) eqn:Erc|];
    unfold bind at 1, with_world, with_state; cbn [fst snd spawn]; rewrite E.
  - rewrite Erc. destruct (str_truthy so).
    + step_log. reflexivity.
    + reflexivity.
  - rewrite Erc. step_log. eexists. reflexivity.
  - reflexivity.
Qed.

(** A failed balance query is read as a balance of zero. *)
Lemma get_wallet_balance_of_failed_query st :
  balance_query_fails ext st ->
  fst (get_wallet_balance ext st) = inr 0%float.
Proof.
  unfold balance_query_fails. cbv zeta. intros Hfail.
  pose proof (run_command_result (balance_command (fst st)) st) as R.
  cbv zeta in R.
  unfold get_wallet_balance, try_except.
  unfold bind at 1. unfold get_self, gets. cbv iota beta.
  unfold bind at 1. fold (balance_command (fst st)).
  destruct (run_command ext (balance_command (fst st)) st) as [[e|result] st1].
  - step_log. reflexivity.
  - assert (Hout : unreadable_balance ext (stdout result)).
    { destruct (subprocess_run ext _ _) as [rc so se|msg].
      - destruct (Z.eqb rc 0) eqn:Erc.
        + destruct Hfail as [Hrc|Hout]; [apply Z.eqb_eq in Erc; contradiction|].
          cbn [fst] in R. inversion R. exact Hout.
        + destruct R as [msg R]. discriminate R.
      - discriminate R. }
    unfold unreadable_balance in Hout.
    destruct (split_ws (strip (stdout result))) as [|balance_str rest].
    + unfold raise at 1. step_log. reflexivity.
    + destruct (py_float ext balance_str); [|contradiction].
      unfold raise at 1. step_log. reflexivity.
Qed.

(** The workflow from a balance below the minimum. *)
Lemma create_token_low_balance name symbol description supply decimals
    image_url revoke_mint revoke_freeze st b st1 :
  get_wallet_balance ext (exec (log ext (start_message name symbol) true) st)
    = (inr b, st1) ->
  PrimFloat.ltb b 0.01 = true ->
  create_token ext name symbol description supply decimals image_url
    revoke_mint revoke_freeze st =
  (inr (failure_result "Insufficient SOL balance for token creation"
          (network (fst st1))),
   exec (log ext "Token creation failed: Insufficient SOL balance for token creation" true)
     (exec (log ext ("Wallet balance: " +:+ float_str ext b +:+ " SOL") true) st1)).
Proof.
  intros Hb Hlow. unfold create_token.
  erewrite bind_ok by apply log_total.
  unfold try_except.
  erewrite bind_ok by exact Hb.
  erewrite bind_ok by apply log_total.
  rewrite Hlow. unfold bind at 1, raise at 1.
  unfold bind at 1, get_self at 1, gets.
  erewrite bind_ok by apply log_total.
  unfold ret. cbv beta. rewrite log_self. reflexivity.
Qed.

(** No line carries the marker: the loop leaves the attribute alone. *)
Lemma first_marked_none marker lines :
  Forall (fun line => contains marker line = false) lines ->
  first_marked marker lines = None.
Proof.
  induction 1 as [|line rest Hline _ IH]; [reflexivity|].
  simpl. now rewrite Hline.
Qed.

(** Mint creation whose output lacks the marker. *)
Lemma create_token_mint_unmarked decimals st result st2 :
  token_mint (fst st) = None ->
  run_command ext (mint_command (fst st) decimals)
    (exec (log ext "Creating token mint..." true) st) = (inr result, st2) ->
  Forall (fun line => contains "Creating token" line = false)
    (splitlines_nl (strip (stdout result))) ->
  create_token_mint ext decimals st =
  (inl (Exception "Could not extract token mint address from output"),
   exec (log ext "Failed to create token mint: Could not extract token mint address from output" true) st2).
Proof.
  intros Hnone Hrun Hlines.
  pose proof (run_command_self (mint_command (fst st) decimals)
                (exec (log ext "Creating token mint..." true) st)) as Hself.
  unfold exec at 1 in Hself. rewrite Hrun, log_self in Hself. cbn [snd] in Hself.
  unfold create_token_mint. step_log. unfold try_except.
  unfold bind at 1. unfold get_self at 1, gets. cbv iota beta.
  rewrite log_self. fold (mint_command (fst st) decimals).
  erewrite bind_ok by exact Hrun.
  rewrite (first_marked_none _ _ Hlines).
  unfold bind at 1, ret at 1. unfold bind at 1, get_self at 1, gets. cbv iota beta.
  rewrite Hself, Hnone. unfold raise at 1.
  step_log. reflexivity.
Qed.

Lemma revoke_mint_authority_total st :
  exists r st', revoke_mint_authority ext st = (inr r, st').
Proof.
  unfold revoke_mint_authority.
  unfold bind at 1. unfold get_self at 1, gets. cbv iota beta.
  destruct (negb (attr_truthy (token_mint (fst st)))).
  - step_log. now eexists _, _.
  - unfold try_except.
    match goal with
    | |- context [match ?c st with _ => _ end] => destruct (c st) as [[e|r] st1]
    end.
    + step_log. now eexists _, _.
    + now eexists _, _.
Qed.

Lemma revoke_freeze_authority_total st :
  exists r st', revoke_freeze_authority ext st = (inr r, st').
Proof.
  unfold revoke_freeze_authority.
  unfold bind at 1. unfold get_self at 1, gets. cbv iota beta.
  destruct (negb (attr_truthy (token_mint (fst st)))).
  - step_log. now eexists _, _.
  - unfold try_except.
    match goal with
    | |- context [match ?c st with _ => _ end] => destruct (c st) as [[e|r] st1]
    end.
    + step_log. now eexists _, _.
    + now eexists _, _.
Qed.

(** The network tag and the log file of the object never change. *)
Ltac attr_kept proj lemma st :=
  apply (lemma ext (fun st' : St => proj (fst st') = proj (fst st)));
  solve [ reflexivity | intros; assumption | intros [? ?] ? H; exact H ].

Lemma reaches_verification_attrs name symbol description supply decimals
    image_url st mint account metadata st5 :
  reaches_verification ext name symbol description supply decimals image_url
    st mint account metadata st5 ->
  network (fst st5) = network (fst st) /\ log_file (fst st5) = log_file (fst st).
Proof.
  intros [b st1 m st2 a st3 st4 md st5' Hb Hok Hm Ha Ht Hmd].
  pose proof (get_wallet_balance_self (exec (log ext (start_message name symbol) true) st)) as H1.
  unfold exec at 1 in H1. rewrite Hb, log_self in H1. cbn [snd] in H1.
  assert (H2 : forall proj, (proj = network \/ proj = log_file) ->
                 proj (fst st5') = proj (fst st1)).
  { intros proj Hp.
    transitivity (proj (fst st4)).
    { replace st5' with (exec (create_metadata ext name symbol description image_url) st4)
        by (unfold exec; now rewrite Hmd).
      destruct Hp as [-> | ->]; [attr_kept network create_metadata_keeps st4
                                | attr_kept log_file create_metadata_keeps st4]. }
    transitivity (proj (fst st3)).
    { replace st4 with (exec (mint_tokens ext supply) st3)
        by (unfold exec; now rewrite Ht).
      destruct Hp as [-> | ->]; [attr_kept network mint_tokens_keeps st3
                                | attr_kept log_file mint_tokens_keeps st3]. }
    transitivity (proj (fst st2)).
    { replace st3 with (exec (create_token_account ext) st2)
        by (unfold exec; now rewrite Ha).
      destruct Hp as [-> | ->]; [attr_kept network create_token_account_keeps st2
                                | attr_kept log_file create_token_account_keeps st2]. }
    set (st1' := exec (log ext ("Wallet balance: " +:+ float_str ext b +:+ " SOL") true) st1) in *.
    transitivity (proj (fst st1')).
    { replace st2 with (exec (create_token_mint ext decimals) st1')
        by (unfold exec; now rewrite Hm).
      destruct Hp as [-> | ->]; [attr_kept network create_token_mint_keeps st1'
                                | attr_kept log_file create_token_mint_keeps st1']. }
    unfold st1'. now rewrite log_self. }
  rewrite (H2 network), (H2 log_file), H1 by auto. split; reflexivity.
Qed.

(** The workflow up to the outcome of verification.  What follows the
    verification step is left as the continuation [k] took it. *)
Lemma create_token_to_verification name symbol description supply decimals
    image_url revoke_mint revoke_freeze st mint account metadata st5 :
  reaches_verification ext name symbol description supply decimals image_url
    st mint account metadata st5 ->
  forall verified st6,
  verify_token_creation ext st5 = (inr verified, st6) ->
  create_token ext name symbol description supply decimals image_url
    revoke_mint revoke_freeze st =
  if verified then
    let '(r1, st7) :=
      if revoke_mint
      then (let '(r, s) := revoke_mint_authority ext st6 in
            (match r with inr v => v | inl _ => false end, s))
      else (false, st6) in
    let '(r2, st8) :=
      if revoke_freeze
      then (let '(r, s) := revoke_freeze_authority ext st7 in
            (match r with inr v => v | inl _ => false end, s))
      else (false, st7) in
    (inr (success_result mint account metadata (network (fst st8))
            (revocation_dict revoke_mint revoke_freeze r1 r2)),
     exec (log ext "Token creation completed successfully!" true) st8)
  else
    (inr (failure_result "Token verification failed" (network (fst st6))),
     exec (log ext "Token creation failed: Token verification failed" true) st6).
Proof.
  intros [b st1 m st2 a st3 st4 md st5' Hb Hok Hm Ha Ht Hmd] verified st6 Hv.
  unfold create_token. step_log. unfold try_except.
  erewrite bind_ok by exact Hb.
  step_log. rewrite Hok. unfold bind at 1, ret at 1.
  erewrite bind_ok by exact Hm.
  erewrite bind_ok by exact Ha.
  erewrite bind_ok by exact Ht.
  erewrite bind_ok by exact Hmd.
  erewrite bind_ok by exact Hv.
  destruct verified; cbn [negb].
  - unfold bind at 1, ret at 1.
    destruct revoke_mint.
    + destruct (revoke_mint_authority_total st6) as (r1 & st7 & H1).
      erewrite (bind_ok (bind _ _)) by (erewrite bind_ok by exact H1; reflexivity).
      rewrite H1.
      destruct revoke_freeze.
      * destruct (revoke_freeze_authority_total st7) as (r2 & st8 & H2).
        erewrite (bind_ok (bind _ _)) by (erewrite bind_ok by exact H2; reflexivity).
        rewrite H2.
        unfold bind at 1, get_self at 1, gets. cbv iota beta.
        step_log. reflexivity.
      * unfold bind at 1, ret at 1.
        unfold bind at 1, get_self at 1, gets. cbv iota beta.
        step_log. reflexivity.
    + unfold bind at 1, ret at 1.
      destruct revoke_freeze.
      * destruct (revoke_freeze_authority_total st6) as (r2 & st8 & H2).
        erewrite (bind_ok (bind _ _)) by (erewrite bind_ok by exact H2; reflexivity).
        rewrite H2.
        unfold bind at 1, get_self at 1, gets. cbv iota beta.
        step_log. reflexivity.
      * unfold bind at 1, ret at 1.
        unfold bind at 1, get_self at 1, gets. cbv iota beta.
        step_log. reflexivity.
  - unfold bind at 1, raise at 1.
    unfold bind at 1, get_self at 1, gets. cbv iota beta.
    step_log. reflexivity.
Qed.

Lemma revoke_mint_authority_self st :
  fst (exec (revoke_mint_authority ext) st) = fst st.
Proof. self_kept revoke_mint_authority_keeps st. Qed.

Lemma revoke_freeze_authority_self st :
  fst (exec (revoke_freeze_authority ext) st) = fst st.
Proof. self_kept revoke_freeze_authority_keeps st. Qed.

(** A successful result comes from a run that reached verification and
    passed it. *)
Lemma create_token_success_inv name symbol description supply decimals
    image_url revoke_mint revoke_freeze st res st' :
  create_token ext name symbol description supply decimals image_url
    revoke_mint revoke_freeze st = (inr res, st') ->
  dict_get "success" res = Some (PBool true) ->
  exists mint account metadata st5 st6,
    reaches_verification ext name symbol description supply decimals image_url
      st mint account metadata st5 /\
    verify_token_creation ext st5 = (inr true, st6).
Proof.
  intros H Hs. unfold create_token in H.
  erewrite bind_ok in H by apply log_total.
  unfold try_except in H.
  match type of H with
  | context [match ?c ?s with _ => _ end] => destruct (c s) as [[e|r] stx] eqn:E
  end.
  - unfold bind at 1, get_self at 1, gets in H. cbv iota beta in H.
    erewrite bind_ok in H by apply log_total.
    unfold ret in H. injection H as <- _. discriminate Hs.
  - injection H as -> ->.
    apply bind_inv_ok in E as (b & st1 & Hb & E).
    apply bind_inv_ok in E as ([] & st1' & Hl & E).
    rewrite log_total in Hl. injection Hl as <-.
    apply bind_inv_ok in E as ([] & s1 & Hif & E).
    destruct (PrimFloat.ltb b 0.01) eqn:Hok; [discriminate Hif|].
    injection Hif as <-.
    apply bind_inv_ok in E as (m & st2 & Hm & E).
    apply bind_inv_ok in E as (a & st3 & Ha & E).
    apply bind_inv_ok in E as ([] & st4 & Ht & E).
    apply bind_inv_ok in E as (md & st5 & Hmd & E).
    apply bind_inv_ok in E as (v & st6 & Hv & E).
    apply bind_inv_ok in E as ([] & s2 & Hif & _).
    destruct v; [|discriminate Hif].
    exists m, a, md, st5, st6. split; [|exact Hv].
    exact (Reaches ext _ _ _ _ _ _ _ b st1 m st2 a st3 st4 md st5 Hb Hok Hm Ha Ht Hmd).
Qed.

(** Logging and running commands leave the metadata file alone. *)
Lemma metadata_on_disk_hyps doc :
  let I := metadata_on_disk doc in
  (forall self w, I (self, w) -> I (self, snd (read_clock ext w))) /\
  (forall self w line, I (self, w) -> I (self, print line w)) /\
  (forall self w command, I (self, w) -> I (self, snd (spawn ext command w))) /\
  (forall self w entry, I (self, w) -> I (self, append_file (log_file self) entry w)).
Proof.
  cbv zeta. unfold metadata_on_disk. repeat split; try (now destruct H).
  cbn [fst snd append_file fs] in *. destruct H as [Hf Hd].
  rewrite Hf. now rewrite lookup_insert_ne.
Qed.

(** What [create_metadata] assembles and writes. *)
Lemma create_metadata_result name symbol description image_url st md st' :
  create_metadata ext name symbol description image_url st = (inr md, st') ->
  dict_get "decimals" md = Some (PInt 9) /\
  (log_file (fst st') = "creation_log.txt" ->
   metadata_on_disk (json_dumps ext (PDict md)) st').
Proof.
  destruct st as [self w]. unfold create_metadata.
  step_log.
  unfold bind at 1, get_self at 1, gets. cbv iota beta.
  rewrite log_self. cbn [fst].
  unfold bind at 1, with_world, with_state.
  destruct (exec (log ext "Creating token metadata..." true) (self, w)) as [self1 w1] eqn:E1.
  pose proof (log_self "Creating token metadata..." true (self, w)) as Hs1.
  rewrite E1 in Hs1. cbn [fst] in Hs1. subst self1.
  cbn [fst snd read_clock].
  unfold bind at 1, on_world, modify. cbn [fst snd].
  step_log. unfold ret. intros H. injection H as <- <-.
  split; [reflexivity|].
  rewrite log_self. cbn [fst]. intros Hlog.
  match goal with
  | |- metadata_on_disk ?doc _ =>
      destruct (metadata_on_disk_hyps doc) as (H1 & H2 & _ & H4);
      apply (log_keeps ext _ H1 H2 H4)
  end.
  split; [exact Hlog|]. cbn [snd write_file fs]. apply lookup_insert_eq.
Qed.

Lemma final_state {A} (c : M St A) st r s : c st = (r, s) -> s = exec c st.
Proof. intros H. unfold exec. now rewrite H. Qed.

Lemma quiet_log message print_msg : quiet (log ext message print_msg).
Proof.
  intros st r s H. apply final_state in H. subst s. split.
  - apply log_self.
  - intros doc. destruct (metadata_on_disk_hyps doc) as (H1 & H2 & _ & H4).
    apply (log_keeps ext _ H1 H2 H4).
Qed.

Lemma quiet_verify_token_creation : quiet (verify_token_creation ext).
Proof.
  intros st r s H. apply final_state in H. subst s. split.
  - apply verify_token_creation_self.
  - intros doc. destruct (metadata_on_disk_hyps doc) as (H1 & H2 & H3 & H4).
    apply (verify_token_creation_keeps ext _ H1 H2 H3 H4).
Qed.

Lemma quiet_revoke_mint_authority : quiet (revoke_mint_authority ext).
Proof.
  intros st r s H. apply final_state in H. subst s. split.
  - apply revoke_mint_authority_self.
  - intros doc. destruct (metadata_on_disk_hyps doc) as (H1 & H2 & H3 & H4).
    apply (revoke_mint_authority_keeps ext _ H1 H2 H3 H4).
Qed.

Lemma quiet_revoke_freeze_authority : quiet (revoke_freeze_authority ext).
Proof.
  intros st r s H. apply final_state in H. subst s. split.
  - apply revoke_freeze_authority_self.
  - intros doc. destruct (metadata_on_disk_hyps doc) as (H1 & H2 & H3 & H4).
    apply (revoke_freeze_authority_keeps ext _ H1 H2 H3 H4).
Qed.

(** Once verification has passed, the workflow succeeds: each requested
    revocation contributes its outcome, whatever it is, and nothing else. *)
Lemma create_token_after_verification name symbol description supply decimals
    image_url revoke_mint revoke_freeze st mint account metadata st5 st6 :
  reaches_verification ext name symbol description supply decimals image_url
    st mint account metadata st5 ->
  verify_token_creation ext st5 = (inr true, st6) ->
  exists mint_revoked freeze_revoked st',
    create_token ext name symbol description supply decimals image_url
      revoke_mint revoke_freeze st =
    (inr (success_result mint account metadata (network (fst st))
            (revocation_dict revoke_mint revoke_freeze mint_revoked freeze_revoked)),
     st') /\
    forall doc, metadata_on_disk doc st5 -> metadata_on_disk doc st'.
Proof.
  intros Hr Hv.
  rewrite (create_token_to_verification _ _ _ _ _ _ revoke_mint revoke_freeze
             _ _ _ _ _ Hr true st6 Hv).
  destruct (reaches_verification_attrs _ _ _ _ _ _ _ _ _ _ _ Hr) as [Hnet _].
  destruct (quiet_verify_token_creation _ _ _ Hv) as [Hs6 Hd6].
  assert (Hstep1 : exists r1 st7,
             (if revoke_mint
              then (let '(r, s) := revoke_mint_authority ext st6 in
                    (match r with inr v => v | inl _ => false end, s))
              else (false, st6)) = (r1, st7) /\
             fst st7 = fst st6 /\
             forall doc, metadata_on_disk doc st6 -> metadata_on_disk doc st7).
  { destruct revoke_mint.
    - destruct (revoke_mint_authority ext st6) as [r s] eqn:E.
      destruct (quiet_revoke_mint_authority _ _ _ E) as [? ?]. now eexists _, _.
    - now eexists _, _. }
  destruct Hstep1 as (r1 & st7 & -> & Hs7 & Hd7).
  assert (Hstep2 : exists r2 st8,
             (if revoke_freeze
              then (let '(r, s) := revoke_freeze_authority ext st7 in
                    (match r with inr v => v | inl _ => false end, s))
              else (false, st7)) = (r2, st8) /\
             fst st8 = fst st7 /\
             forall doc, metadata_on_disk doc st7 -> metadata_on_disk doc st8).
  { destruct revoke_freeze.
    - destruct (revoke_freeze_authority ext st7) as [r s] eqn:E.
      destruct (quiet_revoke_freeze_authority _ _ _ E) as [? ?]. now eexists _, _.
    - now eexists _, _. }
  destruct Hstep2 as (r2 & st8 & -> & Hs8 & Hd8).
  exists r1, r2, (exec (log ext "Token creation completed successfully!" true) st8).
  split.
  - now rewrite Hs8, Hs7, Hs6, Hnet.
  - intros doc Hdoc.
    destruct (quiet_log "Token creation completed successfully!" true st8 _ _
                (log_total ext _ _ _)) as [_ Hd9].
    auto.
Qed.

(** The record a run carries into verification has [decimals] 9, and it
    is the one in the metadata file. *)
Lemma reaches_verification_metadata name symbol description supply decimals
    image_url st mint account metadata st5 :
  reaches_verification ext name symbol description supply decimals image_url
    st mint account metadata st5 ->
  log_file (fst st) = "creation_log.txt" ->
  dict_get "decimals" metadata = Some (PInt 9) /\
  metadata_on_disk (json_dumps ext (PDict metadata)) st5.
Proof.
  intros Hr Hlog.
  destruct (reaches_verification_attrs _ _ _ _ _ _ _ _ _ _ _ Hr) as [_ Hlog5].
  destruct Hr as [b st1 m st2 a st3 st4 md st5 Hb Hok Hm Ha Ht Hmd].
  destruct (create_metadata_result _ _ _ _ _ _ _ Hmd) as [Hnine Hdisk].
  split; [exact Hnine|]. apply Hdisk. now rewrite Hlog5.
Qed.

End Steps.



(** *** Validation comes before everything else *)

(** C6: with [--decimals] outside 0..9, [main] prints a validation error
    and exits with status 1; the trace of spawned processes and the working
    directory are as they were. *)
Theorem out_of_range_decimals_rejected ext args w :
  (arg_decimals args < 0 \/ 9 < arg_decimals args)%Z ->
  exists msg,
    (msg = "Error: Wallet file not found: " +:+ arg_wallet_path args \/
     msg = "Error: Decimals must be between 0 and 9") /\
    main ext args w = (inr 1%Z, print msg w) /\
    spawned (exec (main ext args) w) = spawned w /\
    fs (exec (main ext args) w) = fs w.
Proof.
  intros Hd.
  assert (R : Z.ltb (arg_decimals args) 0 || Z.gtb (arg_decimals args) 9 = true).
  { apply orb_true_iff. rewrite Z.gtb_ltb, !Z.ltb_lt. exact Hd. }
  unfold exec, main, bind, gets.
  destruct (path_exists (arg_wallet_path args) w); simpl negb; cbv iota.
  - rewrite R. eexists. split; [right; reflexivity|]. repeat split.
  - eexists. split; [left; reflexivity|]. repeat split.
Qed.

Lemma out_of_range_decimals_rejected_witness :
  exists msg,
    (msg = "Error: Wallet file not found: wallet.json" \/
     msg = "Error: Decimals must be between 0 and 9") /\
    main (Scenarios.scripted Scenarios.healthy)
      (Scenarios.args_for 10 true true) Scenarios.fresh_dir =
    (inr 1%Z, print msg Scenarios.fresh_dir) /\
    spawned (exec (main (Scenarios.scripted Scenarios.healthy)
                     (Scenarios.args_for 10 true true)) Scenarios.fresh_dir) = [] /\
    fs (exec (main (Scenarios.scripted Scenarios.healthy)
                (Scenarios.args_for 10 true true)) Scenarios.fresh_dir) =
    fs Scenarios.fresh_dir.
Proof.
  apply (out_of_range_decimals_rejected (Scenarios.scripted Scenarios.healthy)
           (Scenarios.args_for 10 true true) Scenarios.fresh_dir).
  right. simpl. lia.
Defined.

(** *** The balance check *)

(** C5: when the balance read by the balance check is below 0.01, the
    workflow returns the insufficient-funds failure, and the balance query
    is the only process it has spawned: mint creation is not attempted. *)
Theorem low_balance_stops_before_mint_creation ext name symbol description
    supply decimals image_url revoke_mint revoke_freeze st b st1 :
  get_wallet_balance ext (exec (log ext (start_message name symbol) true) st)
    = (inr b, st1) ->
  PrimFloat.ltb b 0.01 = true ->
  let r := create_token ext name symbol description supply decimals image_url
             revoke_mint revoke_freeze st in
  fst r = inr (failure_result "Insufficient SOL balance for token creation"
                 (network (fst st))) /\
  spawned (snd (snd r)) = spawned (snd st) ++ [balance_command (fst st)].
Proof.
  intros Hb Hlow. cbv zeta.
  rewrite (create_token_low_balance ext _ _ _ _ _ _ _ _ _ _ _ Hb Hlow).
  cbn [fst snd].
  pose proof (get_wallet_balance_self ext
                (exec (log ext (start_message name symbol) true) st)) as Hself.
  pose proof (get_wallet_balance_spawned ext
                (exec (log ext (start_message name symbol) true) st)) as Hsp.
  unfold exec at 1 in Hself. unfold exec at 1 in Hsp.
  rewrite Hb in Hself, Hsp. cbn [snd] in Hself, Hsp.
  rewrite log_self in Hself, Hsp. rewrite log_spawned in Hsp.
  split.
  - now rewrite Hself.
  - now rewrite !log_spawned.
Qed.

Lemma low_balance_stops_before_mint_creation_witness :
  let r := Scenarios.run Scenarios.poor 6 false false in
  fst r = inr (failure_result "Insufficient SOL balance for token creation" "devnet") /\
  spawned (snd (snd r)) = [] ++ [["solana"; "balance"; "--keypair"; "wallet.json"]].
Proof.
  refine (low_balance_stops_before_mint_creation (Scenarios.scripted Scenarios.poor)
            "Test" "TST" "" 500 6 "" false false (Scenarios.creator_in Scenarios.poor)
            0.005%float
            (exec (get_wallet_balance (Scenarios.scripted Scenarios.poor))
               (exec (log (Scenarios.scripted Scenarios.poor)
                        (start_message "Test" "TST") true)
                  (Scenarios.creator_in Scenarios.poor))) _ _).
  - vm_compute. reflexivity.
  - vm_compute. reflexivity.
Defined.

(** C10: when the balance query itself fails, [get_wallet_balance] returns
    0.0 and the workflow reports the insufficient-funds error, not the
    failure of the command. *)
Theorem failed_balance_query_reads_as_insufficient_funds ext name symbol
    description supply decimals image_url revoke_mint revoke_freeze st :
  balance_query_fails ext (exec (log ext (start_message name symbol) true) st) ->
  fst (get_wallet_balance ext (exec (log ext (start_message name symbol) true) st))
    = inr 0%float /\
  fst (create_token ext name symbol description supply decimals image_url
         revoke_mint revoke_freeze st)
    = inr (failure_result "Insufficient SOL balance for token creation"
             (network (fst st))).
Proof.
  intros Hfail.
  pose proof (get_wallet_balance_of_failed_query ext _ Hfail) as Hzero.
  split; [exact Hzero|].
  destruct (get_wallet_balance_total ext
              (exec (log ext (start_message name symbol) true) st)) as [b Hb].
  rewrite Hb in Hzero. cbn [fst] in Hzero. injection Hzero as ->.
  rewrite (create_token_low_balance ext _ _ _ _ _ _ _ _ _ _ _ Hb eq_refl).
  cbn [fst]. rewrite get_wallet_balance_self, log_self. reflexivity.
Qed.

Lemma failed_balance_query_reads_as_insufficient_funds_witness :
  fst (get_wallet_balance (Scenarios.scripted Scenarios.garbled_balance)
         (exec (log (Scenarios.scripted Scenarios.garbled_balance)
                  (start_message "Test" "TST") true)
            (Scenarios.creator_in Scenarios.garbled_balance)))
    = inr 0%float /\
  fst (Scenarios.run Scenarios.garbled_balance 6 false false)
    = inr (failure_result "Insufficient SOL balance for token creation" "devnet").
Proof.
  refine (failed_balance_query_reads_as_insufficient_funds
            (Scenarios.scripted Scenarios.garbled_balance)
            "Test" "TST" "" 500 6 "" false false
            (Scenarios.creator_in Scenarios.garbled_balance) _).
  vm_compute. right. exact I.
Defined.

(** *** Mint creation *)

(** C4: when the mint-creation command exits with status 0 but no line of
    its output carries the marker, the workflow fails with the extraction
    error, and the processes spawned are the balance query and the
    mint creation only: account creation is not attempted. *)
Theorem unmarked_mint_output_stops_before_account_creation ext name symbol
    description supply decimals image_url revoke_mint revoke_freeze
    st b st1 result st2 :
  token_mint (fst st) = None ->
  get_wallet_balance ext (exec (log ext (start_message name symbol) true) st)
    = (inr b, st1) ->
  PrimFloat.ltb b 0.01 = false ->
  run_command ext (mint_command (fst st) decimals)
    (exec (log ext "Creating token mint..." true)
       (exec (log ext ("Wallet balance: " +:+ float_str ext b +:+ " SOL") true) st1))
    = (inr result, st2) ->
  Forall (fun line => contains "Creating token" line = false)
    (splitlines_nl (strip (stdout result))) ->
  let r := create_token ext name symbol description supply decimals image_url
             revoke_mint revoke_freeze st in
  fst r = inr (failure_result "Could not extract token mint address from output"
                 (network (fst st))) /\
  spawned (snd (snd r)) =
    spawned (snd st) ++ [balance_command (fst st); mint_command (fst st) decimals].
Proof.
  intros Hnone Hb Hok Hrun Hlines. cbv zeta.
  pose proof (get_wallet_balance_self ext
                (exec (log ext (start_message name symbol) true) st)) as Hself.
  pose proof (get_wallet_balance_spawned ext
                (exec (log ext (start_message name symbol) true) st)) as Hsp.
  unfold exec at 1 in Hself. unfold exec at 1 in Hsp.
  rewrite Hb in Hself, Hsp. cbn [snd] in Hself, Hsp.
  rewrite log_self in Hself, Hsp. rewrite log_spawned in Hsp.
  set (st1' := exec (log ext ("Wallet balance: " +:+ float_str ext b +:+ " SOL") true) st1) in *.
  assert (Hself' : fst st1' = fst st) by (unfold st1'; now rewrite log_self).
  rewrite <- Hself' in Hrun.
  assert (Hnone' : token_mint (fst st1') = None) by now rewrite Hself'.
  pose proof (create_token_mint_unmarked ext decimals st1' result st2 Hnone' Hrun Hlines) as Hmint.
  pose proof (run_command_self ext (mint_command (fst st1') decimals)
                (exec (log ext "Creating token mint..." true) st1')) as Hself2.
  pose proof (run_command_spawned ext (mint_command (fst st1') decimals)
                (exec (log ext "Creating token mint..." true) st1')) as Hsp2.
  unfold exec at 1 in Hself2. unfold exec at 1 in Hsp2.
  rewrite Hrun in Hself2, Hsp2. cbn [snd] in Hself2, Hsp2.
  rewrite log_self in Hself2. rewrite log_spawned in Hsp2.
  assert (E : create_token ext name symbol description supply decimals image_url
                revoke_mint revoke_freeze st =
              (inr (failure_result "Could not extract token mint address from output"
                      (network (fst st))),
               exec (log ext "Token creation failed: Could not extract token mint address from output" true)
                 (exec (log ext "Failed to create token mint: Could not extract token mint address from output" true) st2))).
  { unfold create_token. step_log. unfold try_except.
    erewrite bind_ok by exact Hb.
    step_log. fold st1'. rewrite Hok.
    unfold bind at 1, ret at 1.
    erewrite bind_err by exact Hmint.
    unfold bind at 1, get_self at 1, gets. cbv iota beta.
    step_log. unfold ret. cbn [exn_str].
    now rewrite log_self, Hself2, Hself'. }
  rewrite E. cbn [fst snd].
  split; [reflexivity|].
  rewrite !log_spawned, Hsp2, Hself'. unfold st1'.
  rewrite log_spawned, Hsp, <- app_assoc. reflexivity.
Qed.

Lemma unmarked_mint_output_stops_before_account_creation_witness :
  let r := Scenarios.run Scenarios.unmarked_mint 6 false false in
  fst r = inr (failure_result "Could not extract token mint address from output"
                 "devnet") /\
  spawned (snd (snd r)) =
    [] ++ [ ["solana"; "balance"; "--keypair"; "wallet.json"];
            ["spl-token"; "create-token"; "--keypair"; "wallet.json";
             "--decimals"; "6"] ].
Proof.
  pose (ext := Scenarios.scripted Scenarios.unmarked_mint).
  pose (st := Scenarios.creator_in Scenarios.unmarked_mint).
  pose (st1 := exec (get_wallet_balance ext)
                 (exec (log ext (start_message "Test" "TST") true) st)).
  pose (st1' := exec (log ext "Creating token mint..." true)
                  (exec (log ext "Wallet balance: 1.5 SOL" true) st1)).
  refine (unmarked_mint_output_stops_before_account_creation ext
            "Test" "TST" "" 500 6 "" false false st 1.5%float st1
            {| returncode := 0;
               stdout := Scenarios.mint_stdout Scenarios.unmarked_mint;
               stderr := "" |}
            (exec (run_command ext (mint_command (fst st) 6)) st1')
            _ _ _ _ _).
  - reflexivity.
  - vm_compute. reflexivity.
  - vm_compute. reflexivity.
  - vm_compute. reflexivity.
  - vm_compute. repeat constructor.
Defined.

(** *** Verification *)

(** C2, as amended: when the verification step returns false, the workflow
    returns the failure result with the error 'Token verification failed',
    after logging that failure; nothing is rolled back. *)
Theorem failed_verification_fails_the_workflow ext name symbol description
    supply decimals image_url revoke_mint revoke_freeze
    st mint account metadata st5 st6 :
  reaches_verification ext name symbol description supply decimals image_url
    st mint account metadata st5 ->
  verify_token_creation ext st5 = (inr false, st6) ->
  create_token ext name symbol description supply decimals image_url
    revoke_mint revoke_freeze st =
  (inr (failure_result "Token verification failed" (network (fst st))),
   exec (log ext "Token creation failed: Token verification failed" true) st6).
Proof.
  intros Hr Hv.
  rewrite (create_token_to_verification ext _ _ _ _ _ _ revoke_mint revoke_freeze
             _ _ _ _ _ Hr false st6 Hv).
  destruct (reaches_verification_attrs ext _ _ _ _ _ _ _ _ _ _ _ Hr) as [Hnet _].
  destruct (quiet_verify_token_creation ext _ _ _ Hv) as [Hs6 _].
  now rewrite Hs6, Hnet.
Qed.

(** C2, the claim as stated fails: with a supply query that exits with
    status 1, the last process spawned is that query and the workflow
    returns a failure. *)
Lemma failed_verification_is_a_failure :
  let r := Scenarios.run Scenarios.supply_down 6 false false in
  last (spawned (snd (snd r))) = Some ["spl-token"; "supply"; Scenarios.mint_id] /\
  fst (verify_token_creation (Scenarios.scripted Scenarios.supply_down)
         (Scenarios.before_verification Scenarios.supply_down 6)) = inr false /\
  fst r = inr [ ("success", PBool false);
                ("error", PStr "Token verification failed");
                ("network", PStr "devnet") ].
Proof. vm_compute. repeat split; reflexivity. Qed.

(** Running the scripted tool up to verification. *)
Ltac reach_by_running k decimals :=
  pose (ext := Scenarios.scripted k);
  pose (st0 := exec (log ext (start_message "Test" "TST") true) (Scenarios.creator_in k));
  pose (st1 := exec (get_wallet_balance ext) st0);
  pose (st1' := exec (log ext "Wallet balance: 1.5 SOL" true) st1);
  pose (st2 := exec (create_token_mint ext decimals) st1');
  pose (st3 := exec (create_token_account ext) st2);
  pose (st4 := exec (mint_tokens ext 500) st3);
  apply (Reaches ext "Test" "TST" "" 500%Z decimals "" (Scenarios.creator_in k)
           1.5%float st1 Scenarios.mint_id st2 Scenarios.account_id st3 st4
           Scenarios.recorded_metadata (Scenarios.before_verification k decimals));
  vm_compute; reflexivity.

Lemma failed_verification_fails_the_workflow_witness :
  fst (Scenarios.run Scenarios.supply_down 6 false false) =
  inr (failure_result "Token verification failed" "devnet").
Proof.
  unfold Scenarios.run.
  rewrite (failed_verification_fails_the_workflow
             (Scenarios.scripted Scenarios.supply_down) "Test" "TST" "" 500 6 ""
             false false (Scenarios.creator_in Scenarios.supply_down)
             Scenarios.mint_id Scenarios.account_id Scenarios.recorded_metadata
             (Scenarios.before_verification Scenarios.supply_down 6)
             (exec (verify_token_creation (Scenarios.scripted Scenarios.supply_down))
                (Scenarios.before_verification Scenarios.supply_down 6))).
  - reflexivity.
  - reach_by_running Scenarios.supply_down 6%Z.
  - vm_compute. reflexivity.
Defined.

(** *** The metadata record *)

(** C1, what the code does instead: whatever [decimals] the caller passes,
    the metadata record of a successful run, as returned and as stored in
    the metadata file, has [decimals] 9. *)
Theorem recorded_decimals_are_always_nine ext name symbol description supply
    decimals image_url revoke_mint revoke_freeze st res st' :
  log_file (fst st) = "creation_log.txt" ->
  create_token ext name symbol description supply decimals image_url
    revoke_mint revoke_freeze st = (inr res, st') ->
  dict_get "success" res = Some (PBool true) ->
  exists metadata,
    dict_get "metadata" res = Some (PDict metadata) /\
    dict_get "decimals" metadata = Some (PInt 9) /\
    fs (snd st') !! "token_metadata.json" = Some (json_dumps ext (PDict metadata)).
Proof.
  intros Hlog H Hs.
  destruct (create_token_success_inv ext _ _ _ _ _ _ _ _ _ _ _ H Hs)
    as (m & a & md & st5 & st6 & Hr & Hv).
  destruct (create_token_after_verification ext _ _ _ _ _ _ revoke_mint
              revoke_freeze _ _ _ _ _ _ Hr Hv)
    as (r1 & r2 & st'' & E & Hframe).
  rewrite E in H. injection H as <- <-.
  destruct (reaches_verification_metadata ext _ _ _ _ _ _ _ _ _ _ _ Hr Hlog)
    as [Hnine Hdisk].
  exists md. repeat split.
  - exact Hnine.
  - exact (proj2 (Hframe _ Hdisk)).
Qed.

(** C1 at [--decimals 6]: the mint is created with six decimals, the
    record says nine. *)
Lemma six_decimals_are_recorded_as_nine :
  In ["spl-token"; "create-token"; "--keypair"; "wallet.json"; "--decimals"; "6"]
    (spawned (snd (snd (Scenarios.run Scenarios.healthy 6 false false)))) /\
  exists metadata,
    dict_get "metadata"
      (success_result Scenarios.mint_id Scenarios.account_id
         Scenarios.recorded_metadata "devnet" []) = Some (PDict metadata) /\
    dict_get "decimals" metadata = Some (PInt 9) /\
    fs (snd (snd (Scenarios.run Scenarios.healthy 6 false false)))
      !! "token_metadata.json" =
    Some (json_dumps (Scenarios.scripted Scenarios.healthy) (PDict metadata)).
Proof.
  split; [vm_compute; tauto|].
  apply (recorded_decimals_are_always_nine (Scenarios.scripted Scenarios.healthy)
           "Test" "TST" "" 500 6 "" false false
           (Scenarios.creator_in Scenarios.healthy)).
  - reflexivity.
  - vm_compute. reflexivity.
  - reflexivity.
Defined.

(** *** The success banner *)

(** The last line [main] prints after a successful run is the explorer
    link for the mint address of the result. *)
Lemma success_banner_ends_with_link ext args w res st' :
  path_exists (arg_wallet_path args) w = true ->
  (0 <= arg_decimals args <= 9)%Z ->
  (0 < arg_supply args)%Z ->
  create_token ext (arg_name args) (arg_symbol args) (arg_description args)
    (arg_supply args) (arg_decimals args) (arg_image_url args)
    (arg_revoke_mint_authority args) (arg_revoke_freeze_authority args)
    (__init__ ext (arg_wallet_path args) (arg_network args) w) = (inr res, st') ->
  dict_get "success" res = Some (PBool true) ->
  exists mint w',
    dict_get "mint_address" res = Some (PStr mint) /\
    main ext args w = (inr 0%Z, w') /\
    last (console w') =
    Some (nl +:+ "Explorer: " +:+
          (if String.eqb (arg_network args) "devnet"
           then devnet_link mint else mainnet_link mint)).
Proof.
  intros Hw Hd Hsup H Hs.
  destruct (validation_passes args w Hw Hd Hsup) as (V1 & V2 & V3).
  destruct (create_token_success_inv ext _ _ _ _ _ _ _ _ _ _ _ H Hs)
    as (m & a & md & st5 & st6 & Hr & Hv).
  destruct (create_token_after_verification ext _ _ _ _ _ _
              (arg_revoke_mint_authority args) (arg_revoke_freeze_authority args)
              _ _ _ _ _ _ Hr Hv)
    as (r1 & r2 & st'' & E & _).
  rewrite E in H. injection H as <- <-.
  exists m. unfold main.
  unfold bind at 1. unfold gets at 1. rewrite V1, V2, V3.
  unfold bind at 1. unfold with_state at 1.
  destruct (__init__ ext (arg_wallet_path args) (arg_network args) w) as [creator w2].
  unfold bind at 1. unfold call at 1. rewrite E.
  destruct st'' as [self' w3].
  destruct (arg_revoke_mint_authority args), (arg_revoke_freeze_authority args);
    unfold bind, subscript, modify, ret; cbn;
    destruct (String.eqb (arg_network args) "devnet");
    (eexists; split; [reflexivity|]);
    (split; [reflexivity|]); cbn [console print]; apply last_snoc.
Qed.

End ProvisionerFacts.

(** ** The Report Renderer *)

Module RendererFacts.

Import GenerateReport.

Section Rendering.

Context (ext : Externals).

(** The live query only spawns processes and prints. *)
Lemma get_token_info_keeps (I : World -> Prop) self :
  (forall w command, I w -> I (snd (spawn ext command w))) ->
  (forall w line, I w -> I (print line w)) ->
  preserves I (get_token_info ext self).
Proof.
  intros Hspawn Hprint.
  assert (Hp : forall line, preserves I (modify (print line)))
    by (intros line; apply preserves_modify; auto).
  assert (Hs : forall command, preserves I (with_state (spawn ext command)))
    by (intros command w H; apply (Hspawn w command H)).
  assert (Hr : forall command, preserves I (run_command ext command))
    by (intros command; unfold run_command; repeat keep_step; auto).
  unfold get_token_info. repeat keep_step; auto.
Qed.

Lemma get_token_info_total self w :
  exists token_info,
    get_token_info ext self w = (inr token_info, exec (get_token_info ext self) w).
Proof.
  unfold exec, get_token_info, try_except.
  match goal with
  | |- context [match ?c w with _ => _ end] => destruct (c w) as [[e|r] w1]
  end; now eexists.
Qed.

(** C8: with no metadata file, the renderer returns the whole document,
    with 'Unknown Token', 'Token Creation Report' and 'N/A' where the
    metadata fields go, whatever the live query and the log file give. *)
Theorem report_renders_without_metadata self wallet_address w :
  fs w !! "token_metadata.json" = None ->
  exists token_info w1,
    get_token_info ext self w = (inr token_info, w1) /\
    generate_html_report ext self wallet_address w =
    (inr (report_without_metadata ext self wallet_address
            (py_str ext (get_or "supply" (PStr "Unknown") token_info))
            (datetime_now ext (clock w1))
            (default "Creation log not available" (fs w !! "creation_log.txt"))),
     snd (read_clock ext w1)).
Proof.
  intros Hnone.
  destruct (get_token_info_total self w) as [token_info Hinfo].
  pose proof (get_token_info_keeps (fun w' => fs w' = fs w) self
                (fun _ _ H => H) (fun _ _ H => H) w eq_refl) as Hfs.
  set (w1 := exec (get_token_info ext self) w) in *. cbv beta in Hfs.
  exists token_info, w1. split; [exact Hinfo|].
  unfold generate_html_report.
  erewrite bind_ok by exact Hinfo.
  assert (Hmeta : load_metadata ext w1 = (inr (PDict []), w1)).
  { unfold load_metadata, try_except, bind, gets, path_exists, ret.
    rewrite Hfs, Hnone. reflexivity. }
  erewrite bind_ok by exact Hmeta.
  assert (Hlog : load_creation_log w1 =
                 (inr (default "Creation log not available"
                         (fs w !! "creation_log.txt")), w1)).
  { unfold load_creation_log, try_except, bind, gets, path_exists, ret.
    rewrite Hfs. destruct (fs w !! "creation_log.txt") eqn:E; cbv beta iota.
    - now rewrite Hfs, E.
    - reflexivity. }
  erewrite bind_ok by exact Hlog.
  reflexivity.
Qed.

(** Whenever a document is rendered, the link button carries the explorer
    address of the generator. *)
Lemma report_contains_explorer_link self wallet_address w doc w' :
  generate_html_report ext self wallet_address w = (inr doc, w') ->
  exists before after,
    doc = before +:+ html_explorer_open +:+ explorer_url self +:+
          html_explorer_close +:+ after.
Proof.
  intros H. unfold generate_html_report in H.
  apply bind_inv_ok in H as (token_info & w1 & _ & H).
  apply bind_inv_ok in H as (metadata & w2 & _ & H).
  apply bind_inv_ok in H as (creation_log & w3 & _ & H).
  destruct metadata; try discriminate H.
  apply bind_inv_ok in H as (now & w4 & _ & H).
  unfold ret in H. injection H as <- _.
  match goal with
  | |- exists before after,
        ?p1 +:+ ?p2 +:+ ?p3 +:+ ?p4 +:+ ?p5 +:+ ?p6 +:+ ?p7 +:+ ?p8 +:+ ?p9 +:+
        ?p10 +:+ ?p11 +:+ ?p12 +:+ ?p13 +:+ ?p14 +:+ ?p15 +:+ ?p16 +:+ ?p17 +:+
        ?p18 +:+ ?p19 +:+ ?p20 +:+ ?p21 +:+ ?p22 +:+ html_explorer_open +:+
        explorer_url self +:+ html_explorer_close +:+ ?rest = _ =>
      exists (p1 +:+ p2 +:+ p3 +:+ p4 +:+ p5 +:+ p6 +:+ p7 +:+ p8 +:+ p9 +:+
              p10 +:+ p11 +:+ p12 +:+ p13 +:+ p14 +:+ p15 +:+ p16 +:+ p17 +:+
              p18 +:+ p19 +:+ p20 +:+ p21 +:+ p22), rest
  end.
  now rewrite !append_assoc.
Qed.

End Rendering.

Lemma report_renders_without_metadata_witness :
  exists token_info w1,
    get_token_info (Scenarios.scripted Scenarios.healthy)
      (__init__ Scenarios.mint_id "devnet") Scenarios.fresh_dir
      = (inr token_info, w1) /\
    generate_html_report (Scenarios.scripted Scenarios.healthy)
      (__init__ Scenarios.mint_id "devnet") "" Scenarios.fresh_dir =
    (inr (report_without_metadata (Scenarios.scripted Scenarios.healthy)
            (__init__ Scenarios.mint_id "devnet") ""
            (py_str (Scenarios.scripted Scenarios.healthy)
               (get_or "supply" (PStr "Unknown") token_info))
            (datetime_now (Scenarios.scripted Scenarios.healthy) (clock w1))
            (default "Creation log not available"
               (fs Scenarios.fresh_dir !! "creation_log.txt"))),
     snd (read_clock (Scenarios.scripted Scenarios.healthy) w1)).
Proof.
  apply (report_renders_without_metadata (Scenarios.scripted Scenarios.healthy)
           (__init__ Scenarios.mint_id "devnet") "" Scenarios.fresh_dir).
  reflexivity.
Defined.

(** C9: the renderer links to the plain address on mainnet and to the
    address with [?cluster=devnet] on devnet, never to anything else, and
    a rendered document carries that link; the banner of a successful
    provisioning run ends with the same two links for the mint address of
    the result. *)
Theorem explorer_links_follow_the_network :
  (forall mint, explorer_url (__init__ mint "mainnet") = mainnet_link mint) /\
  (forall mint, explorer_url (__init__ mint "devnet") = devnet_link mint) /\
  (forall self,
     explorer_url self = mainnet_link (mint_address self) \/
     explorer_url self = devnet_link (mint_address self)) /\
  (forall ext self wallet_address w doc w',
     generate_html_report ext self wallet_address w = (inr doc, w') ->
     exists before after,
       doc = before +:+ html_explorer_open +:+ explorer_url self +:+
             html_explorer_close +:+ after) /\
  (forall ext args w res st',
     path_exists (CreateToken.arg_wallet_path args) w = true ->
     (0 <= CreateToken.arg_decimals args <= 9)%Z ->
     (0 < CreateToken.arg_supply args)%Z ->
     CreateToken.create_token ext
       (CreateToken.arg_name args) (CreateToken.arg_symbol args)
       (CreateToken.arg_description args) (CreateToken.arg_supply args)
       (CreateToken.arg_decimals args) (CreateToken.arg_image_url args)
       (CreateToken.arg_revoke_mint_authority args)
       (CreateToken.arg_revoke_freeze_authority args)
       (CreateToken.__init__ ext (CreateToken.arg_wallet_path args)
          (CreateToken.arg_network args) w) = (inr res, st') ->
     dict_get "success" res = Some (PBool true) ->
     exists mint w',
       dict_get "mint_address" res = Some (PStr mint) /\
       CreateToken.main ext args w = (inr 0%Z, w') /\
       (CreateToken.arg_network args = "mainnet" ->
        last (console w') = Some (nl +:+ "Explorer: " +:+ mainnet_link mint)) /\
       (CreateToken.arg_network args = "devnet" ->
        last (console w') = Some (nl +:+ "Explorer: " +:+ devnet_link mint))).
Proof.
  split; [reflexivity|]. split; [reflexivity|]. split; [|split].
  - intros self. unfold explorer_url, mainnet_link, devnet_link.
    destruct (String.eqb (network self) "mainnet"); [now left | now right].
  - intros ext. apply report_contains_explorer_link.
  - intros ext args w res st' Hw Hd Hsup H Hs.
    destruct (ProvisionerFacts.success_banner_ends_with_link
                ext args w res st' Hw Hd Hsup H Hs)
      as (mint & w' & Hmint & Hmain & Hlast).
    exists mint, w'. repeat split; [exact Hmint | exact Hmain | |];
      intros Hnet; rewrite Hnet in Hlast; exact Hlast.
Qed.

Lemma explorer_links_follow_the_network_witness :
  (exists before after,
     report_without_metadata (Scenarios.scripted Scenarios.healthy)
       (__init__ Scenarios.mint_id "mainnet") "" "500"
       (Scenarios.fixed_now 0) "Creation log not available" =
     before +:+ html_explorer_open +:+ mainnet_link Scenarios.mint_id +:+
     html_explorer_close +:+ after) /\
  (exists mint w',
     dict_get "mint_address"
       (success_result Scenarios.mint_id Scenarios.account_id
          Scenarios.recorded_metadata "devnet" []) = Some (PStr mint) /\
     CreateToken.main (Scenarios.scripted Scenarios.healthy)
       (Scenarios.args_for 6 false false) Scenarios.fresh_dir = (inr 0%Z, w') /\
     ("devnet" = "mainnet" ->
      last (console w') = Some (nl +:+ "Explorer: " +:+ mainnet_link mint)) /\
     ("devnet" = "devnet" ->
      last (console w') = Some (nl +:+ "Explorer: " +:+ devnet_link mint))).
Proof.
  destruct explorer_links_follow_the_network as (_ & _ & _ & Hreport & Hbanner).
  split.
  - apply (Hreport (Scenarios.scripted Scenarios.healthy)
             (__init__ Scenarios.mint_id "mainnet") "" Scenarios.fresh_dir _
             (exec (generate_html_report (Scenarios.scripted Scenarios.healthy)
                      (__init__ Scenarios.mint_id "mainnet") "")
                Scenarios.fresh_dir)).
    vm_compute. reflexivity.
  - apply (Hbanner (Scenarios.scripted Scenarios.healthy)
             (Scenarios.args_for 6 false false) Scenarios.fresh_dir _
             (snd (Scenarios.run Scenarios.healthy 6 false false))).
    + reflexivity.
    + simpl. lia.
    + simpl. lia.
    + vm_compute. reflexivity.
    + reflexivity.
Defined.

End RendererFacts.

(** ** More on the Token Provisioner *)

Module WorkflowFacts.

Import CreateToken ProvisionerFacts.

Section Workflow.

Context (ext : Externals).

(** *** Steps that leave the process trace alone *)

Lemma log_keeps_trace trace message print_msg :
  preserves (trace_is trace) (log ext message print_msg).
Proof. intros st H. unfold trace_is in *. now rewrite log_spawned. Qed.

Lemma set_token_mint_keeps_trace trace m :
  preserves (trace_is trace) (set_token_mint m).
Proof. intros [self w] H. exact H. Qed.

Lemma set_token_account_keeps_trace trace a :
  preserves (trace_is trace) (set_token_account a).
Proof. intros [self w] H. exact H. Qed.

Lemma write_file_keeps_trace trace path content :
  preserves (trace_is trace) (on_world (write_file path content)).
Proof. intros [self w] H. exact H. Qed.

Lemma read_clock_keeps_trace trace :
  preserves (trace_is trace) (with_world (read_clock ext)).
Proof. intros [self w] H. exact H. Qed.

Lemma str_arg_keeps_trace trace i o : preserves (trace_is trace) (str_arg i o).
Proof. destruct o; now intros st H. Qed.

Ltac trace_kept :=
  intros; repeat keep_step;
  auto using log_keeps_trace, set_token_mint_keeps_trace,
    set_token_account_keeps_trace, write_file_keeps_trace,
    read_clock_keeps_trace, str_arg_keeps_trace.

Lemma try_except_get_self {B} (F : SolanaTokenCreator -> M St B) h st :
  try_except (bind get_self F) h st = try_except (F (fst st)) h st.
Proof. reflexivity. Qed.

Lemma bind_get_self {B} (F : SolanaTokenCreator -> M St B) st :
  bind get_self F st = F (fst st) st.
Proof. reflexivity. Qed.

Lemma bind_ret {A B} (a : A) (k : A -> M St B) : bind (ret a) k = k a.
Proof. reflexivity. Qed.

(** One command run inside a handler, followed and handled by code that
    spawns nothing: the trace grows by that command, however it ends. *)
Lemma guarded_call_trace {B} command (K : CompletedProcess -> M St B)
    (h : exn -> M St B) st :
  (forall trace r, preserves (trace_is trace) (K r)) ->
  (forall trace e, preserves (trace_is trace) (h e)) ->
  spawned (snd (snd (try_except (bind (run_command ext command) K) h st))) =
  spawned (snd st) ++ [command].
Proof.
  intros HK Hh.
  pose proof (run_command_spawned ext command st) as R.
  unfold exec in R. unfold try_except, bind.
  destruct (run_command ext command st) as [[e|r] st1]; cbn [snd] in R.
  - exact (Hh _ e st1 R).
  - pose proof (HK _ r st1 R) as R2. unfold exec in R2.
    destruct (K r st1) as [[e|b] st2]; cbn [snd] in R2.
    + exact (Hh _ e st2 R2).
    + exact R2.
Qed.

(** *** What each step spawns *)

Lemma create_token_mint_trace decimals st :
  spawned (snd (exec (create_token_mint ext decimals) st)) =
  spawned (snd st) ++ [mint_command (fst st) decimals].
Proof.
  unfold exec, create_token_mint. step_log.
  rewrite try_except_get_self. cbv beta.
  rewrite guarded_call_trace by trace_kept.
  now rewrite log_spawned, log_self.
Qed.

Lemma create_token_account_trace st mint :
  token_mint (fst st) = Some mint ->
  spawned (snd (exec (create_token_account ext) st)) =
  spawned (snd st) ++ [account_command (fst st) mint].
Proof.
  intros Hm. unfold exec, create_token_account. step_log.
  rewrite try_except_get_self. cbv beta.
  rewrite log_self, Hm. unfold str_arg. rewrite bind_ret.
  rewrite guarded_call_trace by trace_kept.
  now rewrite log_spawned.
Qed.

Lemma mint_tokens_trace amount st mint :
  token_mint (fst st) = Some mint ->
  spawned (snd (exec (mint_tokens ext amount) st)) =
  spawned (snd st) ++ [minting_command (fst st) mint amount].
Proof.
  intros Hm. unfold exec, mint_tokens. step_log.
  rewrite try_except_get_self. cbv beta.
  rewrite log_self, Hm. unfold str_arg. rewrite bind_ret.
  rewrite guarded_call_trace by trace_kept.
  now rewrite log_spawned.
Qed.

Lemma create_metadata_trace name symbol description image_url st :
  spawned (snd (exec (create_metadata ext name symbol description image_url) st)) =
  spawned (snd st).
Proof.
  assert (K : preserves (trace_is (spawned (snd st)))
                (create_metadata ext name symbol description image_url))
    by (unfold create_metadata; trace_kept).
  exact (K st eq_refl).
Qed.

Lemma try_except_log {B} message print_msg (k : unit -> M St B) h st :
  try_except (bind (log ext message print_msg) k) h st =
  try_except (k tt) h (exec (log ext message print_msg) st).
Proof. unfold try_except. step_log. reflexivity. Qed.

Lemma revoke_mint_authority_trace st mint :
  token_mint (fst st) = Some mint -> str_truthy mint = true ->
  spawned (snd (exec (revoke_mint_authority ext) st)) =
  spawned (snd st) ++ [revoke_command mint "mint"].
Proof.
  intros Hm Ht. unfold exec, revoke_mint_authority.
  rewrite bind_get_self. rewrite Hm. cbn [attr_truthy]. rewrite Ht. cbn [negb].
  rewrite try_except_log. unfold str_arg. rewrite bind_ret.
  rewrite guarded_call_trace by trace_kept.
  now rewrite log_spawned.
Qed.

Lemma revoke_freeze_authority_trace st mint :
  token_mint (fst st) = Some mint -> str_truthy mint = true ->
  spawned (snd (exec (revoke_freeze_authority ext) st)) =
  spawned (snd st) ++ [revoke_command mint "freeze"].
Proof.
  intros Hm Ht. unfold exec, revoke_freeze_authority.
  rewrite bind_get_self. rewrite Hm. cbn [attr_truthy]. rewrite Ht. cbn [negb].
  rewrite try_except_log. unfold str_arg. rewrite bind_ret.
  rewrite guarded_call_trace by trace_kept.
  now rewrite log_spawned.
Qed.

(** Verification: the supply query, then, if it came back, the balance
    query; true exactly when both came back. *)
Lemma verify_token_creation_trace st mint account :
  token_mint (fst st) = Some mint ->
  token_account (fst st) = Some account ->
  exists verified st',
    verify_token_creation ext st = (inr verified, st') /\
    (spawned (snd st') =
       spawned (snd st) ++ [supply_command mint; account_balance_command account] \/
     verified = false /\
     spawned (snd st') = spawned (snd st) ++ [supply_command mint]).
Proof.
  intros Hm Ha. unfold verify_token_creation. step_log.
  set (st0 := exec (log ext "Verifying token creation..." true) st).
  assert (H0 : fst st0 = fst st) by apply log_self.
  assert (S0 : spawned (snd st0) = spawned (snd st)) by apply log_spawned.
  rewrite try_except_get_self. cbv beta. rewrite H0, Hm, Ha.
  unfold str_arg. rewrite bind_ret.
  unfold try_except. unfold bind at 1.
  pose proof (run_command_spawned ext (supply_command mint) st0) as R1.
  unfold exec in R1. fold (supply_command mint).
  destruct (run_command ext (supply_command mint) st0) as [[e|r1] st1];
    cbn [fst snd] in R1.
  - step_log. unfold ret. eexists _, _. split; [reflexivity|].
    right. split; [reflexivity|]. now rewrite log_spawned, R1, S0.
  - step_log. rewrite bind_ret. unfold bind at 1.
    set (st1' := exec (log ext _ true) st1).
    assert (S1 : spawned (snd st1') = spawned (snd st1)) by apply log_spawned.
    pose proof (run_command_spawned ext (account_balance_command account) st1') as R2.
    unfold exec in R2. fold (account_balance_command account).
    destruct (run_command ext (account_balance_command account) st1')
      as [[e|r2] st2]; cbn [snd] in R2.
    + step_log. unfold ret. eexists _, _. split; [reflexivity|].
      left. rewrite log_spawned, R2, S1, R1, S0, <- app_assoc. reflexivity.
    + step_log. unfold ret. eexists _, _. split; [reflexivity|].
      left. rewrite log_spawned, R2, S1, R1, S0, <- app_assoc. reflexivity.
Qed.

(** *** What each step does to the object *)

Ltac object_kept lemma st :=
  apply (lemma ext (fun st' : St => fst st' = fst st));
  solve [ reflexivity | intros; assumption ].

Lemma mint_tokens_self amount st :
  fst (exec (mint_tokens ext amount) st) = fst st.
Proof. object_kept mint_tokens_keeps st. Qed.

Lemma create_metadata_self name symbol description image_url st :
  fst (exec (create_metadata ext name symbol description image_url) st) = fst st.
Proof. object_kept create_metadata_keeps st. Qed.

Lemma get_self_inv st self s :
  get_self st = (inr self, s) -> self = fst st /\ s = st.
Proof. unfold get_self, gets. intros H. injection H as <- <-. now split. Qed.

Lemma log_inv message print_msg st u s :
  log ext message print_msg st = (inr u, s) ->
  s = exec (log ext message print_msg) st.
Proof. rewrite log_total. intros H. now injection H as _ <-. Qed.

(** A handler that logs and raises again returns nothing of its own. *)
Lemma try_reraise_inv {B} (c : M St B) (msg : exn -> string) st b s :
  try_except c (fun e => bind (log ext (msg e) true) (fun _ => raise e)) st
    = (inr b, s) ->
  c st = (inr b, s).
Proof.
  unfold try_except. destruct (c st) as [[e|b'] s']; intros H.
  - erewrite bind_ok in H by apply log_total. discriminate H.
  - exact H.
Qed.

(** Mint creation that returns has stored the address it returns, in the
    object and in [token_mint.txt]; the address is not empty. *)
Lemma create_token_mint_sets decimals st mint st2 :
  create_token_mint ext decimals st = (inr mint, st2) ->
  token_mint (fst st2) = Some mint /\
  str_truthy mint = true /\
  token_account (fst st2) = token_account (fst st) /\
  same_settings (fst st2) (fst st) /\
  fs (snd st2) !! "token_mint.txt" = Some mint.
Proof.
  intros H. unfold create_token_mint in H.
  erewrite bind_ok in H by apply log_total.
  apply try_reraise_inv in H.
  set (st0 := exec (log ext "Creating token mint..." true) st) in *.
  assert (H0 : fst st0 = fst st) by apply log_self.
  apply bind_inv_ok in H as (self & s0 & Hs & H).
  apply get_self_inv in Hs as [-> ->].
  apply bind_inv_ok in H as (result & st1 & Hrun & H).
  assert (H1 : fst st1 = fst st0).
  { rewrite (final_state _ _ _ _ Hrun). apply run_command_self. }
  apply bind_inv_ok in H as ([] & st1b & Hloop & H).
  assert (H1b : token_account (fst st1b) = token_account (fst st1) /\
                same_settings (fst st1b) (fst st1)).
  { destruct (first_marked _ _).
    - destruct (last_item _); [|discriminate Hloop].
      destruct st1 as [self1 w1].
      unfold set_token_mint, bind, get_self, gets, set_self, modify in Hloop.
      injection Hloop as <-. now repeat split.
    - unfold ret in Hloop. injection Hloop as <-. now repeat split. }
  apply bind_inv_ok in H as (self2 & s2 & Hs & H).
  apply get_self_inv in Hs as [-> ->].
  destruct (token_mint (fst st1b)) as [m|] eqn:T; [|discriminate H].
  destruct (str_truthy m) eqn:Tr; [|discriminate H].
  apply bind_inv_ok in H as ([] & st1c & Hl & H).
  apply log_inv in Hl. subst st1c.
  destruct (exec (log ext ("Token mint created: " +:+ m) true) st1b)
    as [self3 w3] eqn:E3.
  assert (H3 : self3 = fst st1b).
  { change self3 with (fst (self3, w3)). rewrite <- E3. apply log_self. }
  unfold bind, on_world, modify, ret in H. cbn [fst snd] in H.
  injection H as <- <-. cbn [fst snd write_file fs]. subst self3.
  destruct H1b as [Ha Hset]. rewrite H1, H0 in Ha, Hset.
  repeat split; try assumption; try apply Hset.
  apply lookup_insert_eq.
Qed.

(** Account creation that returns has stored the address it returns and
    kept the mint. *)
Lemma create_token_account_sets st account st3 :
  create_token_account ext st = (inr account, st3) ->
  token_account (fst st3) = Some account /\
  token_mint (fst st3) = token_mint (fst st) /\
  same_settings (fst st3) (fst st).
Proof.
  intros H. unfold create_token_account in H.
  erewrite bind_ok in H by apply log_total.
  apply try_reraise_inv in H.
  set (st0 := exec (log ext "Creating token account..." true) st) in *.
  assert (H0 : fst st0 = fst st) by apply log_self.
  apply bind_inv_ok in H as (self & s0 & Hs & H).
  apply get_self_inv in Hs as [-> ->].
  apply bind_inv_ok in H as (mint & s0 & Harg & H).
  assert (s0 = st0) as ->.
  { destruct (token_mint (fst st0)); [|discriminate Harg].
    unfold str_arg, ret in Harg. now injection Harg as _ <-. }
  apply bind_inv_ok in H as (result & st1 & Hrun & H).
  assert (H1 : fst st1 = fst st0).
  { rewrite (final_state _ _ _ _ Hrun). apply run_command_self. }
  apply bind_inv_ok in H as ([] & st1b & Hloop & H).
  assert (H1b : token_mint (fst st1b) = token_mint (fst st1) /\
                same_settings (fst st1b) (fst st1)).
  { destruct (first_marked _ _).
    - destruct (last_item _); [|discriminate Hloop].
      destruct st1 as [self1 w1].
      unfold set_token_account, bind, get_self, gets, set_self, modify in Hloop.
      injection Hloop as <-. now repeat split.
    - unfold ret in Hloop. injection Hloop as <-. now repeat split. }
  apply bind_inv_ok in H as (self2 & s2 & Hs & H).
  apply get_self_inv in Hs as [-> ->].
  destruct (token_account (fst st1b)) as [a|] eqn:T; [|discriminate H].
  destruct (str_truthy a) eqn:Tr; [|discriminate H].
  apply bind_inv_ok in H as ([] & st1c & Hl & H).
  apply log_inv in Hl. subst st1c.
  unfold ret in H. injection H as <- <-.
  rewrite log_self.
  destruct H1b as [Hm Hset]. rewrite H1, H0 in Hm, Hset.
  repeat split; try assumption; apply Hset.
Qed.

(** *** Files the workflow leaves alone *)

Lemma file_is_first_group path content :
  path <> "creation_log.txt" ->
  let I := file_is path content in
  (forall self w, I (self, w) -> I (self, snd (read_clock ext w))) /\
  (forall self w line, I (self, w) -> I (self, print line w)) /\
  (forall self w command, I (self, w) -> I (self, snd (spawn ext command w))) /\
  (forall self w entry, I (self, w) -> I (self, append_file (log_file self) entry w)) /\
  (forall st m, I st -> I (exec (set_token_mint m) st)) /\
  (forall st a, I st -> I (exec (set_token_account a) st)).
Proof.
  intros Hp. cbv zeta. unfold file_is.
  repeat split; try (now destruct H); try (destruct st, H; assumption).
  cbn [fst snd append_file fs] in *. destruct H as [Hf Hc].
  rewrite Hf. now rewrite lookup_insert_ne by congruence.
Qed.

Lemma file_is_write path content other doc self w :
  path <> other ->
  file_is path content (self, w) -> file_is path content (self, write_file other doc w).
Proof.
  intros Hp [Hf Hc]. split; [exact Hf|].
  cbn [snd write_file fs]. now rewrite lookup_insert_ne by congruence.
Qed.

(** X1: a file that is none of the three artifacts (the wallet file, for
    one) is the same after [create_token] as before, however the run
    ends. *)
Theorem create_token_touches_only_its_artifacts name symbol description supply
    decimals image_url revoke_mint revoke_freeze st path :
  log_file (fst st) = "creation_log.txt" ->
  path <> "creation_log.txt" ->
  path <> "token_mint.txt" ->
  path <> "token_metadata.json" ->
  fs (snd (exec (create_token ext name symbol description supply decimals
                   image_url revoke_mint revoke_freeze) st)) !! path =
  fs (snd st) !! path.
Proof.
  intros Hlog P1 P2 P3.
  destruct (file_is_first_group path (fs (snd st) !! path) P1)
    as (H1 & H2 & H3 & H4 & H5 & H6).
  apply (create_token_keeps ext (file_is path (fs (snd st) !! path))
           H1 H2 H3 H4 H5 H6).
  - intros self w m. now apply file_is_write.
  - intros self w doc. now apply file_is_write.
  - now split.
Qed.

(** X2: [create_token] only appends to the log: what the log file held when
    it was called is still the beginning of the file afterwards, whether
    the run succeeds or fails. *)
Theorem create_token_only_appends_to_the_log name symbol description supply
    decimals image_url revoke_mint revoke_freeze st before :
  log_file (fst st) = "creation_log.txt" ->
  fs (snd st) !! "creation_log.txt" = Some before ->
  exists added,
    fs (snd (exec (create_token ext name symbol description supply decimals
                     image_url revoke_mint revoke_freeze) st))
      !! "creation_log.txt" = Some (before +:+ added).
Proof.
  intros Hlog Hbefore.
  assert (K : log_starts_with before
                (exec (create_token ext name symbol description supply decimals
                         image_url revoke_mint revoke_freeze) st)).
  { apply create_token_extends_log.
    destruct st as [self w]. cbn [fst snd] in *.
    split.
    - rewrite log_self. exact Hlog.
    - unfold exec, log, bind, get_self, gets, with_world, with_state,
        on_world, modify, ret. cbn. rewrite Hlog, lookup_insert_eq, Hbefore.
      now eexists. }
  exact (proj2 K).
Qed.

(** *** The run up to verification *)

Lemma create_metadata_fields name symbol description image_url st md st' mint :
  token_mint (fst st) = Some mint ->
  create_metadata ext name symbol description image_url st = (inr md, st') ->
  exists created_at,
    md = metadata_record name symbol description image_url mint created_at
           (network (fst st)).
Proof.
  intros Hm. destruct st as [self w]. unfold create_metadata.
  step_log.
  rewrite bind_get_self. rewrite log_self. cbn [fst] in *.
  unfold bind at 1, with_world, with_state.
  destruct (exec (log ext "Creating token metadata..." true) (self, w)) as [self1 w1].
  cbn [fst snd read_clock].
  unfold bind at 1, on_world, modify. cbn [fst snd].
  step_log. unfold ret. intros H. injection H as <- _.
  rewrite Hm. now eexists.
Qed.

(** Where a run stands when verification starts. *)
Lemma reaches_verification_facts name symbol description supply decimals
    image_url st mint account metadata st5 :
  reaches_verification ext name symbol description supply decimals image_url
    st mint account metadata st5 ->
  token_mint (fst st5) = Some mint /\
  str_truthy mint = true /\
  token_account (fst st5) = Some account /\
  same_settings (fst st5) (fst st) /\
  spawned (snd st5) =
    spawned (snd st) ++
    [ balance_command (fst st); mint_command (fst st) decimals;
      account_command (fst st) mint; minting_command (fst st) mint supply ] /\
  (exists created_at,
     metadata = metadata_record name symbol description image_url mint created_at
                  (network (fst st))) /\
  (log_file (fst st) = "creation_log.txt" ->
   fs (snd st5) !! "token_mint.txt" = Some mint).
Proof.
  intros [b st1 m st2 a st3 st4 md st5' Hb Hok Hm Ha Ht Hmd].
  set (st0 := exec (log ext (start_message name symbol) true) st) in *.
  set (st1' := exec (log ext ("Wallet balance: " +:+ float_str ext b +:+ " SOL") true) st1) in *.
  assert (F0 : fst st0 = fst st) by apply log_self.
  assert (S0 : spawned (snd st0) = spawned (snd st)) by apply log_spawned.
  assert (F1 : fst st1 = fst st).
  { rewrite (final_state _ _ _ _ Hb), get_wallet_balance_self. exact F0. }
  assert (S1 : spawned (snd st1) = spawned (snd st) ++ [balance_command (fst st)]).
  { rewrite (final_state _ _ _ _ Hb), get_wallet_balance_spawned. now rewrite S0, F0. }
  assert (F1' : fst st1' = fst st) by (unfold st1'; now rewrite log_self).
  assert (S1' : spawned (snd st1') = spawned (snd st1)) by apply log_spawned.
  destruct (create_token_mint_sets _ _ _ _ Hm) as (M2 & Tr & A2 & Set2 & File2).
  assert (S2 : spawned (snd st2) = spawned (snd st1') ++ [mint_command (fst st) decimals]).
  { rewrite (final_state _ _ _ _ Hm), create_token_mint_trace. now rewrite F1'. }
  destruct (create_token_account_sets _ _ _ Ha) as (A3 & M3 & Set3).
  assert (W3 : wallet_path (fst st2) = wallet_path (fst st)).
  { destruct Set2 as (W & _). now rewrite W, F1'. }
  assert (S3 : spawned (snd st3) = spawned (snd st2) ++ [account_command (fst st) m]).
  { rewrite (final_state _ _ _ _ Ha), (create_token_account_trace _ m M2).
    unfold account_command. now rewrite W3. }
  rewrite M2 in M3.
  assert (W4 : wallet_path (fst st3) = wallet_path (fst st)).
  { destruct Set3 as (W & _). now rewrite W. }
  assert (F4 : fst st4 = fst st3).
  { rewrite (final_state _ _ _ _ Ht). apply mint_tokens_self. }
  assert (S4 : spawned (snd st4) = spawned (snd st3) ++ [minting_command (fst st) m supply]).
  { rewrite (final_state _ _ _ _ Ht), (mint_tokens_trace _ _ m M3).
    unfold minting_command. now rewrite W4. }
  assert (F5 : fst st5' = fst st4).
  { rewrite (final_state _ _ _ _ Hmd). apply create_metadata_self. }
  assert (S5 : spawned (snd st5') = spawned (snd st4)).
  { rewrite (final_state _ _ _ _ Hmd). apply create_metadata_trace. }
  assert (Set5 : same_settings (fst st5') (fst st)).
  { rewrite F5, F4. destruct Set2 as (a1 & a2 & a3), Set3 as (b1 & b2 & b3).
    rewrite F1' in a1, a2, a3. unfold same_settings.
    rewrite b1, b2, b3. rewrite a1, a2, a3. now repeat split. }
  repeat split.
  - now rewrite F5, F4.
  - exact Tr.
  - now rewrite F5, F4.
  - apply Set5.
  - apply Set5.
  - apply Set5.
  - rewrite S5, S4, S3, S2, S1', S1. now rewrite <- !app_assoc.
  - assert (M4 : token_mint (fst st4) = Some m) by now rewrite F4.
    destruct (create_metadata_fields _ _ _ _ _ _ _ m M4 Hmd) as [created_at ->].
    exists created_at. destruct Set3 as (_ & N3 & _), Set2 as (_ & N2 & _).
    now rewrite F4, N3, N2, F1'.
  - intros Hlog.
    assert (L2 : log_file (fst st2) = "creation_log.txt").
    { destruct Set2 as (_ & _ & L). now rewrite L, F1'. }
    assert (P : "token_mint.txt" <> "creation_log.txt") by discriminate.
    destruct (file_is_first_group "token_mint.txt" (Some m) P)
      as (H1 & H2 & H3 & H4 & H5 & H6).
    assert (I2 : file_is "token_mint.txt" (Some m) st2) by now split.
    assert (I3 : file_is "token_mint.txt" (Some m) st3).
    { rewrite (final_state _ _ _ _ Ha).
      now apply (create_token_account_keeps ext _ H1 H2 H3 H4 H6). }
    assert (I4 : file_is "token_mint.txt" (Some m) st4).
    { rewrite (final_state _ _ _ _ Ht).
      now apply (mint_tokens_keeps ext _ H1 H2 H3 H4). }
    assert (I5 : file_is "token_mint.txt" (Some m) st5').
    { rewrite (final_state _ _ _ _ Hmd).
      apply (create_metadata_keeps ext _ H1 H2 H4); [|exact I4].
      intros self w doc. now apply file_is_write. }
    exact (proj2 I5).
Qed.

(** *** The run after verification *)

Lemma after_verification_facts name symbol description supply decimals
    image_url revoke_mint revoke_freeze st mint account metadata st5 st6 r st' :
  reaches_verification ext name symbol description supply decimals image_url
    st mint account metadata st5 ->
  verify_token_creation ext st5 = (inr true, st6) ->
  create_token ext name symbol description supply decimals image_url
    revoke_mint revoke_freeze st = (r, st') ->
  fst st' = fst st5 /\
  spawned (snd st') =
    spawned (snd st6) ++
    (if revoke_mint then [revoke_command mint "mint"] else []) ++
    (if revoke_freeze then [revoke_command mint "freeze"] else []) /\
  (forall path content, path <> "creation_log.txt" ->
     file_is path content st5 -> file_is path content st').
Proof.
  intros Hr Hv H.
  rewrite (create_token_to_verification ext _ _ _ _ _ _ revoke_mint revoke_freeze
             _ _ _ _ _ Hr true st6 Hv) in H.
  destruct (reaches_verification_facts _ _ _ _ _ _ _ _ _ _ _ Hr)
    as (M5 & Tr & _).
  assert (F6 : fst st6 = fst st5).
  { rewrite (final_state _ _ _ _ Hv). apply verify_token_creation_self. }
  assert (K6 : forall path content, path <> "creation_log.txt" ->
                 file_is path content st5 -> file_is path content st6).
  { intros path content P I5.
    destruct (file_is_first_group path content P) as (H1 & H2 & H3 & H4 & _).
    rewrite (final_state _ _ _ _ Hv).
    now apply (verify_token_creation_keeps ext _ H1 H2 H3 H4). }
  assert (Step1 : exists r1 st7,
             (if revoke_mint
              then (let '(r, s) := revoke_mint_authority ext st6 in
                    (match r with inr v => v | inl _ => false end, s))
              else (false, st6)) = (r1, st7) /\
             fst st7 = fst st6 /\
             spawned (snd st7) =
               spawned (snd st6) ++
               (if revoke_mint then [revoke_command mint "mint"] else []) /\
             forall path content, path <> "creation_log.txt" ->
               file_is path content st6 -> file_is path content st7).
  { destruct revoke_mint.
    - destruct (revoke_mint_authority ext st6) as [x s] eqn:E.
      apply final_state in E. subst s. eexists _, _. split; [reflexivity|].
      split; [apply revoke_mint_authority_self|]. split.
      + apply revoke_mint_authority_trace; [now rewrite F6 | exact Tr].
      + intros path content P I6.
        destruct (file_is_first_group path content P) as (H1 & H2 & H3 & H4 & _).
        now apply (revoke_mint_authority_keeps ext _ H1 H2 H3 H4).
    - eexists _, _. split; [reflexivity|]. split; [reflexivity|].
      split; [now rewrite app_nil_r | auto]. }
  destruct Step1 as (r1 & st7 & E1 & F7 & S7 & K7). rewrite E1 in H.
  assert (Step2 : exists r2 st8,
             (if revoke_freeze
              then (let '(r, s) := revoke_freeze_authority ext st7 in
                    (match r with inr v => v | inl _ => false end, s))
              else (false, st7)) = (r2, st8) /\
             fst st8 = fst st7 /\
             spawned (snd st8) =
               spawned (snd st7) ++
               (if revoke_freeze then [revoke_command mint "freeze"] else []) /\
             forall path content, path <> "creation_log.txt" ->
               file_is path content st7 -> file_is path content st8).
  { destruct revoke_freeze.
    - destruct (revoke_freeze_authority ext st7) as [x s] eqn:E.
      apply final_state in E. subst s. eexists _, _. split; [reflexivity|].
      split; [apply revoke_freeze_authority_self|]. split.
      + apply revoke_freeze_authority_trace; [now rewrite F7, F6 | exact Tr].
      + intros path content P I7.
        destruct (file_is_first_group path content P) as (H1 & H2 & H3 & H4 & _).
        now apply (revoke_freeze_authority_keeps ext _ H1 H2 H3 H4).
    - eexists _, _. split; [reflexivity|]. split; [reflexivity|].
      split; [now rewrite app_nil_r | auto]. }
  destruct Step2 as (r2 & st8 & E2 & F8 & S8 & K8). rewrite E2 in H.
  injection H as _ <-.
  split; [now rewrite log_self, F8, F7, F6|]. split.
  - now rewrite log_spawned, S8, S7, <- app_assoc.
  - intros path content P I5.
    destruct (file_is_first_group path content P) as (H1 & H2 & _ & H4 & _).
    apply (log_keeps ext _ H1 H2 H4). auto.
Qed.

(** X3: a successful run has spawned, in this order and with nothing in
    between, the balance query, the mint creation, the account creation for
    that mint, the minting, the two verification queries and the requested
    revocations; the addresses in the commands are those of the result. *)
Theorem successful_run_spawns_the_workflow_in_order name symbol description
    supply decimals image_url revoke_mint revoke_freeze st res st' :
  create_token ext name symbol description supply decimals image_url
    revoke_mint revoke_freeze st = (inr res, st') ->
  dict_get "success" res = Some (PBool true) ->
  exists mint account,
    dict_get "mint_address" res = Some (PStr mint) /\
    dict_get "token_account" res = Some (PStr account) /\
    spawned (snd st') =
      spawned (snd st) ++
      workflow_commands (fst st) decimals supply mint account
        revoke_mint revoke_freeze.
Proof.
  intros H Hs.
  destruct (create_token_success_inv ext _ _ _ _ _ _ _ _ _ _ _ H Hs)
    as (m & a & md & st5 & st6 & Hr & Hv).
  destruct (after_verification_facts _ _ _ _ _ _ _ _ _ _ _ _ _ _ _ _ Hr Hv H)
    as (F & S & _).
  destruct (create_token_after_verification ext _ _ _ _ _ _ revoke_mint
              revoke_freeze _ _ _ _ _ _ Hr Hv)
    as (r1 & r2 & st'' & E & _).
  rewrite E in H. injection H as <- _.
  destruct (reaches_verification_facts _ _ _ _ _ _ _ _ _ _ _ Hr)
    as (M5 & _ & A5 & _ & S5 & _).
  destruct (verify_token_creation_trace st5 m a M5 A5)
    as (v & s6 & Hv' & Htr).
  rewrite Hv in Hv'. injection Hv' as <- <-.
  destruct Htr as [S6 | [Hf _]]; [|discriminate Hf].
  exists m, a. split; [reflexivity|]. split; [reflexivity|].
  rewrite S, S6, S5. unfold workflow_commands. now rewrite <- !app_assoc.
Qed.

(** X4: the metadata record of a successful run carries the caller's name,
    symbol, description and image, the mint address of the result and the
    network of the object; with it, the mint address is stored in
    [token_mint.txt] and in the object. *)
Theorem successful_run_records_what_it_created name symbol description
    supply decimals image_url revoke_mint revoke_freeze st res st' :
  log_file (fst st) = "creation_log.txt" ->
  create_token ext name symbol description supply decimals image_url
    revoke_mint revoke_freeze st = (inr res, st') ->
  dict_get "success" res = Some (PBool true) ->
  exists mint created_at,
    dict_get "mint_address" res = Some (PStr mint) /\
    dict_get "metadata" res =
      Some (PDict (metadata_record name symbol description image_url mint
                     created_at (network (fst st)))) /\
    fs (snd st') !! "token_mint.txt" = Some mint /\
    token_mint (fst st') = Some mint.
Proof.
  intros Hlog H Hs.
  destruct (create_token_success_inv ext _ _ _ _ _ _ _ _ _ _ _ H Hs)
    as (m & a & md & st5 & st6 & Hr & Hv).
  destruct (after_verification_facts _ _ _ _ _ _ _ _ _ _ _ _ _ _ _ _ Hr Hv H)
    as (F & _ & K).
  destruct (create_token_after_verification ext _ _ _ _ _ _ revoke_mint
              revoke_freeze _ _ _ _ _ _ Hr Hv)
    as (r1 & r2 & st'' & E & _).
  rewrite E in H. injection H as <- _.
  destruct (reaches_verification_facts _ _ _ _ _ _ _ _ _ _ _ Hr)
    as (M5 & _ & _ & (_ & _ & L5) & _ & (created_at & ->) & File5).
  exists m, created_at. repeat split.
  - assert (P : "token_mint.txt" <> "creation_log.txt") by discriminate.
    apply (K "token_mint.txt" (Some m) P). split; [now rewrite L5 | auto].
  - now rewrite F.
Qed.

(** *** The result is always a result *)

Lemma create_token_network name symbol description supply decimals image_url
    revoke_mint revoke_freeze st :
  network (fst (exec (create_token ext name symbol description supply decimals
                        image_url revoke_mint revoke_freeze) st)) =
  network (fst st).
Proof.
  apply (create_token_keeps ext (fun st' : St => network (fst st') = network (fst st)));
    solve [ reflexivity | intros; assumption | intros [? ?] ? H; exact H ].
Qed.

(** The shape of what [create_token] returns. *)
Lemma create_token_result_shape name symbol description supply
    decimals image_url revoke_mint revoke_freeze st :
  exists res st',
    create_token ext name symbol description supply decimals image_url
      revoke_mint revoke_freeze st = (inr res, st') /\
    dict_get "network" res = Some (PStr (network (fst st))) /\
    (dict_get "success" res = Some (PBool true) /\ dict_get "error" res = None \/
     exists msg, res = failure_result msg (network (fst st))).
Proof.
  pose proof (create_token_network name symbol description supply decimals
                image_url revoke_mint revoke_freeze st) as N.
  unfold exec in N. revert N. unfold create_token. step_log.
  unfold try_except.
  match goal with
  | |- context [match ?c ?s with _ => _ end] => destruct (c s) as [[e|r] stx] eqn:E
  end.
  - rewrite bind_get_self. step_log. unfold ret. cbn [fst snd].
    rewrite log_self. intros N. rewrite N.
    eexists _, _. split; [reflexivity|]. split; [reflexivity|].
    right. now eexists.
  - cbn [snd]. intros N.
    repeat (apply bind_inv_ok in E as (? & ? & ? & E)).
    unfold ret in E. injection E as <- <-.
    match goal with
    | H : get_self _ = (inr _, _) |- _ => apply get_self_inv in H as [-> ->]
    end.
    match goal with
    | H : log ext "Token creation completed successfully!" true _ = _ |- _ =>
        apply log_inv in H as ->
    end.
    rewrite log_self in N. rewrite N.
    eexists _, _. split; [reflexivity|].
    match goal with
    | |- context [match ?l with [] => false | _ :: _ => true end] => destruct l
    end; (split; [reflexivity|]); left; split; reflexivity.
Qed.

(** X5: whatever [create_token] returns is one of two dictionaries, both
    carrying the network of the object: the success dictionary, with the
    mint address, the account address, the metadata and one outcome per
    revocation requested, or exactly the three keys of a failure.  So every
    key [main] reads from a result is there. *)
Theorem create_token_results_have_two_shapes name symbol description supply
    decimals image_url revoke_mint revoke_freeze st res st' :
  create_token ext name symbol description supply decimals image_url
    revoke_mint revoke_freeze st = (inr res, st') ->
  (exists mint account metadata mint_revoked freeze_revoked,
     res = success_result mint account metadata (network (fst st))
             (revocation_dict revoke_mint revoke_freeze
                mint_revoked freeze_revoked)) \/
  (exists msg, res = failure_result msg (network (fst st))).
Proof.
  intros H.
  destruct (create_token_result_shape name symbol description supply decimals
              image_url revoke_mint revoke_freeze st)
    as (res0 & st0 & E & _ & [[Hs _] | [msg Hres]]);
    rewrite E in H; injection H as <- <-.
  - left.
    destruct (create_token_success_inv ext _ _ _ _ _ _ _ _ _ _ _ E Hs)
      as (m & a & md & st5 & st6 & Hr & Hv).
    destruct (create_token_after_verification ext _ _ _ _ _ _ revoke_mint
                revoke_freeze _ _ _ _ _ _ Hr Hv)
      as (r1 & r2 & st'' & E' & _).
    rewrite E' in E. injection E as <- _. now exists m, a, md, r1, r2.
  - right. now exists msg.
Qed.

(** C7: in every invocation in which only the freeze revocation is
    requested, the result carries no mint-authority outcome, neither at the
    top nor among its revocation outcomes, and when it reports its
    revocations, that is when it is a success, they hold the freeze
    outcome; and once verification has passed the run is a success whatever
    the requested revocations return, so a failed revocation never turns a
    success into a failure. *)
Theorem revocations_are_reported_and_never_fatal name symbol description
    supply decimals image_url :
  (forall st res st',
     create_token ext name symbol description supply decimals image_url
       false true st = (inr res, st') ->
     dict_get "mint_authority_revoked" res = None /\
     match dict_get "authority_revocation" res with
     | Some (PDict revocation) =>
         dict_get "mint_authority_revoked" revocation = None
     | _ => True
     end /\
     (dict_get "success" res = Some (PBool true) ->
      exists revocation outcome,
        dict_get "authority_revocation" res = Some (PDict revocation) /\
        dict_get "freeze_authority_revoked" revocation = Some (PBool outcome) /\
        dict_get "mint_authority_revoked" revocation = None)) /\
  (forall revoke_mint revoke_freeze st mint account metadata st5 st6,
     reaches_verification ext name symbol description supply decimals image_url
       st mint account metadata st5 ->
     verify_token_creation ext st5 = (inr true, st6) ->
     exists mint_revoked freeze_revoked st',
       create_token ext name symbol description supply decimals image_url
         revoke_mint revoke_freeze st =
       (inr (success_result mint account metadata (network (fst st))
               (revocation_dict revoke_mint revoke_freeze
                  mint_revoked freeze_revoked)), st')).
Proof.
  split.
  - intros st res st' H.
    destruct (create_token_result_shape name symbol description supply decimals
                image_url false true st)
      as (res0 & st0 & E & _ & [[Hs _] | [msg Hres]]);
      rewrite E in H; injection H as <- <-.
    + destruct (create_token_success_inv ext _ _ _ _ _ _ _ _ _ _ _ E Hs)
        as (m & a & md & st5 & st6 & Hr & Hv).
      destruct (create_token_after_verification ext _ _ _ _ _ _ false true
                  _ _ _ _ _ _ Hr Hv)
        as (r1 & r2 & st'' & E' & _).
      rewrite E' in E. injection E as <- _.
      split; [reflexivity|]. split; [reflexivity|]. intros _.
      exists [("freeze_authority_revoked", PBool r2)], r2. repeat split.
    + subst res0. split; [reflexivity|]. split; [exact I|].
      intros Hs. discriminate Hs.
  - intros revoke_mint revoke_freeze st m a md st5 st6 Hr Hv.
    destruct (create_token_after_verification ext _ _ _ _ _ _ revoke_mint
                revoke_freeze _ _ _ _ _ _ Hr Hv)
      as (r1 & r2 & st'' & E & _).
    now exists r1, r2, st''.
Qed.

(** *** Revocation *)

(** X6: without a mint in the object, neither revocation spawns anything;
    both return false. *)
Theorem revocation_without_a_mint_spawns_nothing st :
  attr_truthy (token_mint (fst st)) = false ->
  (fst (revoke_mint_authority ext st) = inr false /\
   spawned (snd (exec (revoke_mint_authority ext) st)) = spawned (snd st)) /\
  (fst (revoke_freeze_authority ext st) = inr false /\
   spawned (snd (exec (revoke_freeze_authority ext) st)) = spawned (snd st)).
Proof.
  intros Hm. unfold exec, revoke_mint_authority, revoke_freeze_authority.
  rewrite !bind_get_self, Hm. cbn [negb].
  erewrite !bind_ok by apply log_total. unfold ret. cbn [fst snd].
  now rewrite log_spawned.
Qed.

Lemma revocation_outcome (kind started ok failed error : string) st mint :
  let body :=
    try_except
      (bind (log ext started true) (fun _ =>
       bind (str_arg 2 (Some mint)) (fun m =>
       bind (run_command ext ["spl-token"; "authorize"; m; kind; "--disable"])
         (fun result =>
            if Z.eqb (returncode result) 0
            then bind (log ext ok true) (fun _ => ret true)
            else bind (log ext (failed +:+ stderr result) true) (fun _ => ret false)))))
      (fun e => bind (log ext (error +:+ exn_str e) true) (fun _ => ret false)) in
  fst (body st) =
  inr match
        subprocess_run ext
          (snd (exec (log ext ("Executing: " +:+ join " " (revoke_command mint kind)) true)
                  (exec (log ext started true) st)))
          (revoke_command mint kind)
      with
      | Completed rc _ _ => Z.eqb rc 0
      | SpawnError _ => false
      end.
Proof.
  cbv zeta. rewrite try_except_log. unfold str_arg. rewrite bind_ret.
  fold (revoke_command mint kind).
  pose proof (run_command_result ext (revoke_command mint kind)
                (exec (log ext started true) st)) as R.
  cbv zeta in R. unfold try_except, bind at 1.
  destruct (subprocess_run ext _ (revoke_command mint kind)) as [rc so se|msg].
  - destruct (Z.eqb rc 0) eqn:Erc.
    + destruct (run_command ext _ _) as [[e|r] s]; cbn [fst] in R; [discriminate R|].
      injection R as ->. cbn [returncode]. rewrite Erc. step_log. reflexivity.
    + destruct R as [msg R].
      destruct (run_command ext _ _) as [[e|r] s]; cbn [fst] in R; [|discriminate R].
      step_log. reflexivity.
  - destruct (run_command ext _ _) as [[e|r] s]; cbn [fst] in R; [|discriminate R].
    step_log. reflexivity.
Qed.

(** X7: with a mint in the object, a revocation never raises and returns
    true exactly when its [spl-token authorize] command exits with status
    0; a nonzero exit and a command that cannot be started both give
    false. *)
Theorem revocation_returns_the_exit_status st mint :
  token_mint (fst st) = Some mint ->
  str_truthy mint = true ->
  fst (revoke_mint_authority ext st) =
    inr match
          subprocess_run ext
            (snd (exec (log ext ("Executing: " +:+
                                 join " " (revoke_command mint "mint")) true)
                    (exec (log ext "Revoking mint authority..." true) st)))
            (revoke_command mint "mint")
        with
        | Completed rc _ _ => Z.eqb rc 0
        | SpawnError _ => false
        end /\
  fst (revoke_freeze_authority ext st) =
    inr match
          subprocess_run ext
            (snd (exec (log ext ("Executing: " +:+
                                 join " " (revoke_command mint "freeze")) true)
                    (exec (log ext "Revoking freeze authority..." true) st)))
            (revoke_command mint "freeze")
        with
        | Completed rc _ _ => Z.eqb rc 0
        | SpawnError _ => false
        end.
Proof.
  intros Hm Ht. split.
  - unfold revoke_mint_authority. rewrite bind_get_self, Hm.
    cbn [attr_truthy]. rewrite Ht. cbn [negb].
    apply (revocation_outcome "mint" "Revoking mint authority..."
             "Mint authority revoked successfully"
             "Failed to revoke mint authority: "
             "Error revoking mint authority: ").
  - unfold revoke_freeze_authority. rewrite bind_get_self, Hm.
    cbn [attr_truthy]. rewrite Ht. cbn [negb].
    apply (revocation_outcome "freeze" "Revoking freeze authority..."
             "Freeze authority revoked successfully"
             "Failed to revoke freeze authority: "
             "Error revoking freeze authority: ").
Qed.

(** *** Any run *)



(** *** Single steps, on their own *)

(** X19: [run_command] hands back successes only: a process it returns has
    exit status 0, and it was spawned last.  Every other outcome leaves
    [run_command] as an exception. *)
Theorem run_command_returns_only_successes command st result st' :
  run_command ext command st = (inr result, st') ->
  returncode result = 0%Z /\
  spawned (snd st') = spawned (snd st) ++ [command].
Proof.
  intros H.
  pose proof (run_command_result ext command st) as R. cbv zeta in R.
  pose proof (run_command_spawned ext command st) as S. unfold exec in S.
  rewrite H in R, S. cbn [fst snd] in R, S. split; [|exact S].
  destruct (subprocess_run ext _ command) as [rc so se|msg]; [|discriminate R].
  destruct (Z.eqb rc 0) eqn:E; [|destruct R as [? R]; discriminate R].
  injection R as ->. cbn [returncode]. now apply Z.eqb_eq.
Qed.

(** X20: verification looks at exit statuses only.  For a tool that answers
    the supply query and the balance query the same way whenever asked,
    [verify_token_creation] returns true exactly when both exit with status
    0, whatever numbers they print. *)
Theorem verification_checks_exit_statuses_only st mint account
    rc1 out1 err1 rc2 out2 err2 :
  token_mint (fst st) = Some mint ->
  token_account (fst st) = Some account ->
  (forall w, subprocess_run ext w (supply_command mint) = Completed rc1 out1 err1) ->
  (forall w, subprocess_run ext w (account_balance_command account)
             = Completed rc2 out2 err2) ->
  fst (verify_token_creation ext st) = inr (Z.eqb rc1 0 && Z.eqb rc2 0).
Proof.
  intros Hm Ha H1 H2. unfold verify_token_creation. step_log.
  set (st0 := exec (log ext "Verifying token creation..." true) st).
  assert (H0 : fst st0 = fst st) by apply log_self.
  rewrite try_except_get_self. cbv beta. rewrite H0, Hm, Ha.
  unfold str_arg. rewrite bind_ret.
  unfold try_except. unfold bind at 1.
  pose proof (run_command_result ext (supply_command mint) st0) as R1.
  cbv zeta in R1. rewrite H1 in R1. fold (supply_command mint).
  destruct (run_command ext (supply_command mint) st0) as [[e|r1] st1];
    cbn [fst] in R1.
  - destruct (Z.eqb rc1 0); [discriminate R1|]. step_log. reflexivity.
  - destruct (Z.eqb rc1 0); [|destruct R1 as [? R1]; discriminate R1].
    step_log. rewrite bind_ret. unfold bind at 1.
    set (st1' := exec (log ext _ true) st1).
    pose proof (run_command_result ext (account_balance_command account) st1') as R2.
    cbv zeta in R2. rewrite H2 in R2. fold (account_balance_command account).
    destruct (run_command ext (account_balance_command account) st1')
      as [[e|r2] st2]; cbn [fst] in R2.
    + destruct (Z.eqb rc2 0); [discriminate R2|]. step_log. reflexivity.
    + destruct (Z.eqb rc2 0); [|destruct R2 as [? R2]; discriminate R2].
      step_log. reflexivity.
Qed.

(** X21: the mint check reads the attribute, not the output.  On an object
    that already holds a mint, a mint creation that exits with status 0 but
    prints no 'Creating token' line does not fail: it returns the mint the
    object held and writes that one to [token_mint.txt]. *)
Theorem unmarked_output_reuses_a_held_mint decimals st held result st2 :
  log_file (fst st) = "creation_log.txt" ->
  token_mint (fst st) = Some held ->
  str_truthy held = true ->
  run_command ext (mint_command (fst st) decimals)
    (exec (log ext "Creating token mint..." true) st) = (inr result, st2) ->
  Forall (fun line => contains "Creating token" line = false)
    (splitlines_nl (strip (stdout result))) ->
  fst (create_token_mint ext decimals st) = inr held /\
  fs (snd (exec (create_token_mint ext decimals) st)) !! "token_mint.txt" =
    Some held.
Proof.
  intros Hlog Hheld Htruthy Hrun Hlines.
  pose proof (run_command_self ext (mint_command (fst st) decimals)
                (exec (log ext "Creating token mint..." true) st)) as Hself.
  unfold exec at 1 in Hself. rewrite Hrun, log_self in Hself. cbn [snd] in Hself.
  assert (E : create_token_mint ext decimals st =
              (inr held,
               (fst st,
                write_file "token_mint.txt" held
                  (snd (exec (log ext ("Token mint created: " +:+ held) true) st2))))).
  { unfold create_token_mint. step_log. unfold try_except.
    unfold bind at 1. unfold get_self at 1, gets. cbv iota beta.
    rewrite log_self. fold (mint_command (fst st) decimals).
    erewrite bind_ok by exact Hrun.
    rewrite (first_marked_none _ _ Hlines).
    unfold bind at 1, ret at 1. unfold bind at 1, get_self at 1, gets. cbv iota beta.
    rewrite Hself, Hheld, Htruthy.
    step_log.
    pose proof (log_self ext ("Token mint created: " +:+ held) true st2) as Hs3.
    destruct (exec (log ext ("Token mint created: " +:+ held) true) st2)
      as [self3 w3].
    cbn [fst snd] in *.
    unfold bind, on_world, modify, ret. cbn [fst snd]. now rewrite Hs3, Hself. }
  unfold exec. rewrite E. cbn [fst snd write_file fs].
  split; [reflexivity | apply lookup_insert_eq].
Qed.

(** X22: without a mint in the object, the steps that need one stop at the
    command line they cannot build: account creation and minting raise the
    [TypeError] of [' '.join], verification returns false, and none of them
    spawns a process. *)
Theorem steps_without_a_mint_spawn_nothing amount st :
  token_mint (fst st) = None ->
  let no_mint :=
    LibraryError "TypeError"
      "sequence item 2: expected str instance, NoneType found" in
  (fst (create_token_account ext st) = inl no_mint /\
   spawned (snd (exec (create_token_account ext) st)) = spawned (snd st)) /\
  (fst (mint_tokens ext amount st) = inl no_mint /\
   spawned (snd (exec (mint_tokens ext amount) st)) = spawned (snd st)) /\
  (fst (verify_token_creation ext st) = inr false /\
   spawned (snd (exec (verify_token_creation ext) st)) = spawned (snd st)).
Proof.
  intros Hm. cbv zeta.
  unfold exec, create_token_account, mint_tokens, verify_token_creation.
  repeat split; step_log; rewrite try_except_get_self; cbv beta;
    rewrite log_self, Hm; unfold str_arg, try_except;
    unfold bind at 1, raise at 1; step_log;
    unfold raise, ret; cbn [fst snd]; rewrite ?log_spawned; reflexivity.
Qed.

End Workflow.

(** *** The command line *)

(** X9: a missing wallet file, decimals outside 0..9 and a supply that is
    not positive are each rejected with one printed error and exit status
    1, before the log file is created and before any process is spawned.
    The first check that fails decides the message: the wallet file is
    looked at first, then the decimals, then the supply. *)
Theorem invalid_arguments_are_rejected_without_effect ext args w :
  path_exists (arg_wallet_path args) w = false \/
  (arg_decimals args < 0)%Z \/ (9 < arg_decimals args)%Z \/
  (arg_supply args <= 0)%Z ->
  exists msg,
    main ext args w = (inr 1%Z, print msg w) /\
    spawned (print msg w) = spawned w /\
    fs (print msg w) = fs w /\
    (path_exists (arg_wallet_path args) w = false ->
     msg = "Error: Wallet file not found: " +:+ arg_wallet_path args) /\
    (path_exists (arg_wallet_path args) w = true ->
     (arg_decimals args < 0)%Z \/ (9 < arg_decimals args)%Z ->
     msg = "Error: Decimals must be between 0 and 9") /\
    (path_exists (arg_wallet_path args) w = true ->
     (0 <= arg_decimals args <= 9)%Z ->
     msg = "Error: Supply must be greater than 0").
Proof.
  intros H. unfold main, bind, gets.
  destruct (path_exists (arg_wallet_path args) w) eqn:Ew; cbn [negb].
  - destruct (Z.ltb (arg_decimals args) 0 || Z.gtb (arg_decimals args) 9) eqn:Ed.
    + apply orb_true_iff in Ed.
      rewrite Z.ltb_lt, Z.gtb_ltb, Z.ltb_lt in Ed.
      eexists. split; [reflexivity|]. split; [reflexivity|].
      split; [reflexivity|]. split; [discriminate|].
      split; [reflexivity|]. intros _ Hd. exfalso. lia.
    + apply orb_false_iff in Ed as [Ed1 Ed2].
      apply Z.ltb_ge in Ed1. rewrite Z.gtb_ltb in Ed2. apply Z.ltb_ge in Ed2.
      destruct (Z.leb (arg_supply args) 0) eqn:Es.
      * eexists. split; [reflexivity|]. split; [reflexivity|].
        split; [reflexivity|]. split; [discriminate|].
        split; [|reflexivity]. intros _ Hd. exfalso. lia.
      * exfalso. apply Z.leb_gt in Es.
        destruct H as [H | [H | [H | H]]]; [discriminate H | lia | lia | lia].
  - eexists. split; [reflexivity|]. split; [reflexivity|].
    split; [reflexivity|]. split; [reflexivity|].
    split; discriminate.
Qed.

Lemma invalid_arguments_are_rejected_without_effect_witness :
  main (Scenarios.scripted Scenarios.healthy) MoreScenarios.args_without_supply
    Scenarios.fresh_dir =
    (inr 1%Z, print "Error: Supply must be greater than 0" Scenarios.fresh_dir) /\
  spawned (print "Error: Supply must be greater than 0" Scenarios.fresh_dir) = [] /\
  fs (print "Error: Supply must be greater than 0" Scenarios.fresh_dir) =
    fs Scenarios.fresh_dir.
Proof.
  destruct (invalid_arguments_are_rejected_without_effect
              (Scenarios.scripted Scenarios.healthy)
              MoreScenarios.args_without_supply Scenarios.fresh_dir)
    as (msg & Hmain & Hs & Hf & _ & _ & Hmsg).
  - right. right. right. simpl. lia.
  - assert (E : msg = "Error: Supply must be greater than 0")
      by (apply Hmsg; [reflexivity | simpl; lia]).
    rewrite E in Hmain, Hs, Hf. now repeat split.
Defined.




(** *** The facts above on the scripted tool *)

Lemma create_token_touches_only_its_artifacts_witness :
  fs (snd (exec (create_token (Scenarios.scripted Scenarios.healthy)
                   "Test" "TST" "" 500 6 "" true true)
             (Scenarios.creator_in Scenarios.healthy))) !! "wallet.json" =
  fs (snd (Scenarios.creator_in Scenarios.healthy)) !! "wallet.json".
Proof.
  apply (create_token_touches_only_its_artifacts
           (Scenarios.scripted Scenarios.healthy) "Test" "TST" "" 500 6 ""
           true true (Scenarios.creator_in Scenarios.healthy) "wallet.json").
  - reflexivity.
  - discriminate.
  - discriminate.
  - discriminate.
Defined.

Lemma create_token_only_appends_to_the_log_witness :
  exists added,
    fs (snd (exec (create_token (Scenarios.scripted Scenarios.supply_down)
                     "Test" "TST" "" 500 6 "" false false)
               (Scenarios.creator_in Scenarios.supply_down)))
      !! "creation_log.txt" =
    Some (log_header (Scenarios.fixed_now 0) "devnet" +:+ added).
Proof.
  apply (create_token_only_appends_to_the_log
           (Scenarios.scripted Scenarios.supply_down) "Test" "TST" "" 500 6 ""
           false false (Scenarios.creator_in Scenarios.supply_down)).
  - reflexivity.
  - vm_compute. reflexivity.
Defined.

Lemma successful_run_spawns_the_workflow_in_order_witness :
  exists mint account,
    dict_get "mint_address"
      (success_result Scenarios.mint_id Scenarios.account_id
         Scenarios.recorded_metadata "devnet"
         (revocation_dict true true true true)) = Some (PStr mint) /\
    dict_get "token_account"
      (success_result Scenarios.mint_id Scenarios.account_id
         Scenarios.recorded_metadata "devnet"
         (revocation_dict true true true true)) = Some (PStr account) /\
    spawned (snd (snd (Scenarios.run Scenarios.healthy 6 true true))) =
      spawned (snd (Scenarios.creator_in Scenarios.healthy)) ++
      workflow_commands (fst (Scenarios.creator_in Scenarios.healthy)) 6 500
        mint account true true.
Proof.
  apply (successful_run_spawns_the_workflow_in_order
           (Scenarios.scripted Scenarios.healthy) "Test" "TST" "" 500 6 ""
           true true (Scenarios.creator_in Scenarios.healthy)).
  - vm_compute. reflexivity.
  - reflexivity.
Defined.

Lemma successful_run_records_what_it_created_witness :
  exists mint created_at,
    dict_get "mint_address"
      (success_result Scenarios.mint_id Scenarios.account_id
         Scenarios.recorded_metadata "devnet" []) = Some (PStr mint) /\
    dict_get "metadata"
      (success_result Scenarios.mint_id Scenarios.account_id
         Scenarios.recorded_metadata "devnet" []) =
      Some (PDict (metadata_record "Test" "TST" "" "" mint created_at
                     (network (fst (Scenarios.creator_in Scenarios.healthy))))) /\
    fs (snd (snd (Scenarios.run Scenarios.healthy 6 false false)))
      !! "token_mint.txt" = Some mint /\
    token_mint (fst (snd (Scenarios.run Scenarios.healthy 6 false false))) = Some mint.
Proof.
  apply (successful_run_records_what_it_created
           (Scenarios.scripted Scenarios.healthy) "Test" "TST" "" 500 6 ""
           false false (Scenarios.creator_in Scenarios.healthy)).
  - reflexivity.
  - vm_compute. reflexivity.
  - reflexivity.
Defined.

Lemma revocations_are_reported_and_never_fatal_witness :
  (dict_get "mint_authority_revoked"
     (success_result Scenarios.mint_id Scenarios.account_id
        Scenarios.recorded_metadata "devnet"
        [("freeze_authority_revoked", PBool true)]) = None /\
   match
     dict_get "authority_revocation"
       (success_result Scenarios.mint_id Scenarios.account_id
          Scenarios.recorded_metadata "devnet"
          [("freeze_authority_revoked", PBool true)])
   with
   | Some (PDict revocation) =>
       dict_get "mint_authority_revoked" revocation = None
   | _ => True
   end /\
   exists revocation outcome,
     dict_get "authority_revocation"
       (success_result Scenarios.mint_id Scenarios.account_id
          Scenarios.recorded_metadata "devnet"
          [("freeze_authority_revoked", PBool true)]) = Some (PDict revocation) /\
     dict_get "freeze_authority_revoked" revocation = Some (PBool outcome) /\
     dict_get "mint_authority_revoked" revocation = None) /\
  (exists mint_revoked freeze_revoked st',
     Scenarios.run Scenarios.authorize_down 6 true true =
     (inr (success_result Scenarios.mint_id Scenarios.account_id
             Scenarios.recorded_metadata "devnet"
             (revocation_dict true true mint_revoked freeze_revoked)), st')).
Proof.
  split.
  - destruct (proj1 (revocations_are_reported_and_never_fatal
                       (Scenarios.scripted Scenarios.healthy)
                       "Test" "TST" "" 500 6 "")
                (Scenarios.creator_in Scenarios.healthy)
                (success_result Scenarios.mint_id Scenarios.account_id
                   Scenarios.recorded_metadata "devnet"
                   [("freeze_authority_revoked", PBool true)])
                (snd (Scenarios.run Scenarios.healthy 6 false true)))
      as (Htop & Hunder & Hfreeze).
    + vm_compute. reflexivity.
    + split; [exact Htop|]. split; [exact Hunder|]. apply Hfreeze. reflexivity.
  - apply (proj2 (revocations_are_reported_and_never_fatal
                    (Scenarios.scripted Scenarios.authorize_down)
                    "Test" "TST" "" 500 6 ""))
      with (st5 := Scenarios.before_verification Scenarios.authorize_down 6)
           (st6 := exec (verify_token_creation
                           (Scenarios.scripted Scenarios.authorize_down))
                     (Scenarios.before_verification Scenarios.authorize_down 6)).
    + reach_by_running Scenarios.authorize_down 6%Z.
    + vm_compute. reflexivity.
Defined.

Lemma create_token_results_have_two_shapes_witness :
  (exists mint account metadata mint_revoked freeze_revoked,
     success_result Scenarios.mint_id Scenarios.account_id
       Scenarios.recorded_metadata "devnet" (revocation_dict true true true true) =
     success_result mint account metadata
       (network (fst (Scenarios.creator_in Scenarios.healthy)))
       (revocation_dict true true mint_revoked freeze_revoked)) \/
  (exists msg,
     success_result Scenarios.mint_id Scenarios.account_id
       Scenarios.recorded_metadata "devnet" (revocation_dict true true true true) =
     failure_result msg (network (fst (Scenarios.creator_in Scenarios.healthy)))).
Proof.
  apply (create_token_results_have_two_shapes
           (Scenarios.scripted Scenarios.healthy) "Test" "TST" "" 500 6 ""
           true true (Scenarios.creator_in Scenarios.healthy)
           (success_result Scenarios.mint_id Scenarios.account_id
              Scenarios.recorded_metadata "devnet"
              (revocation_dict true true true true))
           (snd (Scenarios.run Scenarios.healthy 6 true true))).
  vm_compute. reflexivity.
Defined.

Lemma revocation_without_a_mint_spawns_nothing_witness :
  (fst (revoke_mint_authority (Scenarios.scripted Scenarios.healthy)
          (Scenarios.creator_in Scenarios.healthy)) = inr false /\
   spawned (snd (exec (revoke_mint_authority (Scenarios.scripted Scenarios.healthy))
                   (Scenarios.creator_in Scenarios.healthy))) =
   spawned (snd (Scenarios.creator_in Scenarios.healthy))) /\
  (fst (revoke_freeze_authority (Scenarios.scripted Scenarios.healthy)
          (Scenarios.creator_in Scenarios.healthy)) = inr false /\
   spawned (snd (exec (revoke_freeze_authority (Scenarios.scripted Scenarios.healthy))
                   (Scenarios.creator_in Scenarios.healthy))) =
   spawned (snd (Scenarios.creator_in Scenarios.healthy))).
Proof.
  apply (revocation_without_a_mint_spawns_nothing
           (Scenarios.scripted Scenarios.healthy)
           (Scenarios.creator_in Scenarios.healthy)).
  reflexivity.
Defined.

Lemma revocation_returns_the_exit_status_witness :
  fst (revoke_mint_authority (Scenarios.scripted Scenarios.authorize_down)
         (Scenarios.before_verification Scenarios.authorize_down 6)) =
    inr match
          subprocess_run (Scenarios.scripted Scenarios.authorize_down)
            (snd (exec (log (Scenarios.scripted Scenarios.authorize_down)
                          ("Executing: " +:+
                           join " " (revoke_command Scenarios.mint_id "mint")) true)
                    (exec (log (Scenarios.scripted Scenarios.authorize_down)
                             "Revoking mint authority..." true)
                       (Scenarios.before_verification Scenarios.authorize_down 6))))
            (revoke_command Scenarios.mint_id "mint")
        with
        | Completed rc _ _ => Z.eqb rc 0
        | SpawnError _ => false
        end /\
  fst (revoke_freeze_authority (Scenarios.scripted Scenarios.authorize_down)
         (Scenarios.before_verification Scenarios.authorize_down 6)) =
    inr match
          subprocess_run (Scenarios.scripted Scenarios.authorize_down)
            (snd (exec (log (Scenarios.scripted Scenarios.authorize_down)
                          ("Executing: " +:+
                           join " " (revoke_command Scenarios.mint_id "freeze")) true)
                    (exec (log (Scenarios.scripted Scenarios.authorize_down)
                             "Revoking freeze authority..." true)
                       (Scenarios.before_verification Scenarios.authorize_down 6))))
            (revoke_command Scenarios.mint_id "freeze")
        with
        | Completed rc _ _ => Z.eqb rc 0
        | SpawnError _ => false
        end.
Proof.
  apply (revocation_returns_the_exit_status
           (Scenarios.scripted Scenarios.authorize_down)
           (Scenarios.before_verification Scenarios.authorize_down 6)
           Scenarios.mint_id).
  - vm_compute. reflexivity.
  - reflexivity.
Defined.

Lemma run_command_returns_only_successes_witness :
  returncode {| returncode := 0; stdout := "1.5 SOL" +:+ nl; stderr := "" |}
    = 0%Z /\
  spawned (snd (exec (run_command (Scenarios.scripted Scenarios.healthy)
                        ["solana"; "balance"; "--keypair"; "wallet.json"])
                  (Scenarios.creator_in Scenarios.healthy))) =
  spawned (snd (Scenarios.creator_in Scenarios.healthy)) ++
  [["solana"; "balance"; "--keypair"; "wallet.json"]].
Proof.
  apply (run_command_returns_only_successes
           (Scenarios.scripted Scenarios.healthy)
           ["solana"; "balance"; "--keypair"; "wallet.json"]
           (Scenarios.creator_in Scenarios.healthy)
           {| returncode := 0; stdout := "1.5 SOL" +:+ nl; stderr := "" |}
           (exec (run_command (Scenarios.scripted Scenarios.healthy)
                    ["solana"; "balance"; "--keypair"; "wallet.json"])
              (Scenarios.creator_in Scenarios.healthy))).
  vm_compute. reflexivity.
Defined.

Lemma verification_checks_exit_statuses_only_witness :
  fst (verify_token_creation (Scenarios.scripted Scenarios.supply_down)
         (Scenarios.before_verification Scenarios.supply_down 6)) =
  inr (Z.eqb 1 0 && Z.eqb 0 0).
Proof.
  apply (verification_checks_exit_statuses_only
           (Scenarios.scripted Scenarios.supply_down)
           (Scenarios.before_verification Scenarios.supply_down 6)
           Scenarios.mint_id Scenarios.account_id
           1 "" "Error: RPC request failed" 0 ("500" +:+ nl) "").
  - vm_compute. reflexivity.
  - vm_compute. reflexivity.
  - intros w. reflexivity.
  - intros w. reflexivity.
Defined.

Lemma unmarked_output_reuses_a_held_mint_witness :
  fst (create_token_mint (Scenarios.scripted Scenarios.unmarked_mint) 6
         MoreScenarios.creator_holding_a_mint) =
    inr MoreScenarios.earlier_mint /\
  fs (snd (exec (create_token_mint (Scenarios.scripted Scenarios.unmarked_mint) 6)
             MoreScenarios.creator_holding_a_mint)) !! "token_mint.txt" =
    Some MoreScenarios.earlier_mint.
Proof.
  pose (ext := Scenarios.scripted Scenarios.unmarked_mint).
  pose (st := MoreScenarios.creator_holding_a_mint).
  refine (unmarked_output_reuses_a_held_mint ext 6 st MoreScenarios.earlier_mint
            {| returncode := 0;
               stdout := Scenarios.mint_stdout Scenarios.unmarked_mint;
               stderr := "" |}
            (exec (run_command ext (mint_command (fst st) 6))
               (exec (log ext "Creating token mint..." true) st))
            _ _ _ _ _).
  - reflexivity.
  - reflexivity.
  - reflexivity.
  - vm_compute. reflexivity.
  - vm_compute. repeat constructor.
Defined.

Lemma steps_without_a_mint_spawn_nothing_witness :
  let no_mint :=
    LibraryError "TypeError"
      "sequence item 2: expected str instance, NoneType found" in
  (fst (create_token_account (Scenarios.scripted Scenarios.healthy)
          (Scenarios.creator_in Scenarios.healthy)) = inl no_mint /\
   spawned (snd (exec (create_token_account (Scenarios.scripted Scenarios.healthy))
                   (Scenarios.creator_in Scenarios.healthy))) =
   spawned (snd (Scenarios.creator_in Scenarios.healthy))) /\
  (fst (mint_tokens (Scenarios.scripted Scenarios.healthy) 500
          (Scenarios.creator_in Scenarios.healthy)) = inl no_mint /\
   spawned (snd (exec (mint_tokens (Scenarios.scripted Scenarios.healthy) 500)
                   (Scenarios.creator_in Scenarios.healthy))) =
   spawned (snd (Scenarios.creator_in Scenarios.healthy))) /\
  (fst (verify_token_creation (Scenarios.scripted Scenarios.healthy)
          (Scenarios.creator_in Scenarios.healthy)) = inr false /\
   spawned (snd (exec (verify_token_creation (Scenarios.scripted Scenarios.healthy))
                   (Scenarios.creator_in Scenarios.healthy))) =
   spawned (snd (Scenarios.creator_in Scenarios.healthy))).
Proof.
  apply (steps_without_a_mint_spawn_nothing
           (Scenarios.scripted Scenarios.healthy) 500
           (Scenarios.creator_in Scenarios.healthy)).
  reflexivity.
Defined.

End WorkflowFacts.

(** ** More on the Report Renderer *)

Module ReportFacts.

Import GenerateReport.

Section Report.

Context (ext : Externals).

(** *** The steps of the renderer, case by case *)

Lemma report_run_command_cases command w :
  run_command ext command w =
  match subprocess_run ext w command with
  | Completed rc so se =>
      if Z.eqb rc 0
      then (inr (Some {| returncode := rc; stdout := so; stderr := se |}),
            snd (spawn ext command w))
      else (inr None,
            print ("Error: " +:+
                   (if str_truthy se then se
                    else called_process_error_str ext command rc))
              (print ("Command failed: " +:+ join " " command)
                 (snd (spawn ext command w))))
  | SpawnError msg =>
      (inl (LibraryError "OSError" msg), snd (spawn ext command w))
  end.
Proof.
  unfold run_command, bind, with_state, spawn, modify, ret, raise. cbn [snd].
  destruct (subprocess_run ext w command) as [rc so se|msg]; [|reflexivity].
  destruct (Z.eqb rc 0); reflexivity.
Qed.

Lemma get_token_info_cases self w :
  get_token_info ext self w =
  match run_command ext (report_supply_command self) w with
  | (inl e, w1) =>
      (inr unknown_token_info,
       print ("Error getting token info: " +:+ exn_str e) w1)
  | (inr result, w1) =>
      let supply :=
        match result with
        | Some r => strip (stdout r)
        | None => "Unknown"
        end in
      match run_command ext (report_account_command self) w1 with
      | (inl e, w2) =>
          (inr unknown_token_info,
           print ("Error getting token info: " +:+ exn_str e) w2)
      | (inr None, w2) =>
          (inr [("supply", PStr supply); ("account_info", PDict [])], w2)
      | (inr (Some r), w2) =>
          match json_loads ext (stdout r) with
          | inl msg =>
              (inr unknown_token_info,
               print ("Error getting token info: " +:+ msg) w2)
          | inr v => (inr [("supply", PStr supply); ("account_info", v)], w2)
          end
      end
  end.
Proof.
  unfold get_token_info, try_except, bind, modify, ret, raise,
    report_supply_command, report_account_command, unknown_token_info.
  destruct (run_command ext ["spl-token"; "supply"; mint_address self] w)
    as [[e|r1] w1]; [reflexivity|].
  cbv zeta.
  destruct (run_command ext _ w1) as [[e|[r2|]] w2]; try reflexivity.
  destruct (json_loads ext (stdout r2)); reflexivity.
Qed.

Lemma load_metadata_cases w :
  match fs w !! "token_metadata.json" with
  | None => load_metadata ext w = (inr (PDict []), w)
  | Some content =>
      match json_loads ext content with
      | inl msg =>
          load_metadata ext w =
          (inr (PDict []), print ("Error loading metadata: " +:+ msg) w)
      | inr v => load_metadata ext w = (inr v, w)
      end
  end.
Proof.
  unfold load_metadata, try_except, bind, gets, path_exists, ret, raise, modify.
  destruct (fs w !! "token_metadata.json") as [content|] eqn:E; [|reflexivity].
  cbv beta iota. rewrite E. cbn [default from_option id].
  destruct (json_loads ext content); reflexivity.
Qed.

Lemma load_creation_log_total w :
  load_creation_log w =
  (inr (default "Creation log not available" (fs w !! "creation_log.txt")), w).
Proof.
  unfold load_creation_log, try_except, bind, gets, path_exists, ret.
  destruct (fs w !! "creation_log.txt") eqn:E; [|reflexivity].
  cbv beta iota. now rewrite E.
Qed.

Lemma get_token_info_fs self w :
  fs (exec (get_token_info ext self) w) = fs w.
Proof.
  exact (RendererFacts.get_token_info_keeps ext (fun w' => fs w' = fs w) self
           (fun _ _ H => H) (fun _ _ H => H) w eq_refl).
Qed.

(** Rendering reads files; it writes none. *)
Lemma generate_html_report_fs self wallet_address w :
  fs (exec (generate_html_report ext self wallet_address) w) = fs w.
Proof.
  assert (K : preserves (fun w' => fs w' = fs w)
                (generate_html_report ext self wallet_address)).
  { unfold generate_html_report, load_metadata, load_creation_log.
    repeat keep_step;
      try (apply preserves_modify; intros ? H; exact H);
      try (apply RendererFacts.get_token_info_keeps; intros; assumption);
      try (intros ? H; exact H). }
  exact (K w eq_refl).
Qed.

Lemma report_refused self wallet_address w token_info w1 v w2 :
  get_token_info ext self w = (inr token_info, w1) ->
  load_metadata ext w1 = (inr v, w2) ->
  is_dict v = false ->
  generate_html_report ext self wallet_address w = (inl (no_get_attribute v), w2).
Proof.
  intros Hinfo Hmeta Hv. unfold generate_html_report.
  erewrite bind_ok by exact Hinfo.
  erewrite bind_ok by exact Hmeta.
  erewrite bind_ok by apply load_creation_log_total.
  destruct v; try discriminate Hv; reflexivity.
Qed.

Lemma report_rendered self wallet_address w token_info w1 md w2 :
  get_token_info ext self w = (inr token_info, w1) ->
  load_metadata ext w1 = (inr (PDict md), w2) ->
  exists doc,
    generate_html_report ext self wallet_address w =
    (inr doc, snd (read_clock ext w2)).
Proof.
  intros Hinfo Hmeta. unfold generate_html_report.
  erewrite bind_ok by exact Hinfo.
  erewrite bind_ok by exact Hmeta.
  erewrite bind_ok by apply load_creation_log_total.
  eexists. reflexivity.
Qed.

Lemma main_raises m n wallet_address w e w1 :
  generate_html_report ext (__init__ m n) wallet_address w = (inl e, w1) ->
  main ext m n wallet_address w = (inl e, w1).
Proof.
  intros H. unfold main, save_report.
  erewrite bind_err; [reflexivity|].
  erewrite bind_err; [reflexivity|exact H].
Qed.

Lemma main_saves m n wallet_address w doc w1 :
  generate_html_report ext (__init__ m n) wallet_address w = (inr doc, w1) ->
  exists w',
    main ext m n wallet_address w = (inr 0%Z, w') /\
    fs w' = <["token_report.html" := doc]> (fs w1) /\
    console w' = console w1 ++ report_saved_lines.
Proof.
  intros H. unfold main, save_report.
  eexists. split.
  - erewrite bind_ok; [|erewrite bind_ok by exact H; reflexivity].
    reflexivity.
  - split; [reflexivity|].
    cbn [console print write_file]. unfold report_saved_lines.
    now rewrite <- !app_assoc.
Qed.

(** The outcome of [main], from the metadata the renderer loads. *)
Lemma main_cases m n wallet_address w :
  (fst (main ext m n wallet_address w) = inr 0%Z /\
   exists doc,
     fst (generate_html_report ext (__init__ m n) wallet_address w) = inr doc /\
     fs (exec (main ext m n wallet_address) w) =
       <["token_report.html" := doc]> (fs w)) \/
  (exists content v,
     fs w !! "token_metadata.json" = Some content /\
     json_loads ext content = inr v /\
     is_dict v = false /\
     main ext m n wallet_address w =
       (inl (no_get_attribute v), exec (get_token_info ext (__init__ m n)) w)).
Proof.
  destruct (RendererFacts.get_token_info_total ext (__init__ m n) w)
    as [token_info Hinfo].
  pose proof (get_token_info_fs (__init__ m n) w) as Hfs.
  set (w1 := exec (get_token_info ext (__init__ m n)) w) in *.
  assert (Good : forall md w2,
             load_metadata ext w1 = (inr (PDict md), w2) ->
             fs w2 = fs w ->
             fst (main ext m n wallet_address w) = inr 0%Z /\
             exists doc,
               fst (generate_html_report ext (__init__ m n) wallet_address w)
                 = inr doc /\
               fs (exec (main ext m n wallet_address) w) =
                 <["token_report.html" := doc]> (fs w)).
  { intros md w2 Hmeta Hfs2.
    destruct (report_rendered (__init__ m n) wallet_address w token_info w1 md w2
                Hinfo Hmeta) as [doc Hdoc].
    destruct (main_saves m n wallet_address w doc _ Hdoc) as (w' & Hmain & Hw' & _).
    unfold exec. rewrite Hmain, Hdoc. cbn [fst snd]. split; [reflexivity|].
    exists doc. split; [reflexivity|]. rewrite Hw'. cbn [read_clock snd fs].
    now rewrite Hfs2. }
  pose proof (load_metadata_cases w1) as Hcases. rewrite Hfs in Hcases.
  destruct (fs w !! "token_metadata.json") as [content|] eqn:Efile.
  - destruct (json_loads ext content) as [msg|v] eqn:Ejson.
    + left. apply (Good [] _ Hcases). exact Hfs.
    + destruct (is_dict v) eqn:Ev.
      * left. destruct v; try discriminate Ev. apply (Good _ _ Hcases). exact Hfs.
      * right. exists content, v. repeat split; try assumption.
        apply main_raises.
        apply (report_refused (__init__ m n) wallet_address w token_info w1 v w1
                 Hinfo Hcases Ev).
  - left. apply (Good [] _ Hcases). exact Hfs.
Qed.

(** *** The live query *)

(** X11: the live query never raises and never touches a file: whatever
    the tool does, it returns a dictionary with exactly a [supply] string
    and an [account_info]. *)
Theorem live_query_always_answers self w :
  exists supply account_info,
    fst (get_token_info ext self w) =
      inr [("supply", PStr supply); ("account_info", account_info)] /\
    fs (exec (get_token_info ext self) w) = fs w.
Proof.
  assert (H : exists supply account_info w',
             get_token_info ext self w =
             (inr [("supply", PStr supply); ("account_info", account_info)], w')).
  { rewrite get_token_info_cases. unfold unknown_token_info.
    destruct (run_command ext (report_supply_command self) w) as [[e|r1] w1];
      [now eexists _, _, _|].
    cbv zeta.
    destruct (run_command ext (report_account_command self) w1)
      as [[e|[r2|]] w2]; try (now eexists _, _, _).
    destruct (json_loads ext (stdout r2)); now eexists _, _, _. }
  destruct H as (supply & account_info & w' & H).
  exists supply, account_info. split; [now rewrite H | apply get_token_info_fs].
Qed.

(** X12: a supply query that exits with a nonzero status costs the report
    only the supply: it reads 'Unknown', and the account query is still
    made, right after it. *)
Theorem failed_supply_query_costs_only_the_supply self w rc out err :
  subprocess_run ext w (report_supply_command self) = Completed rc out err ->
  rc <> 0%Z ->
  (exists account_info,
     fst (get_token_info ext self w) =
     inr [("supply", PStr "Unknown"); ("account_info", account_info)]) /\
  spawned (exec (get_token_info ext self) w) =
    spawned w ++ [report_supply_command self; report_account_command self].
Proof.
  intros Hrun Hrc.
  assert (H : exists account_info w',
             get_token_info ext self w =
             (inr [("supply", PStr "Unknown"); ("account_info", account_info)], w') /\
             spawned w' =
             spawned w ++ [report_supply_command self; report_account_command self]).
  { rewrite get_token_info_cases, report_run_command_cases, Hrun.
    destruct (Z.eqb_spec rc 0) as [|_]; [contradiction|].
    cbv zeta. rewrite report_run_command_cases. unfold unknown_token_info.
    match goal with
    | |- context [subprocess_run ext ?w1 (report_account_command self)] =>
        destruct (subprocess_run ext w1 (report_account_command self))
          as [rc2 so2 se2|msg]
    end.
    - destruct (Z.eqb rc2 0).
      + cbn [stdout]. destruct (json_loads ext so2);
          eexists _, _; (split; [reflexivity|]);
          cbn [print spawn snd spawned]; now rewrite <- app_assoc.
      + eexists _, _. split; [reflexivity|].
        cbn [print spawn snd spawned]. now rewrite <- app_assoc.
    - eexists _, _. split; [reflexivity|].
      cbn [print spawn snd spawned]. now rewrite <- app_assoc. }
  destruct H as (account_info & w' & H & Hs).
  unfold exec. rewrite H. split; [now exists account_info | exact Hs].
Qed.

(** X13: when both queries exit with status 0, the output of the account
    query decides both fields: if it parses as JSON, the report gets the
    stripped supply and the parsed account; if it does not, the supply that
    was read is dropped as well, and one error line is printed. *)
Theorem account_output_decides_both_fields self w out err out2 err2 :
  subprocess_run ext w (report_supply_command self) = Completed 0 out err ->
  subprocess_run ext (snd (spawn ext (report_supply_command self) w))
    (report_account_command self) = Completed 0 out2 err2 ->
  fst (get_token_info ext self w) =
    inr match json_loads ext out2 with
        | inr account_info =>
            [("supply", PStr (strip out)); ("account_info", account_info)]
        | inl _ => unknown_token_info
        end /\
  console (exec (get_token_info ext self) w) =
    console w ++
    match json_loads ext out2 with
    | inr _ => []
    | inl msg => ["Error getting token info: " +:+ msg]
    end.
Proof.
  intros Hrun Hrun2. unfold exec.
  rewrite get_token_info_cases, report_run_command_cases, Hrun.
  cbn [Z.eqb]. cbv zeta. rewrite report_run_command_cases, Hrun2.
  cbn [Z.eqb stdout].
  destruct (json_loads ext out2); cbn [fst snd print spawn console].
  - now split.
  - split; [reflexivity | now rewrite app_nil_r].
Qed.

(** *** The report *)

(** X14: a metadata file that does not parse is reported on the console and
    then treated like a missing one: the renderer returns the document with
    the placeholders in every metadata field. *)
Theorem unreadable_metadata_renders_the_fallback self wallet_address w content msg :
  fs w !! "token_metadata.json" = Some content ->
  json_loads ext content = inl msg ->
  exists token_info w1,
    get_token_info ext self w = (inr token_info, w1) /\
    generate_html_report ext self wallet_address w =
    (inr (report_without_metadata ext self wallet_address
            (py_str ext (get_or "supply" (PStr "Unknown") token_info))
            (datetime_now ext (clock w1))
            (default "Creation log not available" (fs w !! "creation_log.txt"))),
     snd (read_clock ext (print ("Error loading metadata: " +:+ msg) w1))).
Proof.
  intros Hfile Hjson.
  destruct (RendererFacts.get_token_info_total ext self w) as [token_info Hinfo].
  pose proof (get_token_info_fs self w) as Hfs.
  set (w1 := exec (get_token_info ext self) w) in *.
  exists token_info, w1. split; [exact Hinfo|].
  pose proof (load_metadata_cases w1) as Hmeta.
  rewrite Hfs, Hfile, Hjson in Hmeta.
  unfold generate_html_report.
  erewrite bind_ok by exact Hinfo.
  erewrite bind_ok by exact Hmeta.
  erewrite bind_ok by apply load_creation_log_total.
  cbn [print fs]. rewrite Hfs. reflexivity.
Qed.

(** X15: a metadata file that parses to something other than an object (a
    list, a string, [null]) makes the renderer fail with the
    [AttributeError] of [metadata.get]; no report is written, and no file
    is changed. *)
Theorem metadata_that_is_no_object_aborts_the_report m n wallet_address w content v :
  fs w !! "token_metadata.json" = Some content ->
  json_loads ext content = inr v ->
  is_dict v = false ->
  fst (main ext m n wallet_address w) = inl (no_get_attribute v) /\
  fs (exec (main ext m n wallet_address) w) = fs w.
Proof.
  intros Hfile Hjson Hv.
  destruct (main_cases m n wallet_address w)
    as [[_ (doc & Hdoc & _)] | (content' & v' & Hfile' & Hjson' & _ & Hmain)].
  - exfalso.
    destruct (RendererFacts.get_token_info_total ext (__init__ m n) w)
      as [token_info Hinfo].
    pose proof (load_metadata_cases (exec (get_token_info ext (__init__ m n)) w))
      as Hmeta.
    rewrite get_token_info_fs, Hfile, Hjson in Hmeta.
    rewrite (report_refused _ wallet_address _ _ _ _ _ Hinfo Hmeta Hv) in Hdoc.
    discriminate Hdoc.
  - rewrite Hfile in Hfile'. injection Hfile' as <-.
    rewrite Hjson in Hjson'. injection Hjson' as <-.
    unfold exec. rewrite Hmain. cbn [fst snd].
    split; [reflexivity | apply get_token_info_fs].
Qed.

(** X16: rendering fails in one way only.  Whatever the tool answers and
    whatever is in the working directory, [generate_html_report] either
    returns a document, or the metadata file holds JSON that is no object
    and it raises the [AttributeError] for that value. *)
Theorem rendering_fails_only_for_metadata_that_is_no_object self wallet_address w :
  (exists doc, fst (generate_html_report ext self wallet_address w) = inr doc) \/
  (exists content v,
     fs w !! "token_metadata.json" = Some content /\
     json_loads ext content = inr v /\
     is_dict v = false /\
     fst (generate_html_report ext self wallet_address w) =
       inl (no_get_attribute v)).
Proof.
  destruct (RendererFacts.get_token_info_total ext self w) as [token_info Hinfo].
  pose proof (get_token_info_fs self w) as Hfs.
  set (w1 := exec (get_token_info ext self) w) in *.
  assert (Good : forall md w2,
             load_metadata ext w1 = (inr (PDict md), w2) ->
             exists doc,
               fst (generate_html_report ext self wallet_address w) = inr doc).
  { intros md w2 Hmeta.
    destruct (report_rendered self wallet_address w token_info w1 md w2
                Hinfo Hmeta) as [doc Hdoc].
    exists doc. now rewrite Hdoc. }
  pose proof (load_metadata_cases w1) as Hcases. rewrite Hfs in Hcases.
  destruct (fs w !! "token_metadata.json") as [content|] eqn:Efile.
  - destruct (json_loads ext content) as [msg|v] eqn:Ejson.
    + left. exact (Good [] _ Hcases).
    + destruct (is_dict v) eqn:Ev.
      * left. destruct v; try discriminate Ev. exact (Good _ _ Hcases).
      * right. exists content, v. repeat split; try assumption.
        now rewrite (report_refused self wallet_address w token_info w1 v w1
                       Hinfo Hcases Ev).
  - left. exact (Good [] _ Hcases).
Qed.

(** X17: [main] writes the report file and nothing else.  No other file
    is changed, however [main] ends; when [main] returns, it returns 0,
    [token_report.html] holds the document that rendering returned and the
    four closing lines were printed after it; when rendering raises, the
    exception passes through [main] and the report file is not opened. *)
Theorem main_writes_exactly_the_report m n wallet_address w :
  (forall path,
     path <> "token_report.html" ->
     fs (exec (main ext m n wallet_address) w) !! path = fs w !! path) /\
  (forall rc w',
     main ext m n wallet_address w = (inr rc, w') ->
     rc = 0%Z /\
     exists doc w1,
       generate_html_report ext (__init__ m n) wallet_address w = (inr doc, w1) /\
       fs w' = <["token_report.html" := doc]> (fs w) /\
       console w' = console w1 ++ report_saved_lines) /\
  (forall e w1,
     generate_html_report ext (__init__ m n) wallet_address w = (inl e, w1) ->
     main ext m n wallet_address w = (inl e, w1) /\ fs w1 = fs w).
Proof.
  pose proof (generate_html_report_fs (__init__ m n) wallet_address w) as Hfs.
  unfold exec in *.
  destruct (generate_html_report ext (__init__ m n) wallet_address w)
    as [[e|doc] w1] eqn:E; cbn [snd] in Hfs.
  - rewrite (main_raises _ _ _ _ _ _ E). cbn [snd]. split; [|split].
    + intros path _. now rewrite Hfs.
    + intros rc w' H. discriminate H.
    + intros e' w1' H. injection H as <- <-. now split.
  - destruct (main_saves _ _ _ _ _ _ E) as (w' & Hmain & Hw' & Hc).
    rewrite Hmain. cbn [snd]. split; [|split].
    + intros path Hp. rewrite Hw', Hfs. now apply lookup_insert_ne.
    + intros rc w'' H. injection H as <- <-. split; [reflexivity|].
      exists doc, w1. split; [reflexivity|]. split; [now rewrite Hw', Hfs | exact Hc].
    + intros e w1' H. discriminate H.
Qed.

(** *** From the provisioner to the report *)

(** X18: the two scripts fit together.  After a successful run of
    [create_token], and with a JSON library that reads back the record it
    dumped, the renderer started in the same directory for the mint address
    of the result returns the report of that token: the caller's name,
    symbol, description and image, the decimals as recorded (9), the
    creation time of the record, the log the run wrote and the metadata file
    as it is on disk. *)
Theorem report_after_provisioning_shows_the_token name symbol description supply
    decimals image_url revoke_mint revoke_freeze st res st' md wallet_address :
  CreateToken.log_file (fst st) = "creation_log.txt" ->
  CreateToken.create_token ext name symbol description supply decimals image_url
    revoke_mint revoke_freeze st = (inr res, st') ->
  dict_get "success" res = Some (PBool true) ->
  dict_get "metadata" res = Some (PDict md) ->
  json_loads ext (json_dumps ext (PDict md)) = inr (PDict md) ->
  exists mint created_at creation_log token_info w1,
    dict_get "mint_address" res = Some (PStr mint) /\
    fs (snd st') !! "creation_log.txt" = Some creation_log /\
    get_token_info ext (__init__ mint (CreateToken.network (fst st))) (snd st')
      = (inr token_info, w1) /\
    generate_html_report ext (__init__ mint (CreateToken.network (fst st)))
      wallet_address (snd st') =
    (inr (report_with_metadata (__init__ mint (CreateToken.network (fst st)))
            wallet_address name symbol description "9" created_at image_url
            (json_dumps ext (PDict md))
            (py_str ext (get_or "supply" (PStr "Unknown") token_info))
            (datetime_now ext (clock w1)) creation_log),
     snd (read_clock ext w1)).
Proof.
  intros Hlog H Hs Hmd Hjson.
  assert (Hl : log_starts_with "" st').
  { rewrite (ProvisionerFacts.final_state _ _ _ _ H).
    apply ProvisionerFacts.create_token_extends_log.
    destruct st as [self w]. cbn [fst] in Hlog. split.
    - rewrite ProvisionerFacts.log_self. exact Hlog.
    - unfold exec, CreateToken.log, bind, CreateToken.get_self, gets,
        CreateToken.with_world, with_state, CreateToken.on_world, modify, ret.
      cbn. rewrite Hlog, lookup_insert_eq. now eexists. }
  destruct Hl as [_ [creation_log Hl]].
  change ("" +:+ creation_log) with creation_log in Hl.
  destruct (ProvisionerFacts.create_token_success_inv ext _ _ _ _ _ _ _ _ _ _ _ H Hs)
    as (mint & account & md' & st5 & st6 & Hr & Hv).
  destruct (ProvisionerFacts.create_token_after_verification ext _ _ _ _ _ _
              revoke_mint revoke_freeze _ _ _ _ _ _ Hr Hv)
    as (r1 & r2 & st'' & E & Hdisk).
  rewrite E in H. injection H as <- <-.
  change (Some (PDict md') = Some (PDict md)) in Hmd. injection Hmd as ->.
  destruct (ProvisionerFacts.reaches_verification_metadata ext _ _ _ _ _ _ _ _ _ _ _
              Hr Hlog) as [_ Hd5].
  apply Hdisk in Hd5. destruct Hd5 as [_ Hfile].
  destruct (WorkflowFacts.reaches_verification_facts ext _ _ _ _ _ _ _ _ _ _ _ Hr)
    as (_ & _ & _ & _ & _ & (created_at & Hrec) & _).
  set (self := __init__ mint (CreateToken.network (fst st))).
  destruct (RendererFacts.get_token_info_total ext self (snd st''))
    as [token_info Hinfo].
  pose proof (get_token_info_fs self (snd st'')) as Hfs.
  set (w1 := exec (get_token_info ext self) (snd st'')) in *.
  exists mint, created_at, creation_log, token_info, w1.
  split; [reflexivity|]. split; [exact Hl|]. split; [exact Hinfo|].
  pose proof (load_metadata_cases w1) as Hmeta.
  rewrite Hfs, Hfile, Hjson in Hmeta.
  pose proof (load_creation_log_total w1) as Hlogfile.
  rewrite Hfs, Hl in Hlogfile. cbn [default from_option id] in Hlogfile.
  unfold generate_html_report.
  erewrite bind_ok by exact Hinfo.
  erewrite bind_ok by exact Hmeta.
  erewrite bind_ok by exact Hlogfile.
  rewrite Hrec. reflexivity.
Qed.

End Report.

(** *** The facts above on the scripted tool *)

Lemma failed_supply_query_costs_only_the_supply_witness :
  (exists account_info,
     fst (get_token_info (Scenarios.scripted Scenarios.supply_down)
            (__init__ Scenarios.mint_id "devnet") Scenarios.fresh_dir) =
     inr [("supply", PStr "Unknown"); ("account_info", account_info)]) /\
  spawned (exec (get_token_info (Scenarios.scripted Scenarios.supply_down)
                   (__init__ Scenarios.mint_id "devnet")) Scenarios.fresh_dir) =
    spawned Scenarios.fresh_dir ++
    [report_supply_command (__init__ Scenarios.mint_id "devnet");
     report_account_command (__init__ Scenarios.mint_id "devnet")].
Proof.
  apply (failed_supply_query_costs_only_the_supply
           (Scenarios.scripted Scenarios.supply_down)
           (__init__ Scenarios.mint_id "devnet") Scenarios.fresh_dir
           1 "" "Error: RPC request failed").
  - reflexivity.
  - discriminate.
Defined.

Lemma account_output_decides_both_fields_witness :
  fst (get_token_info MoreScenarios.text_account
         (__init__ Scenarios.mint_id "devnet") Scenarios.fresh_dir) =
    inr match
          json_loads MoreScenarios.text_account
            ("Public Key: " +:+ Scenarios.mint_id +:+ nl +:+
             "Balance: 0.0014616 SOL")
        with
        | inr account_info =>
            [("supply", PStr (strip ("500" +:+ nl)));
             ("account_info", account_info)]
        | inl _ => unknown_token_info
        end /\
  console (exec (get_token_info MoreScenarios.text_account
                   (__init__ Scenarios.mint_id "devnet")) Scenarios.fresh_dir) =
    console Scenarios.fresh_dir ++
    match
      json_loads MoreScenarios.text_account
        ("Public Key: " +:+ Scenarios.mint_id +:+ nl +:+ "Balance: 0.0014616 SOL")
    with
    | inr _ => []
    | inl msg => ["Error getting token info: " +:+ msg]
    end.
Proof.
  apply (account_output_decides_both_fields MoreScenarios.text_account
           (__init__ Scenarios.mint_id "devnet") Scenarios.fresh_dir
           ("500" +:+ nl) "" _ "").
  - reflexivity.
  - reflexivity.
Defined.

Lemma unreadable_metadata_renders_the_fallback_witness :
  exists token_info w1,
    get_token_info (Scenarios.scripted Scenarios.healthy)
      (__init__ Scenarios.mint_id "devnet")
      (MoreScenarios.dir_with_metadata "{name: Test") = (inr token_info, w1) /\
    generate_html_report (Scenarios.scripted Scenarios.healthy)
      (__init__ Scenarios.mint_id "devnet") ""
      (MoreScenarios.dir_with_metadata "{name: Test") =
    (inr (report_without_metadata (Scenarios.scripted Scenarios.healthy)
            (__init__ Scenarios.mint_id "devnet") ""
            (py_str (Scenarios.scripted Scenarios.healthy)
               (get_or "supply" (PStr "Unknown") token_info))
            (datetime_now (Scenarios.scripted Scenarios.healthy) (clock w1))
            (default "Creation log not available"
               (fs (MoreScenarios.dir_with_metadata "{name: Test")
                  !! "creation_log.txt"))),
     snd (read_clock (Scenarios.scripted Scenarios.healthy)
            (print ("Error loading metadata: " +:+
                    "Expecting value: line 1 column 1 (char 0)") w1))).
Proof.
  apply (unreadable_metadata_renders_the_fallback
           (Scenarios.scripted Scenarios.healthy)
           (__init__ Scenarios.mint_id "devnet") ""
           (MoreScenarios.dir_with_metadata "{name: Test") "{name: Test").
  - reflexivity.
  - reflexivity.
Defined.

Lemma metadata_that_is_no_object_aborts_the_report_witness :
  fst (main (MoreScenarios.reader Scenarios.healthy) Scenarios.mint_id "devnet" ""
         (MoreScenarios.dir_with_metadata "[]")) =
    inl (no_get_attribute (PList [])) /\
  fs (exec (main (MoreScenarios.reader Scenarios.healthy) Scenarios.mint_id
              "devnet" "") (MoreScenarios.dir_with_metadata "[]")) =
    fs (MoreScenarios.dir_with_metadata "[]").
Proof.
  apply (metadata_that_is_no_object_aborts_the_report
           (MoreScenarios.reader Scenarios.healthy) Scenarios.mint_id "devnet" ""
           (MoreScenarios.dir_with_metadata "[]") "[]" (PList [])).
  - reflexivity.
  - reflexivity.
  - reflexivity.
Defined.

Lemma main_writes_exactly_the_report_witness :
  fs (exec (main (Scenarios.scripted Scenarios.healthy) Scenarios.mint_id
              "devnet" "") Scenarios.fresh_dir) !! "wallet.json" =
    fs Scenarios.fresh_dir !! "wallet.json" /\
  (0%Z = 0%Z /\
   exists doc w1,
     generate_html_report (Scenarios.scripted Scenarios.healthy)
       (__init__ Scenarios.mint_id "devnet") "" Scenarios.fresh_dir =
       (inr doc, w1) /\
     fs (exec (main (Scenarios.scripted Scenarios.healthy) Scenarios.mint_id
                 "devnet" "") Scenarios.fresh_dir) =
       <["token_report.html" := doc]> (fs Scenarios.fresh_dir) /\
     console (exec (main (Scenarios.scripted Scenarios.healthy) Scenarios.mint_id
                      "devnet" "") Scenarios.fresh_dir) =
       console w1 ++ report_saved_lines) /\
  (main (MoreScenarios.reader Scenarios.healthy) Scenarios.mint_id "devnet" ""
     (MoreScenarios.dir_with_metadata "[]") =
     (inl (no_get_attribute (PList [])),
      exec (generate_html_report (MoreScenarios.reader Scenarios.healthy)
              (__init__ Scenarios.mint_id "devnet") "")
        (MoreScenarios.dir_with_metadata "[]")) /\
   fs (exec (generate_html_report (MoreScenarios.reader Scenarios.healthy)
               (__init__ Scenarios.mint_id "devnet") "")
         (MoreScenarios.dir_with_metadata "[]")) =
     fs (MoreScenarios.dir_with_metadata "[]")).
Proof.
  split; [|split].
  - apply (proj1 (main_writes_exactly_the_report
                    (Scenarios.scripted Scenarios.healthy) Scenarios.mint_id
                    "devnet" "" Scenarios.fresh_dir)).
    discriminate.
  - apply (proj1 (proj2 (main_writes_exactly_the_report
                           (Scenarios.scripted Scenarios.healthy) Scenarios.mint_id
                           "devnet" "" Scenarios.fresh_dir))).
    vm_compute. reflexivity.
  - apply (proj2 (proj2 (main_writes_exactly_the_report
                           (MoreScenarios.reader Scenarios.healthy)
                           Scenarios.mint_id "devnet" ""
                           (MoreScenarios.dir_with_metadata "[]")))).
    vm_compute. reflexivity.
Defined.

Lemma report_after_provisioning_shows_the_token_witness :
  exists mint created_at creation_log token_info w1,
    dict_get "mint_address"
      (success_result Scenarios.mint_id Scenarios.account_id
         Scenarios.recorded_metadata "devnet" []) = Some (PStr mint) /\
    fs (snd (snd MoreScenarios.run_of_reader)) !! "creation_log.txt" =
      Some creation_log /\
    get_token_info (MoreScenarios.reader Scenarios.healthy)
      (__init__ mint (CreateToken.network (fst MoreScenarios.creator_of_reader)))
      (snd (snd MoreScenarios.run_of_reader)) = (inr token_info, w1) /\
    generate_html_report (MoreScenarios.reader Scenarios.healthy)
      (__init__ mint (CreateToken.network (fst MoreScenarios.creator_of_reader)))
      "" (snd (snd MoreScenarios.run_of_reader)) =
    (inr (report_with_metadata
            (__init__ mint
               (CreateToken.network (fst MoreScenarios.creator_of_reader)))
            "" "Test" "TST" "" "9" created_at ""
            (json_dumps (MoreScenarios.reader Scenarios.healthy)
               (PDict Scenarios.recorded_metadata))
            (py_str (MoreScenarios.reader Scenarios.healthy)
               (get_or "supply" (PStr "Unknown") token_info))
            (datetime_now (MoreScenarios.reader Scenarios.healthy) (clock w1))
            creation_log),
     snd (read_clock (MoreScenarios.reader Scenarios.healthy) w1)).
Proof.
  apply (report_after_provisioning_shows_the_token
           (MoreScenarios.reader Scenarios.healthy) "Test" "TST" "" 500 6 ""
           false false MoreScenarios.creator_of_reader
           (success_result Scenarios.mint_id Scenarios.account_id
              Scenarios.recorded_metadata "devnet" [])
           (snd MoreScenarios.run_of_reader) Scenarios.recorded_metadata "").
  - reflexivity.
  - vm_compute. reflexivity.
  - reflexivity.
  - reflexivity.
  - vm_compute. reflexivity.
Defined.

End ReportFacts.
